(** * UVD 6.0 bring-up and ring protocol (drivers/gpu/drm/amd/amdgpu/uvd_v6_0.c)

    A shallow embedding of the driver's power/reset sequencer, ring protocol
    encoder and lifecycle controller.  The driver talks to the outside world
    only through register accesses, busy-wait delays, the ring transport and
    two resource-manager calls; every such call is recorded, in program
    order, in an event trace, and its answer is given by a [platform].  The
    theorems hold for every platform unless they name one. *)

From Stdlib Require Import ZArith List String Bool Lia.
Import ListNotations.
Local Open Scope Z_scope.

(** ** Machine integers *)

(** Conversion to [uint32_t] / [uint64_t]. *)
Definition u32 (x : Z) : Z := x mod 2 ^ 32.
Definition u64 (x : Z) : Z := x mod 2 ^ 64.

(** Modelled from the spec: the split of a 64-bit address into its low and
    high 32-bit halves; the macros of linux/kernel.h are not among the
    translated sources.  [lower_32_bits(n)] is [(u32)(n)],
    [upper_32_bits(n)] is [(u32)(((n) >> 16) >> 16)]. *)
Definition lower_32_bits (n : Z) : Z := u32 n.
Definition upper_32_bits (n : Z) : Z := u32 (Z.shiftr (Z.shiftr n 16) 16).

(** Modelled from the spec: the read-modify-write primitive of the register
    access layer, whose macro [WREG32_P] (amdgpu.h) is not among the
    translated sources.  This is the value [WREG32_P(reg, val, mask)] writes
    back when the register read [tmp_]: the bits of [mask] are kept and the
    others are taken from [val],
    [tmp_ &= (mask); tmp_ |= ((val) & ~(mask))]. *)
Definition rmw (tmp_ val mask : Z) : Z :=
  let tmp_ := u32 (Z.land tmp_ mask) in
  u32 (Z.lor tmp_ (Z.land val (Z.lnot mask))).

(** ** Registers named by the driver *)

Inductive reg : Set :=
| mmUVD_RBC_RB_RPTR | mmUVD_RBC_RB_WPTR | mmUVD_RBC_RB_CNTL
| mmUVD_RBC_RB_WPTR_CNTL | mmUVD_RBC_RB_RPTR_ADDR
| mmUVD_LMI_RBC_RB_64BIT_BAR_LOW | mmUVD_LMI_RBC_RB_64BIT_BAR_HIGH
| mmUVD_LMI_RBC_IB_64BIT_BAR_LOW | mmUVD_LMI_RBC_IB_64BIT_BAR_HIGH
| mmUVD_RBC_IB_SIZE
| mmUVD_SEMA_WAIT_FAULT_TIMEOUT_CNTL | mmUVD_SEMA_WAIT_INCOMPLETE_TIMEOUT_CNTL
| mmUVD_SEMA_SIGNAL_INCOMPLETE_TIMEOUT_CNTL | mmUVD_SEMA_TIMEOUT_STATUS
| mmUVD_SEMA_CNTL | mmUVD_SEMA_ADDR_LOW | mmUVD_SEMA_ADDR_HIGH | mmUVD_SEMA_CMD
| mmUVD_LMI_VCPU_CACHE_64BIT_BAR_LOW | mmUVD_LMI_VCPU_CACHE_64BIT_BAR_HIGH
| mmUVD_VCPU_CACHE_OFFSET0 | mmUVD_VCPU_CACHE_SIZE0
| mmUVD_VCPU_CACHE_OFFSET1 | mmUVD_VCPU_CACHE_SIZE1
| mmUVD_VCPU_CACHE_OFFSET2 | mmUVD_VCPU_CACHE_SIZE2
| mmUVD_POWER_STATUS | mmUVD_CGC_GATE | mmUVD_MASTINT_EN
| mmUVD_LMI_CTRL | mmUVD_LMI_CTRL2 | mmUVD_LMI_SWAP_CNTL | mmUVD_MP_SWAP_CNTL
| mmUVD_MPC_SET_MUXA0 | mmUVD_MPC_SET_MUXA1
| mmUVD_MPC_SET_MUXB0 | mmUVD_MPC_SET_MUXB1
| mmUVD_MPC_SET_ALU | mmUVD_MPC_SET_MUX
| mmUVD_SOFT_RESET | mmUVD_VCPU_CNTL | mmUVD_STATUS | mmUVD_CONTEXT_ID
| mmUVD_GPCOM_VCPU_CMD | mmUVD_GPCOM_VCPU_DATA0 | mmUVD_GPCOM_VCPU_DATA1
| mmSRBM_SOFT_RESET | mmSRBM_STATUS.

Scheme Equality for reg.

(** Fields of UVD_RBC_RB_CNTL set through [REG_SET_FIELD] in start. *)
Inductive rb_cntl_field : Set :=
| RB_BUFSZ | RB_BLKSZ | RB_NO_FETCH | RB_WPTR_POLL_EN | RB_NO_UPDATE
| RB_RPTR_WR_EN.

(** ** Declarations the driver takes from its headers

    The register headers, amdgpu.h, vid.h and errno are not part of the
    translated file: their constants and macro tables are parameters. *)
Record headers : Type := {
  PACKET0 : reg -> Z -> Z;
  UVD_SOFT_RESET__LMI_SOFT_RESET_MASK : Z;
  UVD_SOFT_RESET__VCPU_SOFT_RESET_MASK : Z;
  UVD_SOFT_RESET__LBSI_SOFT_RESET_MASK : Z;
  UVD_SOFT_RESET__RBC_SOFT_RESET_MASK : Z;
  UVD_SOFT_RESET__CSM_SOFT_RESET_MASK : Z;
  UVD_SOFT_RESET__CXW_SOFT_RESET_MASK : Z;
  UVD_SOFT_RESET__TAP_SOFT_RESET_MASK : Z;
  UVD_SOFT_RESET__LMI_UMC_SOFT_RESET_MASK : Z;
  SRBM_SOFT_RESET__SOFT_RESET_UVD_MASK : Z;
  SRBM_STATUS__UVD_BUSY_MASK : Z;
  UVD_RBC_RB_CNTL__RB_NO_FETCH_MASK : Z;
  UVD_RBC_RB_CNTL__MASK : rb_cntl_field -> Z;
  UVD_RBC_RB_CNTL__SHIFT : rb_cntl_field -> Z;
  order_base_2 : Z -> Z;
  AMDGPU_UVD_FIRMWARE_OFFSET : Z;
  AMDGPU_UVD_STACK_SIZE : Z;
  AMDGPU_UVD_HEAP_SIZE : Z;
  AMDGPU_GPU_PAGE_SIZE : Z;
  AMD_IS_APU : Z;
  AMDGPU_FENCE_FLAG_64BIT : Z;
  ETIMEDOUT : Z;
  EINVAL : Z;
  BIG_ENDIAN : bool
}.

(** ** Device data *)

Record amdgpu_ring : Type := {
  ready : bool;
  wptr : Z;
  ring_size : Z;
  gpu_addr : Z;
  idx : Z
}.

Record amdgpu_uvd : Type := {
  uvd_gpu_addr : Z;
  fw_size : Z;
  ring : amdgpu_ring
}.

Record amdgpu_device : Type := {
  flags : Z;
  usec_timeout : Z;
  uvd : amdgpu_uvd
}.

Record amdgpu_irq_src : Type := {
  num_types : Z
}.

Inductive amdgpu_interrupt_state : Set :=
| AMDGPU_IRQ_STATE_DISABLE | AMDGPU_IRQ_STATE_ENABLE.

Inductive amd_powergating_state : Set :=
| AMD_PG_STATE_GATE | AMD_PG_STATE_UNGATE.

(** ** Events: every call that leaves the translated file *)

Inductive loglevel : Set := KERN_ERR | KERN_INFO | KERN_WARN.

Inductive event : Type :=
| EvRReg (r : reg) (v : Z)            (* RREG32(r) returned v *)
| EvWReg (r : reg) (v : Z)            (* WREG32(r, v) *)
| EvMdelay (ms : Z)                   (* mdelay(ms) *)
| EvUdelay (us : Z)                   (* DRM_UDELAY(us) *)
| EvLog (l : loglevel) (fmt : string) (* DRM_ERROR / DRM_INFO / WARN_ON *)
| EvRingLock (ndw : Z) (res : Z)      (* amdgpu_ring_lock(ring, ndw) = res *)
| EvRingWrite (v : Z)                 (* amdgpu_ring_write(ring, v) *)
| EvRingUnlockCommit                  (* amdgpu_ring_unlock_commit(ring) *)
| EvUvdSuspend (res : Z)              (* amdgpu_uvd_suspend(adev) = res *)
| EvUvdResume (res : Z).              (* amdgpu_uvd_resume(adev) = res *)

(** ** Platform: the hardware and the external collaborators

    The register file is volatile: a read may return anything and changes
    the hardware state; writes, delays and the transport calls step it.  The
    ring transport keeps its own bookkeeping inside the platform state. *)
Record platform : Type := {
  hw_state : Type;
  hw_rreg : reg -> hw_state -> Z * hw_state;
  hw_wreg : reg -> Z -> hw_state -> hw_state;
  hw_mdelay : Z -> hw_state -> hw_state;
  hw_udelay : Z -> hw_state -> hw_state;
  ext_ring_lock : Z -> hw_state -> Z * hw_state;
  ext_ring_write : Z -> hw_state -> hw_state;
  ext_ring_unlock_commit : hw_state -> hw_state;
  ext_uvd_suspend : hw_state -> Z * hw_state;
  ext_uvd_resume : hw_state -> Z * hw_state
}.

Record world (P : platform) : Type := {
  hw : hw_state P;
  adev : amdgpu_device
}.
Arguments hw {P} _.
Arguments adev {P} _.
Arguments Build_world {P} _ _.

(** ** The driver monad: state passing with an output trace *)

Definition M (P : platform) (A : Type) : Type :=
  world P -> A * world P * list event.

Definition ret {P : platform} {A : Type} (a : A) : M P A :=
  fun w => (a, w, []).

Definition bind {P : platform} {A B : Type} (m : M P A) (f : A -> M P B)
  : M P B :=
  fun w =>
    let '(a, w1, t1) := m w in
    let '(b, w2, t2) := f a w1 in
    (b, w2, t1 ++ t2).

Declare Scope drv_scope.
Delimit Scope drv_scope with drv.
Notation "x <- c1 ;; c2" := (bind c1 (fun x => c2))
  (at level 61, c1 at next level, right associativity) : drv_scope.
Notation "c1 ;; c2" := (bind c1 (fun _ => c2))
  (at level 61, right associativity) : drv_scope.
Local Open Scope drv_scope.

(** Projections of one run. *)
Definition run_val {P A} (m : M P A) (w : world P) : A := fst (fst (m w)).
Definition run_world {P A} (m : M P A) (w : world P) : world P :=
  snd (fst (m w)).
Definition run_trace {P A} (m : M P A) (w : world P) : list event :=
  snd (m w).

(** A computation leaves the device data as it found it. *)
Definition keeps_adev {P A} (m : M P A) : Prop :=
  forall w, adev (run_world m w) = adev w.

(** Field updates on the device. *)
Definition set_hw {P} (h : hw_state P) (w : world P) : world P :=
  Build_world h (adev w).

Definition ring_set_ready (b : bool) (r : amdgpu_ring) : amdgpu_ring :=
  {| ready := b; wptr := wptr r; ring_size := ring_size r;
     gpu_addr := gpu_addr r; idx := idx r |}.

Definition ring_set_wptr (v : Z) (r : amdgpu_ring) : amdgpu_ring :=
  {| ready := ready r; wptr := v; ring_size := ring_size r;
     gpu_addr := gpu_addr r; idx := idx r |}.

Definition adev_map_ring (f : amdgpu_ring -> amdgpu_ring)
  (d : amdgpu_device) : amdgpu_device :=
  {| flags := flags d; usec_timeout := usec_timeout d;
     uvd := {| uvd_gpu_addr := uvd_gpu_addr (uvd d);
               fw_size := fw_size (uvd d);
               ring := f (ring (uvd d)) |} |}.

Definition map_ring {P} (f : amdgpu_ring -> amdgpu_ring) (w : world P)
  : world P :=
  Build_world (hw w) (adev_map_ring f (adev w)).

Section Driver.

Context {P : platform} (hd : headers).

(** *** Primitives *)

Definition get_adev : M P amdgpu_device := fun w => (adev w, w, []).

Definition get_ring : M P amdgpu_ring := fun w => (ring (uvd (adev w)), w, []).

Definition set_ring_ready (b : bool) : M P unit :=
  fun w => (tt, map_ring (ring_set_ready b) w, []).

Definition set_ring_wptr (v : Z) : M P unit :=
  fun w => (tt, map_ring (ring_set_wptr v) w, []).

(** [RREG32(reg)]: a [uint32_t] answered by the hardware. *)
Definition RREG32 (r : reg) : M P Z :=
  fun w =>
    let '(v, h) := hw_rreg P r (hw w) in
    (u32 v, set_hw h w, [EvRReg r (u32 v)]).

(** [WREG32(reg, v)]: the value is converted to [uint32_t]. *)
Definition WREG32 (r : reg) (v : Z) : M P unit :=
  fun w => (tt, set_hw (hw_wreg P r (u32 v) (hw w)) w, [EvWReg r (u32 v)]).

(** Modelled from the spec: [WREG32_P(reg, val, mask)], one register read
    followed by one write of [rmw]:
    [tmp_ = RREG32(reg); tmp_ &= (mask); tmp_ |= ((val) & ~(mask));
     WREG32(reg, tmp_)].  [val] and [mask] are C [int]s, kept as unbounded
    two's-complement integers; [tmp_] is a [uint32_t]. *)
Definition WREG32_P (r : reg) (val mask : Z) : M P unit :=
  tmp <- RREG32 r ;;
  WREG32 r (rmw tmp val mask).

Definition mdelay (ms : Z) : M P unit :=
  fun w => (tt, set_hw (hw_mdelay P ms (hw w)) w, [EvMdelay ms]).

Definition DRM_UDELAY (us : Z) : M P unit :=
  fun w => (tt, set_hw (hw_udelay P us (hw w)) w, [EvUdelay us]).

Definition DRM_ERROR (fmt : string) : M P unit :=
  fun w => (tt, w, [EvLog KERN_ERR fmt]).

Definition DRM_INFO (fmt : string) : M P unit :=
  fun w => (tt, w, [EvLog KERN_INFO fmt]).

(** Modelled from the spec: [WARN_ON(cond)] (asm-generic/bug.h, not among
    the translated sources) logs when the condition is non-zero. *)
Definition WARN_ON (cond : Z) : M P unit :=
  fun w => (tt, w,
            if cond =? 0 then [] else [EvLog KERN_WARN "WARN_ON"%string]).

(** [amdgpu_ring_lock(ring, ndw)]: the transport reserves [ndw] slots or
    answers an error code. *)
Definition amdgpu_ring_lock (ndw : Z) : M P Z :=
  fun w =>
    let '(r, h) := ext_ring_lock P ndw (hw w) in
    (r, set_hw h w, [EvRingLock ndw r]).

(** Modelled from the spec: [amdgpu_ring_write(ring, v)], the transport's
    slot write; the ring is a sequence of 32-bit words, so the argument is
    taken as a [uint32_t] and handed to the transport. *)
Definition amdgpu_ring_write (v : Z) : M P unit :=
  fun w => (tt, set_hw (ext_ring_write P (u32 v) (hw w)) w,
            [EvRingWrite (u32 v)]).

Definition amdgpu_ring_unlock_commit : M P unit :=
  fun w => (tt, set_hw (ext_ring_unlock_commit P (hw w)) w,
            [EvRingUnlockCommit]).

Definition amdgpu_uvd_suspend : M P Z :=
  fun w =>
    let '(r, h) := ext_uvd_suspend P (hw w) in
    (r, set_hw h w, [EvUvdSuspend r]).

Definition amdgpu_uvd_resume : M P Z :=
  fun w =>
    let '(r, h) := ext_uvd_resume P (hw w) in
    (r, set_hw h w, [EvUvdResume r]).

(** Modelled from the spec: the field update used to build the ring control
    word; the macro [REG_SET_FIELD] (amdgpu.h) is not among the translated
    sources.  [REG_SET_FIELD(orig, UVD_RBC_RB_CNTL, field, val)] is
    [((orig) & ~MASK) | (MASK & ((val) << SHIFT))], here in a [uint32_t]. *)
Definition REG_SET_FIELD (orig : Z) (f : rb_cntl_field) (val : Z) : Z :=
  u32 (Z.lor (Z.land orig (Z.lnot (UVD_RBC_RB_CNTL__MASK hd f)))
             (Z.land (UVD_RBC_RB_CNTL__MASK hd f)
                     (Z.shiftl val (UVD_RBC_RB_CNTL__SHIFT hd f)))).

(** Modelled from the spec: the round-up to the GPU page granularity; the
    macro [AMDGPU_GPU_PAGE_ALIGN] (amdgpu.h) is not among the translated
    sources.  [AMDGPU_GPU_PAGE_ALIGN(a)] is
    [((a) + AMDGPU_GPU_PAGE_MASK) & ~AMDGPU_GPU_PAGE_MASK], with
    [AMDGPU_GPU_PAGE_MASK = AMDGPU_GPU_PAGE_SIZE - 1]. *)
Definition AMDGPU_GPU_PAGE_MASK : Z := AMDGPU_GPU_PAGE_SIZE hd - 1.
Definition AMDGPU_GPU_PAGE_ALIGN (a : Z) : Z :=
  Z.land (a + AMDGPU_GPU_PAGE_MASK) (Z.lnot AMDGPU_GPU_PAGE_MASK).

(** C truth value of an [int]. *)
Definition nonzero (r : Z) : bool := negb (r =? 0).

(** *** Ring pointers *)

Definition uvd_v6_0_ring_get_rptr : M P Z := RREG32 mmUVD_RBC_RB_RPTR.

Definition uvd_v6_0_ring_get_wptr : M P Z := RREG32 mmUVD_RBC_RB_WPTR.

Definition uvd_v6_0_ring_set_wptr : M P unit :=
  ring <- get_ring ;;
  WREG32 mmUVD_RBC_RB_WPTR (wptr ring).

(** *** Memory controller programming *)

(** The successive values of the locals [offset] ([uint64_t]) and [size]
    ([uint32_t]) of [uvd_v6_0_mc_resume], one pair per cache region. *)
Definition mc_regions (fw_size : Z) : list (Z * Z) :=
  let offset := u64 (AMDGPU_UVD_FIRMWARE_OFFSET hd) in
  let size := u32 (AMDGPU_GPU_PAGE_ALIGN (fw_size + 4)) in
  let region0 := (offset, size) in
  let offset := u64 (offset + size) in
  let size := u32 (AMDGPU_UVD_STACK_SIZE hd) in
  let region1 := (offset, size) in
  let offset := u64 (offset + size) in
  let size := u32 (AMDGPU_UVD_HEAP_SIZE hd) in
  [region0; region1; (offset, size)].

Definition uvd_v6_0_mc_resume : M P unit :=
  d <- get_adev ;;
  (* programm memory controller bits 0-27 *)
  WREG32 mmUVD_LMI_VCPU_CACHE_64BIT_BAR_LOW
         (lower_32_bits (uvd_gpu_addr (uvd d))) ;;
  WREG32 mmUVD_LMI_VCPU_CACHE_64BIT_BAR_HIGH
         (upper_32_bits (uvd_gpu_addr (uvd d))) ;;
  let offset := u64 (AMDGPU_UVD_FIRMWARE_OFFSET hd) in
  let size := u32 (AMDGPU_GPU_PAGE_ALIGN (fw_size (uvd d) + 4)) in
  WREG32 mmUVD_VCPU_CACHE_OFFSET0 (Z.shiftr offset 3) ;;
  WREG32 mmUVD_VCPU_CACHE_SIZE0 size ;;
  let offset := u64 (offset + size) in
  let size := u32 (AMDGPU_UVD_STACK_SIZE hd) in
  WREG32 mmUVD_VCPU_CACHE_OFFSET1 (Z.shiftr offset 3) ;;
  WREG32 mmUVD_VCPU_CACHE_SIZE1 size ;;
  let offset := u64 (offset + size) in
  let size := u32 (AMDGPU_UVD_HEAP_SIZE hd) in
  WREG32 mmUVD_VCPU_CACHE_OFFSET2 (Z.shiftr offset 3) ;;
  WREG32 mmUVD_VCPU_CACHE_SIZE2 size.

(** *** Power/reset sequencer *)

Definition msg_vcpu_retry : string :=
  "UVD not responding, trying to reset the VCPU!!!".
Definition msg_giving_up : string := "UVD not responding, giving up!!!".

(** [uvd_v6_0_start], from its first statement through the write that
    boots the VCPU and the 10 ms settle delay. *)
Definition start_reset_sequence : M P unit :=
  (* disable DPG *)
  WREG32_P mmUVD_POWER_STATUS 0 (Z.lnot (Z.shiftl 1 2)) ;;
  (* disable byte swapping *)
  let lmi_swap_cntl := 0 in
  let mp_swap_cntl := 0 in
  uvd_v6_0_mc_resume ;;
  (* disable clock gating *)
  WREG32 mmUVD_CGC_GATE 0 ;;
  (* disable interupt *)
  WREG32_P mmUVD_MASTINT_EN 0 (Z.lnot (Z.shiftl 1 1)) ;;
  (* stall UMC and register bus before resetting VCPU *)
  WREG32_P mmUVD_LMI_CTRL2 (Z.shiftl 1 8) (Z.lnot (Z.shiftl 1 8)) ;;
  mdelay 1 ;;
  (* put LMI, VCPU, RBC etc... into reset *)
  WREG32 mmUVD_SOFT_RESET
    (Z.lor (UVD_SOFT_RESET__LMI_SOFT_RESET_MASK hd)
    (Z.lor (UVD_SOFT_RESET__VCPU_SOFT_RESET_MASK hd)
    (Z.lor (UVD_SOFT_RESET__LBSI_SOFT_RESET_MASK hd)
    (Z.lor (UVD_SOFT_RESET__RBC_SOFT_RESET_MASK hd)
    (Z.lor (UVD_SOFT_RESET__CSM_SOFT_RESET_MASK hd)
    (Z.lor (UVD_SOFT_RESET__CXW_SOFT_RESET_MASK hd)
    (Z.lor (UVD_SOFT_RESET__TAP_SOFT_RESET_MASK hd)
           (UVD_SOFT_RESET__LMI_UMC_SOFT_RESET_MASK hd)))))))) ;;
  mdelay 5 ;;
  (* take UVD block out of reset *)
  WREG32_P mmSRBM_SOFT_RESET 0
           (Z.lnot (SRBM_SOFT_RESET__SOFT_RESET_UVD_MASK hd)) ;;
  mdelay 5 ;;
  (* initialize UVD memory controller *)
  WREG32 mmUVD_LMI_CTRL
    (Z.lor 0x40 (Z.lor (Z.shiftl 1 8) (Z.lor (Z.shiftl 1 13)
      (Z.lor (Z.shiftl 1 21) (Z.lor (Z.shiftl 1 9) (Z.shiftl 1 20)))))) ;;
  (* #ifdef __BIG_ENDIAN: swap (8 in 32) RB and IB *)
  let lmi_swap_cntl := if BIG_ENDIAN hd then 0xa else lmi_swap_cntl in
  let mp_swap_cntl := if BIG_ENDIAN hd then 0 else mp_swap_cntl in
  WREG32 mmUVD_LMI_SWAP_CNTL lmi_swap_cntl ;;
  WREG32 mmUVD_MP_SWAP_CNTL mp_swap_cntl ;;
  WREG32 mmUVD_MPC_SET_MUXA0 0x40c2040 ;;
  WREG32 mmUVD_MPC_SET_MUXA1 0x0 ;;
  WREG32 mmUVD_MPC_SET_MUXB0 0x40c2040 ;;
  WREG32 mmUVD_MPC_SET_MUXB1 0x0 ;;
  WREG32 mmUVD_MPC_SET_ALU 0 ;;
  WREG32 mmUVD_MPC_SET_MUX 0x88 ;;
  (* take all subblocks out of reset, except VCPU *)
  WREG32 mmUVD_SOFT_RESET (UVD_SOFT_RESET__VCPU_SOFT_RESET_MASK hd) ;;
  mdelay 5 ;;
  (* enable VCPU clock *)
  WREG32 mmUVD_VCPU_CNTL (Z.shiftl 1 9) ;;
  (* enable UMC *)
  WREG32_P mmUVD_LMI_CTRL2 0 (Z.lnot (Z.shiftl 1 8)) ;;
  (* boot up the VCPU *)
  WREG32 mmUVD_SOFT_RESET 0 ;;
  mdelay 10.

(** The inner loop [for (j = 0; j < 100; ++j)], with [j] iterations left;
    it answers the last value of [status]. *)
Fixpoint status_poll (j : nat) (status : Z) : M P Z :=
  match j with
  | O => ret status
  | S j' =>
      status <- RREG32 mmUVD_STATUS ;;
      if nonzero (Z.land status 2) then ret status
      else mdelay 10 ;; status_poll j' status
  end.

(** The reset and re-deassert of the VCPU after a failed attempt. *)
Definition vcpu_reset_retry : M P unit :=
  DRM_ERROR msg_vcpu_retry ;;
  WREG32_P mmUVD_SOFT_RESET (UVD_SOFT_RESET__VCPU_SOFT_RESET_MASK hd)
           (Z.lnot (UVD_SOFT_RESET__VCPU_SOFT_RESET_MASK hd)) ;;
  mdelay 10 ;;
  WREG32_P mmUVD_SOFT_RESET 0
           (Z.lnot (UVD_SOFT_RESET__VCPU_SOFT_RESET_MASK hd)) ;;
  mdelay 10.

(** The outer loop [for (i = 0; i < 10; ++i)], with [i] iterations left and
    the current value of [r]. *)
Fixpoint boot_poll (i : nat) (r : Z) : M P Z :=
  match i with
  | O => ret r
  | S i' =>
      (* [status] is assigned before use: the inner bound is 100 *)
      status <- status_poll 100 0 ;;
      let r := 0 in
      if nonzero (Z.land status 2) then ret r
      else vcpu_reset_retry ;; boot_poll i' (-1)
  end.

(** [uvd_v6_0_start] after a successful boot poll. *)
Definition start_ring_setup : M P Z :=
  ring <- get_ring ;;
  (* enable master interrupt *)
  WREG32_P mmUVD_MASTINT_EN (Z.shiftl 3 1) (Z.lnot (Z.shiftl 3 1)) ;;
  (* clear the bit 4 of UVD_STATUS *)
  WREG32_P mmUVD_STATUS 0 (Z.lnot (Z.shiftl 2 1)) ;;
  let rb_bufsz := u32 (order_base_2 hd (ring_size ring)) in
  let tmp := 0 in
  let tmp := REG_SET_FIELD tmp RB_BUFSZ rb_bufsz in
  let tmp := REG_SET_FIELD tmp RB_BLKSZ 1 in
  let tmp := REG_SET_FIELD tmp RB_NO_FETCH 1 in
  let tmp := REG_SET_FIELD tmp RB_WPTR_POLL_EN 0 in
  let tmp := REG_SET_FIELD tmp RB_NO_UPDATE 1 in
  let tmp := REG_SET_FIELD tmp RB_RPTR_WR_EN 1 in
  (* force RBC into idle state *)
  WREG32 mmUVD_RBC_RB_CNTL tmp ;;
  (* set the write pointer delay *)
  WREG32 mmUVD_RBC_RB_WPTR_CNTL 0 ;;
  (* set the wb address *)
  WREG32 mmUVD_RBC_RB_RPTR_ADDR
         (Z.shiftr (upper_32_bits (gpu_addr ring)) 2) ;;
  (* programm the RB_BASE for ring buffer *)
  WREG32 mmUVD_LMI_RBC_RB_64BIT_BAR_LOW (lower_32_bits (gpu_addr ring)) ;;
  WREG32 mmUVD_LMI_RBC_RB_64BIT_BAR_HIGH (upper_32_bits (gpu_addr ring)) ;;
  (* Initialize the ring buffer's read and write pointers *)
  WREG32 mmUVD_RBC_RB_RPTR 0 ;;
  v <- RREG32 mmUVD_RBC_RB_RPTR ;;
  set_ring_wptr v ;;
  WREG32 mmUVD_RBC_RB_WPTR v ;;
  WREG32_P mmUVD_RBC_RB_CNTL 0
           (Z.lnot (UVD_RBC_RB_CNTL__RB_NO_FETCH_MASK hd)) ;;
  ret 0.

(** [r] is assigned before use: the outer bound is 10. *)
Definition uvd_v6_0_start : M P Z :=
  start_reset_sequence ;;
  r <- boot_poll 10 0 ;;
  if nonzero r then
    DRM_ERROR msg_giving_up ;;
    ret r
  else start_ring_setup.

Definition uvd_v6_0_stop : M P unit :=
  (* force RBC into idle state *)
  WREG32 mmUVD_RBC_RB_CNTL 0x11010101 ;;
  (* Stall UMC and register bus before resetting VCPU *)
  WREG32_P mmUVD_LMI_CTRL2 (Z.shiftl 1 8) (Z.lnot (Z.shiftl 1 8)) ;;
  mdelay 1 ;;
  (* put VCPU into reset *)
  WREG32 mmUVD_SOFT_RESET (UVD_SOFT_RESET__VCPU_SOFT_RESET_MASK hd) ;;
  mdelay 5 ;;
  (* disable VCPU clock *)
  WREG32 mmUVD_VCPU_CNTL 0x0 ;;
  (* Unstall UMC and register bus *)
  WREG32_P mmUVD_LMI_CTRL2 0 (Z.lnot (Z.shiftl 1 8)).

Definition uvd_v6_0_soft_reset : M P Z :=
  uvd_v6_0_stop ;;
  WREG32_P mmSRBM_SOFT_RESET (SRBM_SOFT_RESET__SOFT_RESET_UVD_MASK hd)
           (Z.lnot (SRBM_SOFT_RESET__SOFT_RESET_UVD_MASK hd)) ;;
  mdelay 5 ;;
  uvd_v6_0_start.

Definition uvd_v6_0_set_powergating_state (state : amd_powergating_state)
  : M P Z :=
  match state with
  | AMD_PG_STATE_GATE => uvd_v6_0_stop ;; ret 0
  | AMD_PG_STATE_UNGATE => uvd_v6_0_start
  end.

(** *** Ring protocol encoder *)

Definition uvd_v6_0_ring_emit_fence (addr seq flags : Z) : M P unit :=
  WARN_ON (Z.land flags (AMDGPU_FENCE_FLAG_64BIT hd)) ;;
  amdgpu_ring_write (PACKET0 hd mmUVD_CONTEXT_ID 0) ;;
  amdgpu_ring_write seq ;;
  amdgpu_ring_write (PACKET0 hd mmUVD_GPCOM_VCPU_DATA0 0) ;;
  amdgpu_ring_write (Z.land addr 0xffffffff) ;;
  amdgpu_ring_write (PACKET0 hd mmUVD_GPCOM_VCPU_DATA1 0) ;;
  amdgpu_ring_write (Z.land (upper_32_bits addr) 0xff) ;;
  amdgpu_ring_write (PACKET0 hd mmUVD_GPCOM_VCPU_CMD 0) ;;
  amdgpu_ring_write 0 ;;
  amdgpu_ring_write (PACKET0 hd mmUVD_GPCOM_VCPU_DATA0 0) ;;
  amdgpu_ring_write 0 ;;
  amdgpu_ring_write (PACKET0 hd mmUVD_GPCOM_VCPU_DATA1 0) ;;
  amdgpu_ring_write 0 ;;
  amdgpu_ring_write (PACKET0 hd mmUVD_GPCOM_VCPU_CMD 0) ;;
  amdgpu_ring_write 2.

(** [addr] is [semaphore->gpu_addr]. *)
Definition uvd_v6_0_ring_emit_semaphore (addr : Z) (emit_wait : bool)
  : M P bool :=
  amdgpu_ring_write (PACKET0 hd mmUVD_SEMA_ADDR_LOW 0) ;;
  amdgpu_ring_write (Z.land (Z.shiftr addr 3) 0x000FFFFF) ;;
  amdgpu_ring_write (PACKET0 hd mmUVD_SEMA_ADDR_HIGH 0) ;;
  amdgpu_ring_write (Z.land (Z.shiftr addr 23) 0x000FFFFF) ;;
  amdgpu_ring_write (PACKET0 hd mmUVD_SEMA_CMD 0) ;;
  amdgpu_ring_write (Z.lor 0x80 (if emit_wait then 1 else 0)) ;;
  ret true.

(** [ib_gpu_addr] and [length_dw] are [ib->gpu_addr] and [ib->length_dw]. *)
Definition uvd_v6_0_ring_emit_ib (ib_gpu_addr length_dw : Z) : M P unit :=
  amdgpu_ring_write (PACKET0 hd mmUVD_LMI_RBC_IB_64BIT_BAR_LOW 0) ;;
  amdgpu_ring_write (lower_32_bits ib_gpu_addr) ;;
  amdgpu_ring_write (PACKET0 hd mmUVD_LMI_RBC_IB_64BIT_BAR_HIGH 0) ;;
  amdgpu_ring_write (upper_32_bits ib_gpu_addr) ;;
  amdgpu_ring_write (PACKET0 hd mmUVD_RBC_IB_SIZE 0) ;;
  amdgpu_ring_write length_dw.

(** The loop [for (i = 0; i < adev->usec_timeout; i++)] of the ring test,
    with [n] iterations left; it answers the final [i] and [tmp]. *)
Fixpoint test_ring_poll (n : nat) (i tmp : Z) : M P (Z * Z) :=
  match n with
  | O => ret (i, tmp)
  | S n' =>
      tmp <- RREG32 mmUVD_CONTEXT_ID ;;
      if tmp =? 0xDEADBEEF then ret (i, tmp)
      else DRM_UDELAY 1 ;; test_ring_poll n' (i + 1) tmp
  end.

Definition uvd_v6_0_ring_test_ring : M P Z :=
  d <- get_adev ;;
  let tmp := 0 in
  WREG32 mmUVD_CONTEXT_ID 0xCAFEDEAD ;;
  r <- amdgpu_ring_lock 3 ;;
  if nonzero r then
    DRM_ERROR "amdgpu: cp failed to lock ring %d (%d)." ;;
    ret r
  else
    amdgpu_ring_write (PACKET0 hd mmUVD_CONTEXT_ID 0) ;;
    amdgpu_ring_write 0xDEADBEEF ;;
    amdgpu_ring_unlock_commit ;;
    p <- test_ring_poll (Z.to_nat (u32 (usec_timeout d))) 0 tmp ;;
    let '(i, tmp) := p in
    if i <? u32 (usec_timeout d) then
      DRM_INFO "ring test on %d succeeded in %d usecs" ;;
      ret r
    else
      DRM_ERROR "amdgpu: ring %d test failed (0x%08X)" ;;
      ret (- EINVAL hd).

(** Modelled from the spec: the diagnostic register probe run by
    hardware_init; the dispatch macro (amdgpu.h) is not among the translated
    sources.  [amdgpu_ring_test_ring(r)] is [(r)->funcs->test_ring((r))],
    and the ring's function table, [uvd_v6_0_ring_funcs], names
    [uvd_v6_0_ring_test_ring]. *)
Definition amdgpu_ring_test_ring : M P Z := uvd_v6_0_ring_test_ring.

(** *** Lifecycle controller *)

(** The label [done] of [uvd_v6_0_hw_init]. *)
Definition hw_init_done (r : Z) : M P Z :=
  (if nonzero r then ret tt else DRM_INFO "UVD initialized successfully.") ;;
  ret r.

Definition uvd_v6_0_hw_init : M P Z :=
  r <- uvd_v6_0_start ;;
  if nonzero r then hw_init_done r
  else
    set_ring_ready true ;;
    r <- amdgpu_ring_test_ring ;;
    if nonzero r then
      set_ring_ready false ;;
      hw_init_done r
    else
      r <- amdgpu_ring_lock 10 ;;
      if nonzero r then
        DRM_ERROR "amdgpu: ring failed to lock UVD ring (%d)." ;;
        hw_init_done r
      else
        let tmp := PACKET0 hd mmUVD_SEMA_WAIT_FAULT_TIMEOUT_CNTL 0 in
        amdgpu_ring_write tmp ;;
        amdgpu_ring_write 0xFFFFF ;;
        let tmp := PACKET0 hd mmUVD_SEMA_WAIT_INCOMPLETE_TIMEOUT_CNTL 0 in
        amdgpu_ring_write tmp ;;
        amdgpu_ring_write 0xFFFFF ;;
        let tmp := PACKET0 hd mmUVD_SEMA_SIGNAL_INCOMPLETE_TIMEOUT_CNTL 0 in
        amdgpu_ring_write tmp ;;
        amdgpu_ring_write 0xFFFFF ;;
        (* Clear timeout status bits *)
        amdgpu_ring_write (PACKET0 hd mmUVD_SEMA_TIMEOUT_STATUS 0) ;;
        amdgpu_ring_write 0x8 ;;
        amdgpu_ring_write (PACKET0 hd mmUVD_SEMA_CNTL 0) ;;
        amdgpu_ring_write 3 ;;
        amdgpu_ring_unlock_commit ;;
        hw_init_done r.

Definition uvd_v6_0_hw_fini : M P Z :=
  uvd_v6_0_stop ;;
  set_ring_ready false ;;
  ret 0.

Definition uvd_v6_0_suspend : M P Z :=
  d <- get_adev ;;
  let hw_fini_tail : M P Z :=
    r <- uvd_v6_0_hw_fini ;;
    if nonzero r then ret r else ret r in
  (* Skip this for APU for now *)
  if Z.land (flags d) (AMD_IS_APU hd) =? 0 then
    r <- amdgpu_uvd_suspend ;;
    if nonzero r then ret r else hw_fini_tail
  else hw_fini_tail.

Definition uvd_v6_0_resume : M P Z :=
  d <- get_adev ;;
  let hw_init_tail : M P Z :=
    r <- uvd_v6_0_hw_init ;;
    if nonzero r then ret r else ret r in
  (* Skip this for APU for now *)
  if Z.land (flags d) (AMD_IS_APU hd) =? 0 then
    r <- amdgpu_uvd_resume ;;
    if nonzero r then ret r else hw_init_tail
  else hw_init_tail.

Definition uvd_v6_0_is_idle : M P bool :=
  v <- RREG32 mmSRBM_STATUS ;;
  ret (Z.land v (SRBM_STATUS__UVD_BUSY_MASK hd) =? 0).

(** The loop of [uvd_v6_0_wait_for_idle] with [n] iterations left, followed
    by the return after the loop. *)
Fixpoint wait_for_idle_loop (n : nat) : M P Z :=
  match n with
  | O => ret (- ETIMEDOUT hd)
  | S n' =>
      v <- RREG32 mmSRBM_STATUS ;;
      if Z.land v (SRBM_STATUS__UVD_BUSY_MASK hd) =? 0 then ret 0
      else wait_for_idle_loop n'
  end.

(** [i] is [unsigned]: the bound is [adev->usec_timeout] as an unsigned. *)
Definition uvd_v6_0_wait_for_idle : M P Z :=
  d <- get_adev ;;
  wait_for_idle_loop (Z.to_nat (u32 (usec_timeout d))).

(** *** Interrupt source *)

Definition uvd_v6_0_set_interrupt_state (source : amdgpu_irq_src)
  (type : Z) (state : amdgpu_interrupt_state) : M P Z :=
  (* TODO *)
  ret 0.

End Driver.

Arguments uvd_v6_0_set_interrupt_state {P} source type state.

(** ** Concrete platforms and header values *)

(** A plain register file: a read answers the last value written, nothing
    else changes a register, and every collaborator call succeeds. *)
Definition regfile : Type := reg -> Z.

Definition rf_write (r : reg) (v : Z) (rf : regfile) : regfile :=
  fun r' => if reg_beq r' r then v else rf r'.

Definition regfile_platform : platform := {|
  hw_state := regfile;
  hw_rreg := fun r rf => (rf r, rf);
  hw_wreg := rf_write;
  hw_mdelay := fun _ rf => rf;
  hw_udelay := fun _ rf => rf;
  ext_ring_lock := fun _ rf => (0, rf);
  ext_ring_write := fun _ rf => rf;
  ext_ring_unlock_commit := fun rf => rf;
  ext_uvd_suspend := fun rf => (0, rf);
  ext_uvd_resume := fun rf => (0, rf)
|}.

(** A platform whose registers are storage: [peek] shows the content of
    every register; a read answers it and changes no register, a write
    replaces the content of the register written and of no other, and a
    delay changes no register. *)
Record stores_registers (P : platform) (peek : hw_state P -> reg -> Z)
  : Prop := {
  peek_rreg_val : forall r h, fst (hw_rreg P r h) = peek h r;
  peek_rreg : forall r h r', peek (snd (hw_rreg P r h)) r' = peek h r';
  peek_wreg : forall r v h r',
    peek (hw_wreg P r v h) r' = if reg_beq r' r then v else peek h r';
  peek_mdelay : forall ms h r', peek (hw_mdelay P ms h) r' = peek h r'
}.

(** A scripted platform for tests: a register read answers the next value
    of that register's script while it lasts and the stored value after;
    ring locks answer the next scripted result (0 when exhausted); ring
    words are collected; suspend and resume answer fixed results. *)
Record mock : Type := {
  m_regs : reg -> Z;
  m_script : reg -> list Z;
  m_locks : list Z;
  m_ring : list Z;
  m_suspend : Z;
  m_resume : Z
}.

Definition mock_rreg (r : reg) (m : mock) : Z * mock :=
  match m_script m r with
  | v :: rest =>
      (v, {| m_regs := m_regs m;
             m_script := fun r' => if reg_beq r' r then rest
                                   else m_script m r';
             m_locks := m_locks m; m_ring := m_ring m;
             m_suspend := m_suspend m; m_resume := m_resume m |})
  | [] => (m_regs m r, m)
  end.

Definition mock_wreg (r : reg) (v : Z) (m : mock) : mock :=
  {| m_regs := rf_write r v (m_regs m); m_script := m_script m;
     m_locks := m_locks m; m_ring := m_ring m;
     m_suspend := m_suspend m; m_resume := m_resume m |}.

Definition mock_ring_lock (ndw : Z) (m : mock) : Z * mock :=
  match m_locks m with
  | r :: rest =>
      (r, {| m_regs := m_regs m; m_script := m_script m;
             m_locks := rest; m_ring := m_ring m;
             m_suspend := m_suspend m; m_resume := m_resume m |})
  | [] => (0, m)
  end.

Definition mock_ring_write (v : Z) (m : mock) : mock :=
  {| m_regs := m_regs m; m_script := m_script m;
     m_locks := m_locks m; m_ring := m_ring m ++ [v];
     m_suspend := m_suspend m; m_resume := m_resume m |}.

Definition mock_platform : platform := {|
  hw_state := mock;
  hw_rreg := mock_rreg;
  hw_wreg := mock_wreg;
  hw_mdelay := fun _ m => m;
  hw_udelay := fun _ m => m;
  ext_ring_lock := mock_ring_lock;
  ext_ring_write := mock_ring_write;
  ext_ring_unlock_commit := fun m => m;
  ext_uvd_suspend := fun m => (m_suspend m, m);
  ext_uvd_resume := fun m => (m_resume m, m)
|}.

(** Stand-in register offsets: the position of the register in [reg]
    above a common base. *)
Definition sample_offset (r : reg) : Z :=
  0x3d00 +
  match r with
  | mmUVD_RBC_RB_RPTR => 0 | mmUVD_RBC_RB_WPTR => 1 | mmUVD_RBC_RB_CNTL => 2
  | mmUVD_RBC_RB_WPTR_CNTL => 3 | mmUVD_RBC_RB_RPTR_ADDR => 4
  | mmUVD_LMI_RBC_RB_64BIT_BAR_LOW => 5 | mmUVD_LMI_RBC_RB_64BIT_BAR_HIGH => 6
  | mmUVD_LMI_RBC_IB_64BIT_BAR_LOW => 7 | mmUVD_LMI_RBC_IB_64BIT_BAR_HIGH => 8
  | mmUVD_RBC_IB_SIZE => 9
  | mmUVD_SEMA_WAIT_FAULT_TIMEOUT_CNTL => 10
  | mmUVD_SEMA_WAIT_INCOMPLETE_TIMEOUT_CNTL => 11
  | mmUVD_SEMA_SIGNAL_INCOMPLETE_TIMEOUT_CNTL => 12
  | mmUVD_SEMA_TIMEOUT_STATUS => 13
  | mmUVD_SEMA_CNTL => 14 | mmUVD_SEMA_ADDR_LOW => 15
  | mmUVD_SEMA_ADDR_HIGH => 16 | mmUVD_SEMA_CMD => 17
  | mmUVD_LMI_VCPU_CACHE_64BIT_BAR_LOW => 18
  | mmUVD_LMI_VCPU_CACHE_64BIT_BAR_HIGH => 19
  | mmUVD_VCPU_CACHE_OFFSET0 => 20 | mmUVD_VCPU_CACHE_SIZE0 => 21
  | mmUVD_VCPU_CACHE_OFFSET1 => 22 | mmUVD_VCPU_CACHE_SIZE1 => 23
  | mmUVD_VCPU_CACHE_OFFSET2 => 24 | mmUVD_VCPU_CACHE_SIZE2 => 25
  | mmUVD_POWER_STATUS => 26 | mmUVD_CGC_GATE => 27 | mmUVD_MASTINT_EN => 28
  | mmUVD_LMI_CTRL => 29 | mmUVD_LMI_CTRL2 => 30
  | mmUVD_LMI_SWAP_CNTL => 31 | mmUVD_MP_SWAP_CNTL => 32
  | mmUVD_MPC_SET_MUXA0 => 33 | mmUVD_MPC_SET_MUXA1 => 34
  | mmUVD_MPC_SET_MUXB0 => 35 | mmUVD_MPC_SET_MUXB1 => 36
  | mmUVD_MPC_SET_ALU => 37 | mmUVD_MPC_SET_MUX => 38
  | mmUVD_SOFT_RESET => 39 | mmUVD_VCPU_CNTL => 40 | mmUVD_STATUS => 41
  | mmUVD_CONTEXT_ID => 42
  | mmUVD_GPCOM_VCPU_CMD => 43 | mmUVD_GPCOM_VCPU_DATA0 => 44
  | mmUVD_GPCOM_VCPU_DATA1 => 45
  | mmSRBM_SOFT_RESET => 46 | mmSRBM_STATUS => 47
  end.

(** Header values for running the model.  Page size, firmware offset, stack
    and heap sizes, masks, field layout and error numbers are the values of
    the Linux headers (amdgpu.h, uvd_6_0_sh_mask.h, oss_2_0_sh_mask.h,
    errno); [PACKET0(reg, n)] is the type-0 packet header
    [((reg) & 0xFFFF) | ((n) & 0x3FFF) << 16] over the stand-in offsets. *)
Definition sample_headers : headers := {|
  PACKET0 := fun r n =>
    Z.lor (Z.land (sample_offset r) 0xFFFF) (Z.shiftl (Z.land n 0x3FFF) 16);
  UVD_SOFT_RESET__LMI_SOFT_RESET_MASK := 0x4;
  UVD_SOFT_RESET__VCPU_SOFT_RESET_MASK := 0x8;
  UVD_SOFT_RESET__LBSI_SOFT_RESET_MASK := 0x2;
  UVD_SOFT_RESET__RBC_SOFT_RESET_MASK := 0x1;
  UVD_SOFT_RESET__CSM_SOFT_RESET_MASK := 0x20;
  UVD_SOFT_RESET__CXW_SOFT_RESET_MASK := 0x40;
  UVD_SOFT_RESET__TAP_SOFT_RESET_MASK := 0x80;
  UVD_SOFT_RESET__LMI_UMC_SOFT_RESET_MASK := 0x2000;
  SRBM_SOFT_RESET__SOFT_RESET_UVD_MASK := 0x40000;
  SRBM_STATUS__UVD_BUSY_MASK := 0x80000;
  UVD_RBC_RB_CNTL__RB_NO_FETCH_MASK := 0x10000;
  UVD_RBC_RB_CNTL__MASK := fun f =>
    match f with
    | RB_BUFSZ => 0x1f | RB_BLKSZ => 0x1f00 | RB_NO_FETCH => 0x10000
    | RB_WPTR_POLL_EN => 0x100000 | RB_NO_UPDATE => 0x1000000
    | RB_RPTR_WR_EN => 0x10000000
    end;
  UVD_RBC_RB_CNTL__SHIFT := fun f =>
    match f with
    | RB_BUFSZ => 0 | RB_BLKSZ => 8 | RB_NO_FETCH => 16
    | RB_WPTR_POLL_EN => 20 | RB_NO_UPDATE => 24 | RB_RPTR_WR_EN => 28
    end;
  order_base_2 := Z.log2_up;
  AMDGPU_UVD_FIRMWARE_OFFSET := 256;
  AMDGPU_UVD_STACK_SIZE := 1024 * 1024;
  AMDGPU_UVD_HEAP_SIZE := 1024 * 1024;
  AMDGPU_GPU_PAGE_SIZE := 4096;
  AMD_IS_APU := 0x20000;
  AMDGPU_FENCE_FLAG_64BIT := 1;
  ETIMEDOUT := 110;
  EINVAL := 22;
  BIG_ENDIAN := false
|}.

(** A discrete (non-APU) device with a 100000-byte firmware image. *)
Definition sample_adev : amdgpu_device := {|
  flags := 0;
  usec_timeout := 100000;
  uvd := {| uvd_gpu_addr := 0x400000;
            fw_size := 100000;
            ring := {| ready := false; wptr := 0; ring_size := 4096;
                       gpu_addr := 0x800000; idx := 0 |} |}
|}.

Definition mock_init : mock := {|
  m_regs := fun _ => 0;
  m_script := fun _ => [];
  m_locks := [];
  m_ring := [];
  m_suspend := 0;
  m_resume := 0
|}.

Definition mock_with_script (r : reg) (vs : list Z) (m : mock) : mock :=
  {| m_regs := m_regs m;
     m_script := fun r' => if reg_beq r' r then vs else m_script m r';
     m_locks := m_locks m; m_ring := m_ring m;
     m_suspend := m_suspend m; m_resume := m_resume m |}.

Definition mock_with_locks (ls : list Z) (m : mock) : mock :=
  {| m_regs := m_regs m; m_script := m_script m;
     m_locks := ls; m_ring := m_ring m;
     m_suspend := m_suspend m; m_resume := m_resume m |}.

Definition mock_with_suspend (res : Z) (m : mock) : mock :=
  {| m_regs := m_regs m; m_script := m_script m;
     m_locks := m_locks m; m_ring := m_ring m;
     m_suspend := res; m_resume := m_resume m |}.

Definition mock_world (m : mock) (d : amdgpu_device) : world mock_platform :=
  Build_world (m : hw_state mock_platform) d.

(** ** Observations on traces *)

(** The booted bit of UVD_STATUS is bit 1 ([status & 2]). *)
Definition booted (status : Z) : Prop := Z.land status 2 <> 0.
Definition not_booted (status : Z) : Prop := Z.land status 2 = 0.

(** The values answered by reads of UVD_STATUS, in order. *)
Definition status_reads (t : list event) : list Z :=
  flat_map (fun e => match e with
                     | EvRReg mmUVD_STATUS v => [v]
                     | _ => []
                     end) t.

(** The number of reset-and-retry cycles announced in a trace. *)
Definition is_vcpu_retry (e : event) : bool :=
  match e with
  | EvLog KERN_ERR fmt => String.eqb fmt msg_vcpu_retry
  | _ => false
  end.
Definition vcpu_retries (t : list event) : nat :=
  List.length (filter is_vcpu_retry t).

(** The ring words written, in order. *)
Definition ring_words (t : list event) : list Z :=
  flat_map (fun e => match e with
                     | EvRingWrite v => [v]
                     | _ => []
                     end) t.

(** Register writes of a trace, in order. *)
Definition reg_writes (t : list event) : list (reg * Z) :=
  flat_map (fun e => match e with
                     | EvWReg r v => [(r, v)]
                     | _ => []
                     end) t.

(** The events of the reset sequence that precedes the boot poll, for the
    device data [d]; [a0] to [a4] are the values read back by its five
    read-modify-writes. *)
Definition start_reset_events (hd : headers) (d : amdgpu_device)
  (a0 a1 a2 a3 a4 : Z) : list event :=
  [EvRReg mmUVD_POWER_STATUS a0;
   EvWReg mmUVD_POWER_STATUS (rmw a0 0 (Z.lnot (Z.shiftl 1 2)));
   EvWReg mmUVD_LMI_VCPU_CACHE_64BIT_BAR_LOW
          (u32 (lower_32_bits (uvd_gpu_addr (uvd d))));
   EvWReg mmUVD_LMI_VCPU_CACHE_64BIT_BAR_HIGH
          (u32 (upper_32_bits (uvd_gpu_addr (uvd d))))]
  ++ flat_map (fun p => [EvWReg (fst (fst p)) (u32 (Z.shiftr (fst (snd p)) 3));
                         EvWReg (snd (fst p)) (u32 (snd (snd p)))])
       (combine [(mmUVD_VCPU_CACHE_OFFSET0, mmUVD_VCPU_CACHE_SIZE0);
                 (mmUVD_VCPU_CACHE_OFFSET1, mmUVD_VCPU_CACHE_SIZE1);
                 (mmUVD_VCPU_CACHE_OFFSET2, mmUVD_VCPU_CACHE_SIZE2)]
                (mc_regions hd (fw_size (uvd d))))
  ++
  [EvWReg mmUVD_CGC_GATE 0;
   EvRReg mmUVD_MASTINT_EN a1;
   EvWReg mmUVD_MASTINT_EN (rmw a1 0 (Z.lnot (Z.shiftl 1 1)));
   EvRReg mmUVD_LMI_CTRL2 a2;
   EvWReg mmUVD_LMI_CTRL2 (rmw a2 (Z.shiftl 1 8) (Z.lnot (Z.shiftl 1 8)));
   EvMdelay 1;
   EvWReg mmUVD_SOFT_RESET
     (u32 (Z.lor (UVD_SOFT_RESET__LMI_SOFT_RESET_MASK hd)
          (Z.lor (UVD_SOFT_RESET__VCPU_SOFT_RESET_MASK hd)
          (Z.lor (UVD_SOFT_RESET__LBSI_SOFT_RESET_MASK hd)
          (Z.lor (UVD_SOFT_RESET__RBC_SOFT_RESET_MASK hd)
          (Z.lor (UVD_SOFT_RESET__CSM_SOFT_RESET_MASK hd)
          (Z.lor (UVD_SOFT_RESET__CXW_SOFT_RESET_MASK hd)
          (Z.lor (UVD_SOFT_RESET__TAP_SOFT_RESET_MASK hd)
                 (UVD_SOFT_RESET__LMI_UMC_SOFT_RESET_MASK hd)))))))));
   EvMdelay 5;
   EvRReg mmSRBM_SOFT_RESET a3;
   EvWReg mmSRBM_SOFT_RESET
          (rmw a3 0 (Z.lnot (SRBM_SOFT_RESET__SOFT_RESET_UVD_MASK hd)));
   EvMdelay 5;
   EvWReg mmUVD_LMI_CTRL 0x302340;
   EvWReg mmUVD_LMI_SWAP_CNTL (if BIG_ENDIAN hd then 0xa else 0);
   EvWReg mmUVD_MP_SWAP_CNTL 0;
   EvWReg mmUVD_MPC_SET_MUXA0 0x40c2040;
   EvWReg mmUVD_MPC_SET_MUXA1 0;
   EvWReg mmUVD_MPC_SET_MUXB0 0x40c2040;
   EvWReg mmUVD_MPC_SET_MUXB1 0;
   EvWReg mmUVD_MPC_SET_ALU 0;
   EvWReg mmUVD_MPC_SET_MUX 0x88;
   EvWReg mmUVD_SOFT_RESET (u32 (UVD_SOFT_RESET__VCPU_SOFT_RESET_MASK hd));
   EvMdelay 5;
   EvWReg mmUVD_VCPU_CNTL 0x200;
   EvRReg mmUVD_LMI_CTRL2 a4;
   EvWReg mmUVD_LMI_CTRL2 (rmw a4 0 (Z.lnot (Z.shiftl 1 8)));
   EvWReg mmUVD_SOFT_RESET 0;
   EvMdelay 10].

(** The events of the ring set-up that follows a successful boot poll;
    [b0] to [b3] are the values read back from UVD_MASTINT_EN, UVD_STATUS,
    UVD_RBC_RB_RPTR and UVD_RBC_RB_CNTL. *)
Definition start_ring_events (hd : headers) (d : amdgpu_device)
  (b0 b1 b2 b3 : Z) : list event :=
  [EvRReg mmUVD_MASTINT_EN b0;
   EvWReg mmUVD_MASTINT_EN (rmw b0 (Z.shiftl 3 1) (Z.lnot (Z.shiftl 3 1)));
   EvRReg mmUVD_STATUS b1;
   EvWReg mmUVD_STATUS (rmw b1 0 (Z.lnot (Z.shiftl 2 1)));
   EvWReg mmUVD_RBC_RB_CNTL
     (REG_SET_FIELD hd
       (REG_SET_FIELD hd
         (REG_SET_FIELD hd
           (REG_SET_FIELD hd
             (REG_SET_FIELD hd
               (REG_SET_FIELD hd 0 RB_BUFSZ
                  (u32 (order_base_2 hd (ring_size (ring (uvd d))))))
               RB_BLKSZ 1)
             RB_NO_FETCH 1)
           RB_WPTR_POLL_EN 0)
         RB_NO_UPDATE 1)
       RB_RPTR_WR_EN 1);
   EvWReg mmUVD_RBC_RB_WPTR_CNTL 0;
   EvWReg mmUVD_RBC_RB_RPTR_ADDR
          (u32 (Z.shiftr (upper_32_bits (gpu_addr (ring (uvd d)))) 2));
   EvWReg mmUVD_LMI_RBC_RB_64BIT_BAR_LOW
          (lower_32_bits (gpu_addr (ring (uvd d))));
   EvWReg mmUVD_LMI_RBC_RB_64BIT_BAR_HIGH
          (upper_32_bits (gpu_addr (ring (uvd d))));
   EvWReg mmUVD_RBC_RB_RPTR 0;
   EvRReg mmUVD_RBC_RB_RPTR b2;
   EvWReg mmUVD_RBC_RB_WPTR b2;
   EvRReg mmUVD_RBC_RB_CNTL b3;
   EvWReg mmUVD_RBC_RB_CNTL
          (rmw b3 0 (Z.lnot (UVD_RBC_RB_CNTL__RB_NO_FETCH_MASK hd)))].

(** One unsuccessful poll of the inner loop: a status read and the 10 ms
    delay. *)
Definition poll_miss (v : Z) : list event :=
  [EvRReg mmUVD_STATUS v; EvMdelay 10].

(** The VCPU reset pulse issued after a failed attempt; [a] and [b] are the
    values UVD_SOFT_RESET read back at the two read-modify-writes. *)
Definition vcpu_reset_pulse (hd : headers) (a b : Z) : list event :=
  [EvLog KERN_ERR msg_vcpu_retry;
   EvRReg mmUVD_SOFT_RESET a;
   EvWReg mmUVD_SOFT_RESET
          (rmw a (UVD_SOFT_RESET__VCPU_SOFT_RESET_MASK hd)
                 (Z.lnot (UVD_SOFT_RESET__VCPU_SOFT_RESET_MASK hd)));
   EvMdelay 10;
   EvRReg mmUVD_SOFT_RESET b;
   EvWReg mmUVD_SOFT_RESET
          (rmw b 0 (Z.lnot (UVD_SOFT_RESET__VCPU_SOFT_RESET_MASK hd)));
   EvMdelay 10].

(** One failed outer attempt: its polls and the two read-backs of its
    reset pulse. *)
Record failed_attempt : Type := {
  fa_polls : list Z;
  fa_reset_a : Z;
  fa_reset_b : Z
}.

Definition failed_attempt_trace (hd : headers) (fa : failed_attempt)
  : list event :=
  flat_map poll_miss (fa_polls fa)
  ++ vcpu_reset_pulse hd (fa_reset_a fa) (fa_reset_b fa).

(** A failed attempt polled 100 times and never saw the booted bit. *)
Definition full_miss (fa : failed_attempt) : Prop :=
  List.length (fa_polls fa) = 100%nat /\ Forall not_booted (fa_polls fa).

(** ** Further observations and sample data *)

(** One unsuccessful poll of the ring test: a read of the context register
    and the 1 us delay. *)
Definition test_ring_miss (v : Z) : list event :=
  [EvRReg mmUVD_CONTEXT_ID v; EvUdelay 1].

(** The ten words hw_init puts on the ring after a successful ring test. *)
Definition sema_timeout_words (hd : headers) : list Z :=
  [u32 (PACKET0 hd mmUVD_SEMA_WAIT_FAULT_TIMEOUT_CNTL 0); 0xFFFFF;
   u32 (PACKET0 hd mmUVD_SEMA_WAIT_INCOMPLETE_TIMEOUT_CNTL 0); 0xFFFFF;
   u32 (PACKET0 hd mmUVD_SEMA_SIGNAL_INCOMPLETE_TIMEOUT_CNTL 0); 0xFFFFF;
   u32 (PACKET0 hd mmUVD_SEMA_TIMEOUT_STATUS 0); 0x8;
   u32 (PACKET0 hd mmUVD_SEMA_CNTL 0); 3].


(** The sample device with the APU flag set. *)
Definition sample_apu_adev : amdgpu_device := {|
  flags := 0x20000;
  usec_timeout := usec_timeout sample_adev;
  uvd := uvd sample_adev
|}.

Definition mock_with_resume (res : Z) (m : mock) : mock :=
  {| m_regs := m_regs m; m_script := m_script m;
     m_locks := m_locks m; m_ring := m_ring m;
     m_suspend := m_suspend m; m_resume := res |}.

(** A mock on which start boots at the first poll and the ring test reads
    its sentinel back at the third poll. *)
Definition mock_healthy : mock :=
  mock_with_script mmUVD_CONTEXT_ID [0xCAFEDEAD; 0xCAFEDEAD; 0xDEADBEEF]
    (mock_with_script mmUVD_STATUS [2] mock_init).

(** The ring control word start builds with [REG_SET_FIELD]. *)
Definition rb_cntl_word (hd : headers) (d : amdgpu_device) : Z :=
  REG_SET_FIELD hd
    (REG_SET_FIELD hd
      (REG_SET_FIELD hd
        (REG_SET_FIELD hd
          (REG_SET_FIELD hd
            (REG_SET_FIELD hd 0 RB_BUFSZ
               (u32 (order_base_2 hd (ring_size (ring (uvd d))))))
            RB_BLKSZ 1)
          RB_NO_FETCH 1)
        RB_WPTR_POLL_EN 0)
      RB_NO_UPDATE 1)
    RB_RPTR_WR_EN 1.

(** Register contents after the reset sequence of start, on hardware whose
    registers are storage and held [old] before. *)
Definition reset_regs (hd : headers) (d : amdgpu_device) (old : reg -> Z)
  : reg -> Z :=
  fun r =>
    let region := fun k => nth k (mc_regions hd (fw_size (uvd d))) (0, 0) in
    match r with
    | mmUVD_POWER_STATUS => Z.ldiff (u32 (old r)) 4
    | mmUVD_LMI_VCPU_CACHE_64BIT_BAR_LOW =>
        lower_32_bits (uvd_gpu_addr (uvd d))
    | mmUVD_LMI_VCPU_CACHE_64BIT_BAR_HIGH =>
        upper_32_bits (uvd_gpu_addr (uvd d))
    | mmUVD_VCPU_CACHE_OFFSET0 => u32 (Z.shiftr (fst (region 0%nat)) 3)
    | mmUVD_VCPU_CACHE_SIZE0 => snd (region 0%nat)
    | mmUVD_VCPU_CACHE_OFFSET1 => u32 (Z.shiftr (fst (region 1%nat)) 3)
    | mmUVD_VCPU_CACHE_SIZE1 => snd (region 1%nat)
    | mmUVD_VCPU_CACHE_OFFSET2 => u32 (Z.shiftr (fst (region 2%nat)) 3)
    | mmUVD_VCPU_CACHE_SIZE2 => snd (region 2%nat)
    | mmUVD_CGC_GATE => 0
    | mmUVD_MASTINT_EN => Z.ldiff (u32 (old r)) 2
    | mmUVD_LMI_CTRL2 => Z.ldiff (u32 (old r)) 0x100
    | mmUVD_SOFT_RESET => 0
    | mmSRBM_SOFT_RESET =>
        Z.ldiff (u32 (old r)) (SRBM_SOFT_RESET__SOFT_RESET_UVD_MASK hd)
    | mmUVD_LMI_CTRL => 0x302340
    | mmUVD_LMI_SWAP_CNTL => if BIG_ENDIAN hd then 0xa else 0
    | mmUVD_MP_SWAP_CNTL => 0
    | mmUVD_MPC_SET_MUXA0 => 0x40c2040
    | mmUVD_MPC_SET_MUXA1 => 0
    | mmUVD_MPC_SET_MUXB0 => 0x40c2040
    | mmUVD_MPC_SET_MUXB1 => 0
    | mmUVD_MPC_SET_ALU => 0
    | mmUVD_MPC_SET_MUX => 0x88
    | mmUVD_VCPU_CNTL => 0x200
    | _ => old r
    end.

(** Register contents after the ring set-up of start, on hardware whose
    registers are storage and held [cur] before. *)
Definition ring_regs (hd : headers) (d : amdgpu_device) (cur : reg -> Z)
  : reg -> Z :=
  fun r =>
    match r with
    | mmUVD_MASTINT_EN => Z.lor (u32 (cur r)) 6
    | mmUVD_STATUS => Z.ldiff (u32 (cur r)) 4
    | mmUVD_RBC_RB_CNTL =>
        Z.ldiff (rb_cntl_word hd d) (UVD_RBC_RB_CNTL__RB_NO_FETCH_MASK hd)
    | mmUVD_RBC_RB_WPTR_CNTL => 0
    | mmUVD_RBC_RB_RPTR_ADDR =>
        u32 (Z.shiftr (upper_32_bits (gpu_addr (ring (uvd d)))) 2)
    | mmUVD_LMI_RBC_RB_64BIT_BAR_LOW => lower_32_bits (gpu_addr (ring (uvd d)))
    | mmUVD_LMI_RBC_RB_64BIT_BAR_HIGH =>
        upper_32_bits (gpu_addr (ring (uvd d)))
    | mmUVD_RBC_RB_RPTR => 0
    | mmUVD_RBC_RB_WPTR => 0
    | _ => cur r
    end.

(** The status bit start polls, on the raw content of UVD_STATUS. *)
Definition status_booted (v : Z) : bool := nonzero (Z.land (u32 v) 2).

(** A register file on which the VCPU reports booted and every other
    register holds all ones. *)
Definition booted_regfile : regfile :=
  fun r => match r with mmUVD_STATUS => 2 | _ => 0xFFFFFFFF end.

(** A register file on which the VCPU never reports booted. *)
Definition dead_regfile : regfile := fun _ => 0.

(** * Facts *)

(** ** Machine integers *)

Lemma u32_range (x : Z) : 0 <= u32 x < 2 ^ 32.
Proof. unfold u32. apply Z.mod_pos_bound. reflexivity. Qed.

Lemma u32_small (x : Z) : 0 <= x < 2 ^ 32 -> u32 x = x.
Proof. intro H. unfold u32. now apply Z.mod_small. Qed.

Lemma u32_idem (x : Z) : u32 (u32 x) = u32 x.
Proof. apply u32_small, u32_range. Qed.

Lemma u32_testbit (x n : Z) :
  Z.testbit (u32 x) n = (n <? 32) && Z.testbit x n.
Proof. unfold u32. now apply Z.testbit_mod_pow2. Qed.

Lemma u32_rmw (tmp val mask : Z) : u32 (rmw tmp val mask) = rmw tmp val mask.
Proof. unfold rmw. apply u32_idem. Qed.

(** Bitwise normal form of an equation between 32-bit expressions. *)
Ltac bitwise n :=
  apply Z.bits_inj'; intros n ?;
  repeat first
    [ rewrite u32_testbit | rewrite Z.lor_spec | rewrite Z.land_spec
    | rewrite Z.ldiff_spec | rewrite Z.lnot_spec by assumption
    | rewrite Z.bits_0 ].

(** [WREG32_P(reg, m, ~m)] sets the bits of [m] and keeps the others. *)
Lemma rmw_set_gen (a m : Z) : rmw a m (Z.lnot m) = u32 (Z.lor a m).
Proof.
  unfold rmw. rewrite Z.lnot_involutive, Z.land_diag.
  bitwise n.
  destruct (n <? 32), (Z.testbit a n), (Z.testbit m n); reflexivity.
Qed.

Lemma rmw_set (a m : Z) :
  rmw (u32 a) (u32 m) (Z.lnot (u32 m)) = Z.lor (u32 a) (u32 m).
Proof.
  rewrite rmw_set_gen.
  bitwise n.
  destruct (n <? 32), (Z.testbit a n), (Z.testbit m n); reflexivity.
Qed.

(** [WREG32_P(reg, 0, ~m)] clears the bits of [m] and keeps the others. *)
Lemma rmw_clear (a m : Z) : rmw (u32 a) 0 (Z.lnot m) = Z.ldiff (u32 a) m.
Proof.
  unfold rmw. rewrite Z.land_0_l.
  bitwise n.
  destruct (n <? 32), (Z.testbit a n), (Z.testbit m n); reflexivity.
Qed.

(** ** The driver monad *)

Section MonadFacts.

Context {P : platform}.

Lemma run_eta {A} (m : M P A) (w : world P) :
  m w = (run_val m w, run_world m w, run_trace m w).
Proof. unfold run_val, run_world, run_trace. now destruct (m w) as [[a w'] t]. Qed.

Lemma run_bind {A B} (m : M P A) (f : A -> M P B) (w : world P) :
  bind m f w =
    (run_val (f (run_val m w)) (run_world m w),
     run_world (f (run_val m w)) (run_world m w),
     run_trace m w ++ run_trace (f (run_val m w)) (run_world m w)).
Proof.
  unfold bind, run_val, run_world, run_trace.
  destruct (m w) as [[a w1] t1]; simpl.
  now destruct (f a w1) as [[b w2] t2].
Qed.

Lemma run_val_bind {A B} (m : M P A) (f : A -> M P B) (w : world P) :
  run_val (bind m f) w = run_val (f (run_val m w)) (run_world m w).
Proof. unfold run_val at 1. now rewrite run_bind. Qed.

Lemma run_world_bind {A B} (m : M P A) (f : A -> M P B) (w : world P) :
  run_world (bind m f) w = run_world (f (run_val m w)) (run_world m w).
Proof. unfold run_world at 1. now rewrite run_bind. Qed.

Lemma run_trace_bind {A B} (m : M P A) (f : A -> M P B) (w : world P) :
  run_trace (bind m f) w =
    run_trace m w ++ run_trace (f (run_val m w)) (run_world m w).
Proof. unfold run_trace at 1. now rewrite run_bind. Qed.

End MonadFacts.

(** ** stop *)

Section StopFacts.

Context {P : platform} (hd : headers).

Lemma stop_run (w : world P) :
  exists a b h,
    uvd_v6_0_stop hd w =
      (tt, Build_world h (adev w),
       [EvWReg mmUVD_RBC_RB_CNTL 0x11010101;
        EvRReg mmUVD_LMI_CTRL2 (u32 a);
        EvWReg mmUVD_LMI_CTRL2 (Z.lor (u32 a) 0x100);
        EvMdelay 1;
        EvWReg mmUVD_SOFT_RESET
               (u32 (UVD_SOFT_RESET__VCPU_SOFT_RESET_MASK hd));
        EvMdelay 5;
        EvWReg mmUVD_VCPU_CNTL 0;
        EvRReg mmUVD_LMI_CTRL2 (u32 b);
        EvWReg mmUVD_LMI_CTRL2 (Z.ldiff (u32 b) 0x100)]).
Proof.
  unfold uvd_v6_0_stop, WREG32_P, bind, WREG32, RREG32, mdelay, set_hw.
  cbn [hw adev].
  destruct (hw_rreg P mmUVD_LMI_CTRL2 _) as [a h1]. cbn [hw adev].
  destruct (hw_rreg P mmUVD_LMI_CTRL2 _) as [b h2]. cbn [hw adev].
  exists a, b. eexists.
  rewrite !u32_rmw.
  change (Z.shiftl 1 8) with (u32 0x100).
  rewrite rmw_set, rmw_clear. reflexivity.
Qed.

End StopFacts.

Lemma regfile_stores_registers :
  stores_registers regfile_platform (fun rf => rf).
Proof. split; reflexivity. Qed.

Section StorageFacts.

Context {P : platform} (peek : hw_state P -> reg -> Z).
Hypothesis storage : stores_registers P peek.

Lemma peek_WREG32 (r : reg) (v : Z) (w : world P) (r' : reg) :
  peek (hw (run_world (WREG32 r v) w)) r' =
    if reg_beq r' r then u32 v else peek (hw w) r'.
Proof. apply (peek_wreg P peek storage). Qed.

Lemma peek_RREG32 (r : reg) (w : world P) (r' : reg) :
  peek (hw (run_world (RREG32 r) w)) r' = peek (hw w) r'.
Proof.
  unfold run_world, RREG32.
  pose proof (peek_rreg P peek storage r (hw w) r') as H.
  now destruct (hw_rreg P r (hw w)) as [v h].
Qed.

Lemma val_RREG32 (r : reg) (w : world P) :
  run_val (RREG32 r) w = u32 (peek (hw w) r).
Proof.
  unfold run_val, RREG32.
  pose proof (peek_rreg_val P peek storage r (hw w)) as H.
  destruct (hw_rreg P r (hw w)) as [v h]. cbn in *. now subst.
Qed.

Lemma peek_mdelay_run (ms : Z) (w : world P) (r' : reg) :
  peek (hw (run_world (mdelay ms) w)) r' = peek (hw w) r'.
Proof. apply (peek_mdelay P peek storage). Qed.

Lemma peek_WREG32_P (r : reg) (val mask : Z) (w : world P) (r' : reg) :
  peek (hw (run_world (WREG32_P r val mask) w)) r' =
    if reg_beq r' r then rmw (u32 (peek (hw w) r)) val mask
    else peek (hw w) r'.
Proof.
  unfold WREG32_P. rewrite run_world_bind, peek_WREG32, peek_RREG32.
  now rewrite val_RREG32, u32_rmw.
Qed.

(** Where registers are storage, stop leaves exactly these four registers
    changed. *)
Lemma stop_peek (hd : headers) (w : world P) (r : reg) :
  peek (hw (run_world (uvd_v6_0_stop hd) w)) r =
    match r with
    | mmUVD_RBC_RB_CNTL => 0x11010101
    | mmUVD_LMI_CTRL2 => Z.ldiff (u32 (peek (hw w) mmUVD_LMI_CTRL2)) 0x100
    | mmUVD_SOFT_RESET => u32 (UVD_SOFT_RESET__VCPU_SOFT_RESET_MASK hd)
    | mmUVD_VCPU_CNTL => 0
    | _ => peek (hw w) r
    end.
Proof.
  unfold uvd_v6_0_stop.
  repeat first
    [ rewrite run_world_bind | rewrite peek_WREG32_P | rewrite peek_WREG32
    | rewrite peek_mdelay_run ].
  destruct r; cbn [reg_beq]; try reflexivity.
  unfold rmw. change (Z.shiftl 1 8) with 256.
  bitwise n.
  destruct (n <? 32), (Z.testbit (peek (hw w) mmUVD_LMI_CTRL2) n),
    (Z.testbit 256 n); reflexivity.
Qed.

End StorageFacts.

(** C5. Every stop performs, in order: the write of the idle value
    0x11010101 to the ring control register, the stall of the bus bridge
    (bit 8 of UVD_LMI_CTRL2 set, 1 ms), the assertion of the VCPU reset
    (5 ms), the write of 0 to the VCPU clock control, and the unstall of the
    bus bridge (bit 8 cleared).  On every platform whose registers are
    storage, a second stop leaves every register, and the device data, as
    the first stop left them. *)
Theorem uvd_v6_0_stop_sequence_idempotent :
  (forall (P : platform) (hd : headers) (w : world P),
      exists a b : Z,
        (0 <= a < 2 ^ 32) /\ (0 <= b < 2 ^ 32) /\
        run_trace (uvd_v6_0_stop hd) w =
          [EvWReg mmUVD_RBC_RB_CNTL 0x11010101;
           EvRReg mmUVD_LMI_CTRL2 a;
           EvWReg mmUVD_LMI_CTRL2 (Z.lor a (Z.shiftl 1 8));
           EvMdelay 1;
           EvWReg mmUVD_SOFT_RESET
                  (u32 (UVD_SOFT_RESET__VCPU_SOFT_RESET_MASK hd));
           EvMdelay 5;
           EvWReg mmUVD_VCPU_CNTL 0;
           EvRReg mmUVD_LMI_CTRL2 b;
           EvWReg mmUVD_LMI_CTRL2 (Z.ldiff b (Z.shiftl 1 8))]) /\
  (forall (P : platform) (peek : hw_state P -> reg -> Z) (hd : headers)
          (w : world P),
      stores_registers P peek ->
      let w1 := run_world (uvd_v6_0_stop hd) w in
      let w2 := run_world (uvd_v6_0_stop hd) w1 in
      (forall r : reg, peek (hw w2) r = peek (hw w1) r) /\
      adev w2 = adev w1).
Proof.
  split.
  - intros P hd w. destruct (stop_run hd w) as (a & b & h & E).
    exists (u32 a), (u32 b). split; [apply u32_range|].
    split; [apply u32_range|].
    unfold run_trace. rewrite E. reflexivity.
  - intros P peek hd w Hst w1 w2. split.
    + intro r. unfold w2. rewrite (stop_peek peek Hst). unfold w1.
      destruct r; try reflexivity; rewrite !(stop_peek peek Hst);
        try reflexivity.
      bitwise n.
      destruct (n <? 32), (Z.testbit (peek (hw w) mmUVD_LMI_CTRL2) n),
        (Z.testbit 256 n); reflexivity.
    + unfold w2, w1, run_world.
      destruct (stop_run hd w) as (a & b & h & E). rewrite E. cbn [fst snd].
      destruct (stop_run hd (Build_world h (adev w))) as (a' & b' & h' & E').
      rewrite E'. reflexivity.
Qed.

Lemma uvd_v6_0_stop_sequence_idempotent_witness :
  hw (run_world (uvd_v6_0_stop sample_headers)
        (run_world (uvd_v6_0_stop sample_headers)
           (Build_world (P:=regfile_platform) (fun _ => 0xFFFFFFFF)
                        sample_adev))) mmUVD_LMI_CTRL2 =
  hw (run_world (uvd_v6_0_stop sample_headers)
        (Build_world (P:=regfile_platform) (fun _ => 0xFFFFFFFF)
                     sample_adev)) mmUVD_LMI_CTRL2.
Proof.
  exact (proj1 (proj2 uvd_v6_0_stop_sequence_idempotent
                  regfile_platform (fun rf => rf) sample_headers
                  (Build_world (P:=regfile_platform) (fun _ => 0xFFFFFFFF)
                               sample_adev)
                  regfile_stores_registers) mmUVD_LMI_CTRL2).
Defined.

(** ** Ring protocol encoder *)

Lemma u32_land_low (x m n : Z) :
  0 <= n <= 32 -> m = Z.ones n -> u32 (Z.land x m) = x mod 2 ^ n.
Proof.
  intros Hn ->. rewrite Z.land_ones by lia. apply u32_small.
  assert (0 < 2 ^ n) by (apply Z.pow_pos_nonneg; lia).
  assert (2 ^ n <= 2 ^ 32) by (apply Z.pow_le_mono_r; lia).
  pose proof (Z.mod_pos_bound x (2 ^ n)). lia.
Qed.

(** C7. For every semaphore address and wait flag, emit_semaphore performs
    exactly six ring writes and nothing else: the SEMA_ADDR_LOW tag, address
    bits 3 to 22 ((addr >> 3) masked to 20 bits), the SEMA_ADDR_HIGH tag,
    address bits 23 to 42 ((addr >> 23) masked to 20 bits), the SEMA_CMD
    tag, and 0x80 plus 1 for a wait, plus 0 for a signal. *)
Theorem uvd_v6_0_ring_emit_semaphore_words
  (P : platform) (hd : headers) (addr : Z) (emit_wait : bool) (w : world P) :
  run_trace (uvd_v6_0_ring_emit_semaphore hd addr emit_wait) w =
    map EvRingWrite
      [u32 (PACKET0 hd mmUVD_SEMA_ADDR_LOW 0);
       Z.land (Z.shiftr addr 3) 0xFFFFF;
       u32 (PACKET0 hd mmUVD_SEMA_ADDR_HIGH 0);
       Z.land (Z.shiftr addr 23) 0xFFFFF;
       u32 (PACKET0 hd mmUVD_SEMA_CMD 0);
       0x80 + (if emit_wait then 1 else 0)] /\
  (forall i, 0 <= i < 20 ->
     Z.testbit (Z.land (Z.shiftr addr 3) 0xFFFFF) i = Z.testbit addr (i + 3)) /\
  (forall i, 0 <= i < 20 ->
     Z.testbit (Z.land (Z.shiftr addr 23) 0xFFFFF) i = Z.testbit addr (i + 23)) /\
  (forall i, 20 <= i -> Z.testbit (Z.land (Z.shiftr addr 3) 0xFFFFF) i = false) /\
  (forall i, 20 <= i -> Z.testbit (Z.land (Z.shiftr addr 23) 0xFFFFF) i = false).
Proof.
  assert (Hbits : forall s i, 0 <= i ->
            Z.testbit (Z.land (Z.shiftr addr s) 0xFFFFF) i =
            Z.testbit addr (i + s) && (i <? 20)).
  { intros s i Hi. change 0xFFFFF with (Z.ones 20).
    rewrite Z.land_spec, Z.shiftr_spec by assumption.
    rewrite Z.testbit_ones_nonneg by lia.
    destruct (Z.ltb_spec i 20), (Z.leb_spec 0 i); try lia; reflexivity. }
  split.
  - unfold run_trace, uvd_v6_0_ring_emit_semaphore, bind, amdgpu_ring_write,
      ret.
    cbn [fst snd app map].
    rewrite !(u32_land_low _ 0xFFFFF 20) by (try lia; reflexivity).
    change 0xFFFFF with (Z.ones 20). rewrite !Z.land_ones by lia.
    destruct emit_wait; reflexivity.
  - repeat split; intros i Hi; rewrite Hbits by lia.
    + replace (i <? 20) with true by (symmetry; apply Z.ltb_lt; lia).
      apply andb_true_r.
    + replace (i <? 20) with true by (symmetry; apply Z.ltb_lt; lia).
      apply andb_true_r.
    + replace (i <? 20) with false by (symmetry; apply Z.ltb_ge; lia).
      apply andb_false_r.
    + replace (i <? 20) with false by (symmetry; apply Z.ltb_ge; lia).
      apply andb_false_r.
Qed.

(** The fourteen words of a fence packet. *)
Lemma emit_fence_trace
  (P : platform) (hd : headers) (addr seq flags : Z) (w : world P) :
  run_trace (uvd_v6_0_ring_emit_fence hd addr seq flags) w =
    (if Z.land flags (AMDGPU_FENCE_FLAG_64BIT hd) =? 0 then []
     else [EvLog KERN_WARN "WARN_ON"])
    ++ map EvRingWrite
      [u32 (PACKET0 hd mmUVD_CONTEXT_ID 0);
       u32 seq;
       u32 (PACKET0 hd mmUVD_GPCOM_VCPU_DATA0 0);
       addr mod 2 ^ 32;
       u32 (PACKET0 hd mmUVD_GPCOM_VCPU_DATA1 0);
       (addr / 2 ^ 32) mod 2 ^ 8;
       u32 (PACKET0 hd mmUVD_GPCOM_VCPU_CMD 0);
       0;
       u32 (PACKET0 hd mmUVD_GPCOM_VCPU_DATA0 0);
       0;
       u32 (PACKET0 hd mmUVD_GPCOM_VCPU_DATA1 0);
       0;
       u32 (PACKET0 hd mmUVD_GPCOM_VCPU_CMD 0);
       2].
Proof.
  unfold run_trace, uvd_v6_0_ring_emit_fence, bind, amdgpu_ring_write,
    WARN_ON.
  cbn [fst snd map].
  rewrite (u32_land_low addr 0xffffffff 32) by (try lia; reflexivity).
  rewrite (u32_land_low (upper_32_bits addr) 0xff 8) by (try lia; reflexivity).
  replace (upper_32_bits addr mod 2 ^ 8) with ((addr / 2 ^ 32) mod 2 ^ 8).
  - reflexivity.
  - unfold upper_32_bits, u32.
    rewrite !Z.shiftr_div_pow2 by lia.
    rewrite Z.div_div by lia. change (2 ^ 16 * 2 ^ 16) with (2 ^ 32).
    symmetry. apply Z.mod_mod_divide. exists (2 ^ 24). reflexivity.
Qed.

(** C4, as the code has it. For every address, sequence number and flags,
    emit_fence writes exactly fourteen ring words, in this order: the
    CONTEXT_ID tag and the sequence number converted to 32 bits; the
    GPCOM_VCPU_DATA0 tag and address bits 0 to 31; the GPCOM_VCPU_DATA1 tag
    and address bits 32 to 39; the GPCOM_VCPU_CMD tag and 0; then the DATA0
    tag and 0, the DATA1 tag and 0, and the CMD tag and 2.  The only other
    event is the warning raised when the 64-bit fence flag is set. *)
Theorem uvd_v6_0_ring_emit_fence_words
  (P : platform) (hd : headers) (addr seq flags : Z) (w : world P) :
  ring_words (run_trace (uvd_v6_0_ring_emit_fence hd addr seq flags) w) =
    [u32 (PACKET0 hd mmUVD_CONTEXT_ID 0);
     seq mod 2 ^ 32;
     u32 (PACKET0 hd mmUVD_GPCOM_VCPU_DATA0 0);
     addr mod 2 ^ 32;
     u32 (PACKET0 hd mmUVD_GPCOM_VCPU_DATA1 0);
     (addr / 2 ^ 32) mod 2 ^ 8;
     u32 (PACKET0 hd mmUVD_GPCOM_VCPU_CMD 0);
     0;
     u32 (PACKET0 hd mmUVD_GPCOM_VCPU_DATA0 0);
     0;
     u32 (PACKET0 hd mmUVD_GPCOM_VCPU_DATA1 0);
     0;
     u32 (PACKET0 hd mmUVD_GPCOM_VCPU_CMD 0);
     2] /\
  List.length
    (ring_words (run_trace (uvd_v6_0_ring_emit_fence hd addr seq flags) w))
    = 14%nat /\
  run_trace (uvd_v6_0_ring_emit_fence hd addr seq flags) w =
    (if Z.land flags (AMDGPU_FENCE_FLAG_64BIT hd) =? 0 then []
     else [EvLog KERN_WARN "WARN_ON"])
    ++ map EvRingWrite
         (ring_words
            (run_trace (uvd_v6_0_ring_emit_fence hd addr seq flags) w)).
Proof.
  rewrite emit_fence_trace.
  destruct (Z.land flags (AMDGPU_FENCE_FLAG_64BIT hd) =? 0);
    repeat split; reflexivity.
Qed.

(** C4, as stated, fails: the packet for address 0x123456789A and sequence
    number 7 is not twelve words long. *)
Lemma uvd_v6_0_ring_emit_fence_not_twelve :
  List.length
    (ring_words
       (run_trace (uvd_v6_0_ring_emit_fence sample_headers 0x123456789A 7 0)
                  (mock_world mock_init sample_adev)))
  <> 12%nat.
Proof. vm_compute. discriminate. Qed.

(** ** Register reads *)

Section ReadFacts.

Context {P : platform}.

Lemma RREG32_trace (r : reg) (w : world P) :
  run_trace (RREG32 r) w = [EvRReg r (run_val (RREG32 r) w)].
Proof.
  unfold run_trace, run_val, RREG32.
  now destruct (hw_rreg P r (hw w)) as [v h].
Qed.

Lemma u32_range_read (r : reg) (w : world P) :
  0 <= run_val (RREG32 r) w < 2 ^ 32.
Proof.
  unfold run_val, RREG32.
  destruct (hw_rreg P r (hw w)) as [v h]. apply u32_range.
Qed.

Lemma RREG32_adev (r : reg) (w : world P) :
  adev (run_world (RREG32 r) w) = adev w.
Proof.
  unfold run_world, RREG32.
  now destruct (hw_rreg P r (hw w)) as [v h].
Qed.

End ReadFacts.

(** ** Idle queries *)

Section IdleFacts.

Context {P : platform} (hd : headers).

Lemma wait_for_idle_loop_spec (n : nat) (w : world P) :
  exists polls : list Z,
    run_trace (wait_for_idle_loop hd n) w = map (EvRReg mmSRBM_STATUS) polls /\
    ((run_val (wait_for_idle_loop hd n) w = 0 /\
      (List.length polls <= n)%nat /\
      exists busy v,
        polls = busy ++ [v] /\
        Forall (fun x => Z.land x (SRBM_STATUS__UVD_BUSY_MASK hd) <> 0) busy /\
        Z.land v (SRBM_STATUS__UVD_BUSY_MASK hd) = 0)
     \/
     (run_val (wait_for_idle_loop hd n) w = - ETIMEDOUT hd /\
      List.length polls = n /\
      Forall (fun x => Z.land x (SRBM_STATUS__UVD_BUSY_MASK hd) <> 0) polls)).
Proof.
  revert w. induction n as [|n IH]; intro w.
  - exists []. split; [reflexivity|]. right. repeat split. constructor.
  - cbn [wait_for_idle_loop].
    rewrite run_trace_bind, run_val_bind, RREG32_trace.
    set (v := run_val (RREG32 mmSRBM_STATUS) w).
    set (w1 := run_world (RREG32 mmSRBM_STATUS) w).
    destruct (Z.eqb_spec (Z.land v (SRBM_STATUS__UVD_BUSY_MASK hd)) 0)
      as [Hidle|Hbusy].
    + exists [v]. split; [reflexivity|]. left.
      split; [reflexivity|]. split; [simpl; lia|].
      exists [], v. repeat split; [constructor | exact Hidle].
    + destruct (IH w1) as (polls & Ht & Hcase).
      exists (v :: polls). split; [simpl; now rewrite Ht|].
      destruct Hcase as [(Hr & Hlen & busy & v' & -> & Hb & Hv)
                        |(Hr & Hlen & Hb)].
      * left. split; [exact Hr|]. split; [simpl in *; lia|].
        exists (v :: busy), v'. repeat split; [now constructor | exact Hv].
      * right. split; [exact Hr|]. split; [simpl; lia|]. now constructor.
Qed.

End IdleFacts.

(** C8. wait_for_idle only reads the engine status register, at most
    [usec_timeout] times.  It answers 0 at the first read that shows the busy
    bit clear (every earlier read showed it set), and otherwise, after
    exactly [usec_timeout] reads that all showed it set, the non-zero error
    [-ETIMEDOUT].  is_idle reads the same register once and answers true
    exactly when the busy bit of the value read is clear. *)
Theorem uvd_v6_0_wait_for_idle_bounded
  (P : platform) (hd : headers) (w : world P) :
  ETIMEDOUT hd <> 0 ->
  let busy_set := fun x => Z.land x (SRBM_STATUS__UVD_BUSY_MASK hd) <> 0 in
  let bound := Z.to_nat (u32 (usec_timeout (adev w))) in
  let r := run_val (uvd_v6_0_wait_for_idle hd) w in
  (exists polls : list Z,
     run_trace (uvd_v6_0_wait_for_idle hd) w =
       map (EvRReg mmSRBM_STATUS) polls /\
     (List.length polls <= bound)%nat /\
     ((r = 0 /\
       exists busy v,
         polls = busy ++ [v] /\ Forall busy_set busy /\ ~ busy_set v)
      \/
      (r = - ETIMEDOUT hd /\ r <> 0 /\
       List.length polls = bound /\ Forall busy_set polls))) /\
  (exists v : Z,
     run_trace (uvd_v6_0_is_idle hd) w = [EvRReg mmSRBM_STATUS v] /\
     (run_val (uvd_v6_0_is_idle hd) w = true <-> ~ busy_set v)).
Proof.
  intros Herr busy_set bound r. split.
  - unfold r, uvd_v6_0_wait_for_idle.
    rewrite run_trace_bind, run_val_bind. cbn [run_trace run_val run_world
      get_adev fst snd app].
    fold bound.
    destruct (wait_for_idle_loop_spec hd bound w) as (polls & Ht & Hcase).
    exists polls. split; [exact Ht|].
    destruct Hcase as [(Hr & Hlen & busy & v & Hp & Hb & Hv)
                      |(Hr & Hlen & Hb)].
    + split; [exact Hlen|]. left. split; [exact Hr|].
      exists busy, v. repeat split; try assumption.
      unfold busy_set. intro H. now apply H.
    + split; [unfold bound in *; lia|]. right.
      repeat split; try assumption. rewrite Hr. lia.
  - exists (run_val (RREG32 mmSRBM_STATUS) w).
    unfold uvd_v6_0_is_idle.
    rewrite run_trace_bind, run_val_bind, RREG32_trace.
    cbn [run_trace run_val ret fst snd app]. split; [reflexivity|].
    unfold busy_set. rewrite Z.eqb_eq. split; [intros H H'; now apply H'|].
    intro H. destruct (Z.eq_dec
      (Z.land (run_val (RREG32 mmSRBM_STATUS) w)
              (SRBM_STATUS__UVD_BUSY_MASK hd)) 0) as [E|E];
      [exact E | now destruct H].
Qed.

Lemma uvd_v6_0_wait_for_idle_bounded_witness :
  ETIMEDOUT sample_headers <> 0 /\
  run_val (uvd_v6_0_wait_for_idle sample_headers)
          (mock_world (mock_with_script mmSRBM_STATUS
                         [0x80000; 0x80000; 0] mock_init) sample_adev) = 0.
Proof.
  split; [discriminate|].
  pose proof (uvd_v6_0_wait_for_idle_bounded mock_platform sample_headers
    (mock_world (mock_with_script mmSRBM_STATUS [0x80000; 0x80000; 0]
                   mock_init) sample_adev)) as H.
  destruct H as [(polls & _ & _ & [(Hr & _)|(Hr & _)]) _].
  - discriminate.
  - exact Hr.
  - exfalso. vm_compute in Hr. discriminate.
Defined.

(** ** Interrupt source *)

(** C9, as the code has it. For every device, source, type and requested
    state, set_interrupt_state emits no event (so it writes no register),
    leaves the device and the hardware as they were, and answers 0, the
    success value. *)
Theorem uvd_v6_0_set_interrupt_state_noop
  (P : platform) (source : amdgpu_irq_src) (type : Z)
  (state : amdgpu_interrupt_state) (w : world P) :
  uvd_v6_0_set_interrupt_state source type state w = (0, w, []).
Proof. reflexivity. Qed.

(** C9, as stated, fails: enabling the single interrupt type does not
    answer a failure standing for "not implemented"; the answer is 0. *)
Lemma uvd_v6_0_set_interrupt_state_reports_success :
  ~ (run_val (uvd_v6_0_set_interrupt_state {| num_types := 1 |} 0
                AMDGPU_IRQ_STATE_ENABLE)
             (mock_world mock_init sample_adev) <> 0).
Proof. intro H. apply H. reflexivity. Qed.

(** ** Suspend *)

(** C10. On a device without the APU flag whose resource release
    ([amdgpu_uvd_suspend]) answers a non-zero error, suspend answers that
    error at once: the only event is the release call, so no register is
    written and stop is not run, and the device data, the ring's ready flag
    included, is unchanged. *)
Theorem uvd_v6_0_suspend_release_failure
  (P : platform) (hd : headers) (w : world P) (e : Z) (h : hw_state P) :
  Z.land (flags (adev w)) (AMD_IS_APU hd) = 0 ->
  ext_uvd_suspend P (hw w) = (e, h) ->
  e <> 0 ->
  run_val (uvd_v6_0_suspend hd) w = e /\
  run_trace (uvd_v6_0_suspend hd) w = [EvUvdSuspend e] /\
  reg_writes (run_trace (uvd_v6_0_suspend hd) w) = [] /\
  adev (run_world (uvd_v6_0_suspend hd) w) = adev w /\
  ready (ring (uvd (adev (run_world (uvd_v6_0_suspend hd) w)))) =
    ready (ring (uvd (adev w))).
Proof.
  intros Hapu Hsusp He.
  assert (E : uvd_v6_0_suspend hd w = (e, Build_world h (adev w), [EvUvdSuspend e])).
  { unfold uvd_v6_0_suspend, bind, get_adev, amdgpu_uvd_suspend.
    rewrite Hapu. cbn [Z.eqb].
    rewrite Hsusp. unfold nonzero.
    destruct (Z.eqb_spec e 0) as [->|_]; [now destruct He|reflexivity]. }
  unfold run_val, run_trace, run_world. rewrite E. repeat split.
Qed.

Lemma uvd_v6_0_suspend_release_failure_witness :
  run_val (uvd_v6_0_suspend sample_headers)
          (mock_world (mock_with_suspend (-16) mock_init) sample_adev) = -16 /\
  run_trace (uvd_v6_0_suspend sample_headers)
          (mock_world (mock_with_suspend (-16) mock_init) sample_adev)
    = [EvUvdSuspend (-16)].
Proof.
  pose proof (uvd_v6_0_suspend_release_failure mock_platform sample_headers
    (mock_world (mock_with_suspend (-16) mock_init) sample_adev) (-16)
    (mock_with_suspend (-16) mock_init)) as H.
  destruct H as (Hv & Ht & _).
  - reflexivity.
  - reflexivity.
  - discriminate.
  - split; [exact Hv | exact Ht].
Defined.

(** ** start *)

Ltac step_reads P :=
  repeat match goal with
  | |- context [hw_rreg P ?r ?h] =>
      let v := fresh "v" in
      let h' := fresh "h" in
      destruct (hw_rreg P r h) as [v h']; cbn [hw adev fst snd app]
  end.

Section StartFacts.

Context {P : platform} (hd : headers).

Lemma start_reset_sequence_run (w : world P) :
  exists a0 a1 a2 a3 a4 h,
    start_reset_sequence hd w =
      (tt, Build_world h (adev w),
       start_reset_events hd (adev w)
         (u32 a0) (u32 a1) (u32 a2) (u32 a3) (u32 a4)).
Proof.
  unfold start_reset_sequence, uvd_v6_0_mc_resume, WREG32_P, bind, WREG32,
    RREG32, mdelay, get_adev, set_hw.
  cbn [hw adev fst snd app].
  step_reads P.
  rewrite !u32_rmw.
  exists v, v0, v1, v2, v3. eexists.
  unfold start_reset_events, mc_regions, lower_32_bits, upper_32_bits.
  cbn [combine flat_map app fst snd].
  rewrite !u32_idem.
  destruct (BIG_ENDIAN hd); reflexivity.
Qed.

Lemma start_ring_setup_run (w : world P) :
  exists b0 b1 b2 b3 h,
    start_ring_setup hd w =
      (0, Build_world h (adev_map_ring (ring_set_wptr (u32 b2)) (adev w)),
       start_ring_events hd (adev w) (u32 b0) (u32 b1) (u32 b2) (u32 b3)).
Proof.
  unfold start_ring_setup, WREG32_P, bind, WREG32, RREG32, get_ring,
    set_ring_wptr, map_ring, set_hw, ret.
  cbn [hw adev fst snd app].
  step_reads P.
  rewrite !u32_rmw.
  exists v, v0, v1, v2. eexists.
  unfold start_ring_events, REG_SET_FIELD, lower_32_bits, upper_32_bits.
  rewrite !u32_idem. reflexivity.
Qed.

Lemma vcpu_reset_retry_run (w : world P) :
  exists a b h,
    vcpu_reset_retry hd w =
      (tt, Build_world h (adev w), vcpu_reset_pulse hd (u32 a) (u32 b)).
Proof.
  unfold vcpu_reset_retry, WREG32_P, bind, WREG32, RREG32, mdelay, DRM_ERROR,
    set_hw.
  cbn [hw adev fst snd app].
  step_reads P.
  rewrite !u32_rmw.
  exists v, v0. eexists. reflexivity.
Qed.

End StartFacts.

(** ** Observations distribute over traces *)

Lemma status_reads_app (t1 t2 : list event) :
  status_reads (t1 ++ t2) = status_reads t1 ++ status_reads t2.
Proof. apply flat_map_app. Qed.

Lemma vcpu_retries_app (t1 t2 : list event) :
  vcpu_retries (t1 ++ t2) = (vcpu_retries t1 + vcpu_retries t2)%nat.
Proof. unfold vcpu_retries. now rewrite filter_app, length_app. Qed.

Lemma status_reads_poll_misses (polls : list Z) :
  status_reads (flat_map poll_miss polls) = polls.
Proof.
  induction polls as [|v polls IH]; [reflexivity|].
  cbn [flat_map]. rewrite status_reads_app, IH. reflexivity.
Qed.

Lemma vcpu_retries_poll_misses (polls : list Z) :
  vcpu_retries (flat_map poll_miss polls) = 0%nat.
Proof.
  induction polls as [|v polls IH]; [reflexivity|].
  cbn [flat_map]. rewrite vcpu_retries_app, IH. reflexivity.
Qed.

Lemma status_reads_failed_attempts (hd : headers) (atts : list failed_attempt) :
  status_reads (flat_map (failed_attempt_trace hd) atts) =
    flat_map fa_polls atts.
Proof.
  induction atts as [|fa atts IH]; [reflexivity|].
  cbn [flat_map]. unfold failed_attempt_trace at 1.
  rewrite !status_reads_app, status_reads_poll_misses, IH.
  cbn. now rewrite app_nil_r.
Qed.

Lemma vcpu_retries_failed_attempts (hd : headers) (atts : list failed_attempt) :
  vcpu_retries (flat_map (failed_attempt_trace hd) atts) = List.length atts.
Proof.
  induction atts as [|fa atts IH]; [reflexivity|].
  cbn [flat_map]. unfold failed_attempt_trace at 1.
  rewrite !vcpu_retries_app, vcpu_retries_poll_misses, IH. reflexivity.
Qed.

Lemma full_miss_polls (atts : list failed_attempt) :
  Forall full_miss atts ->
  List.length (flat_map fa_polls atts) = (100 * List.length atts)%nat /\
  Forall not_booted (flat_map fa_polls atts).
Proof.
  induction 1 as [|fa atts [Hlen Hnb] _ [IHlen IHnb]].
  - split; [reflexivity | constructor].
  - cbn [flat_map]. split.
    + rewrite length_app, Hlen, IHlen. cbn [List.length]. lia.
    + apply Forall_app. now split.
Qed.

(** The first booted value of a list of status reads is unique. *)
Lemma first_booted_unique (m1 m2 : list Z) (v1 v2 : Z) (l1 l2 : list Z) :
  m1 ++ v1 :: l1 = m2 ++ v2 :: l2 ->
  Forall not_booted m1 -> booted v1 ->
  Forall not_booted m2 -> booted v2 ->
  m1 = m2 /\ v1 = v2 /\ l1 = l2.
Proof.
  revert m2. induction m1 as [|x m1 IH]; intros [|y m2] E H1 B1 H2 B2;
    cbn in E; injection E as -> E.
  - now subst.
  - inversion H2; subst. now destruct B1.
  - inversion H1; subst. now destruct B2.
  - inversion H1; inversion H2; subst.
    destruct (IH m2 E) as (-> & -> & ->); auto.
Qed.

(** ** The boot poll *)

Section BootFacts.

Context {P : platform} (hd : headers).

Lemma mdelay_trace (ms : Z) (w : world P) :
  run_trace (mdelay ms) w = [EvMdelay ms].
Proof. reflexivity. Qed.

(** The inner loop either misses [j] times, or sees the booted bit after
    fewer than [j] misses and stops at that read. *)
Lemma status_poll_spec (j : nat) (st : Z) (w : world P) :
  not_booted st ->
  exists polls : list Z,
    Forall not_booted polls /\
    ((not_booted (run_val (status_poll j st) w) /\
      List.length polls = j /\
      run_trace (status_poll j st) w = flat_map poll_miss polls)
     \/
     (booted (run_val (status_poll j st) w) /\
      (List.length polls < j)%nat /\
      run_trace (status_poll j st) w =
        flat_map poll_miss polls
        ++ [EvRReg mmUVD_STATUS (run_val (status_poll j st) w)])).
Proof.
  revert st w. induction j as [|j IH]; intros st w Hst.
  - exists []. split; [constructor|]. left. now repeat split.
  - cbn [status_poll].
    rewrite run_trace_bind, run_val_bind, RREG32_trace.
    set (v := run_val (RREG32 mmUVD_STATUS) w).
    set (w1 := run_world (RREG32 mmUVD_STATUS) w).
    unfold nonzero.
    destruct (Z.eqb_spec (Z.land v 2) 0) as [Hmiss|Hhit]; cbn [negb].
    + rewrite run_trace_bind, run_val_bind, mdelay_trace.
      set (w2 := run_world (mdelay 10) w1).
      destruct (IH v w2 Hmiss) as (polls & Hnb & Hcase).
      exists (v :: polls). split; [now constructor|].
      destruct Hcase as [(Hr & Hlen & Ht)|(Hr & Hlen & Ht)].
      * left. split; [exact Hr|]. split; [simpl; lia|].
        rewrite Ht. reflexivity.
      * right. split; [exact Hr|]. split; [simpl; lia|].
        rewrite Ht. reflexivity.
    + exists []. split; [constructor|]. right.
      split; [exact Hhit|]. split; [simpl; lia|]. reflexivity.
Qed.

Lemma vcpu_reset_retry_trace (w : world P) :
  exists a b,
    run_trace (vcpu_reset_retry hd) w = vcpu_reset_pulse hd a b.
Proof.
  destruct (vcpu_reset_retry_run hd w) as (a & b & h & E).
  exists (u32 a), (u32 b). unfold run_trace. now rewrite E.
Qed.

(** The outer loop either fails [i] times, each time polling 100 times and
    pulsing the VCPU reset, or sees the booted bit in an attempt that
    follows fewer than [i] failed ones. *)
Lemma boot_poll_spec (i : nat) (r0 : Z) (w : world P) :
  (exists atts : list failed_attempt,
     run_val (boot_poll hd i r0) w = match i with O => r0 | S _ => -1 end /\
     List.length atts = i /\ Forall full_miss atts /\
     run_trace (boot_poll hd i r0) w =
       flat_map (failed_attempt_trace hd) atts)
  \/
  (exists (atts : list failed_attempt) (polls : list Z) (v : Z),
     run_val (boot_poll hd i r0) w = 0 /\
     (List.length atts < i)%nat /\ Forall full_miss atts /\
     (List.length polls < 100)%nat /\ Forall not_booted polls /\ booted v /\
     run_trace (boot_poll hd i r0) w =
       flat_map (failed_attempt_trace hd) atts
       ++ flat_map poll_miss polls ++ [EvRReg mmUVD_STATUS v]).
Proof.
  revert r0 w. induction i as [|i IH]; intros r0 w.
  - left. exists []. repeat split. constructor.
  - cbn [boot_poll].
    rewrite run_trace_bind, run_val_bind.
    set (st := run_val (status_poll 100 0) w).
    set (w1 := run_world (status_poll 100 0) w).
    destruct (status_poll_spec 100 0 w eq_refl) as (polls & Hnb & Hcase).
    fold st in Hcase. unfold nonzero.
    destruct Hcase as [(Hst & Hlen & Ht)|(Hst & Hlen & Ht)].
    + unfold not_booted in Hst. rewrite Hst. cbn [Z.eqb negb].
      rewrite run_trace_bind, run_val_bind.
      destruct (vcpu_reset_retry_trace w1) as (a & b & Hpulse).
      set (w2 := run_world (vcpu_reset_retry hd) w1).
      set (fa := {| fa_polls := polls; fa_reset_a := a; fa_reset_b := b |}).
      assert (Hfa : full_miss fa) by (split; assumption).
      assert (Efa : run_trace (status_poll 100 0) w
                    ++ run_trace (vcpu_reset_retry hd) w1
                    = failed_attempt_trace hd fa)
        by (rewrite Ht, Hpulse; reflexivity).
      destruct (IH (-1) w2)
        as [(atts & Hr & Hl & Hf & Htr)
           |(atts & polls' & v & Hr & Hl & Hf & Hlp & Hnb' & Hv & Htr)].
      * left. exists (fa :: atts).
        split; [rewrite Hr; now destruct i|].
        split; [simpl; lia|]. split; [now constructor|].
        rewrite Htr, app_assoc, Efa. reflexivity.
      * right. exists (fa :: atts), polls', v.
        split; [exact Hr|]. split; [simpl; lia|]. split; [now constructor|].
        split; [exact Hlp|]. split; [exact Hnb'|]. split; [exact Hv|].
        rewrite Htr, app_assoc, Efa. cbn [flat_map].
        now rewrite <- app_assoc.
    + destruct (Z.eqb_spec (Z.land st 2) 0) as [E|_]; [now destruct Hst|].
      cbn [negb]. right. exists [], polls, st.
      split; [reflexivity|]. split; [simpl; lia|]. split; [constructor|].
      split; [exact Hlen|]. split; [exact Hnb|]. split; [exact Hst|].
      cbn [flat_map app run_trace ret snd]. rewrite Ht.
      now rewrite app_nil_r.
Qed.

(** start is the reset sequence, the boot poll, and then either the
    give-up message or the ring set-up. *)
Lemma start_decompose (w : world P) :
  let w0 := run_world (start_reset_sequence hd) w in
  let r := run_val (boot_poll hd 10 0) w0 in
  let w1 := run_world (boot_poll hd 10 0) w0 in
  run_val (uvd_v6_0_start hd) w = (if nonzero r then r else 0) /\
  run_trace (uvd_v6_0_start hd) w =
    run_trace (start_reset_sequence hd) w
    ++ run_trace (boot_poll hd 10 0) w0
    ++ (if nonzero r then [EvLog KERN_ERR msg_giving_up]
        else run_trace (start_ring_setup hd) w1).
Proof.
  intros w0 r w1. unfold uvd_v6_0_start.
  rewrite !run_trace_bind, !run_val_bind.
  fold w0. fold r. fold w1.
  destruct (nonzero r).
  - split; reflexivity.
  - split; [|reflexivity].
    destruct (start_ring_setup_run hd w1) as (b0 & b1 & b2 & b3 & h & E).
    unfold run_val. now rewrite E.
Qed.

End BootFacts.

(** C1. For every execution of start: if no read of the status register
    shows the booted bit, the boot poll makes exactly 10 attempts, each of
    100 polls followed by a 10 ms delay and then by a VCPU reset pulse (1000
    polls and 10 pulses in all, the last pulse after the tenth attempt),
    logs that it gives up, and start answers the failure -1.  If the first
    read that shows the booted bit falls in attempt [k] (after at least
    [100 (k - 1)] and fewer than [100 k] missed polls), then [k] is between 1
    and 10, exactly [k - 1] full failed attempts with their reset pulses
    precede it, and start goes on with the ring set-up and answers 0. *)
Theorem uvd_v6_0_start_boot_poll
  (P : platform) (hd : headers) (w : world P) :
  let r := run_val (uvd_v6_0_start hd) w in
  let t := run_trace (uvd_v6_0_start hd) w in
  let t0 := run_trace (start_reset_sequence hd) w in
  (Forall not_booted (status_reads t) ->
     r = -1 /\
     vcpu_retries t = 10%nat /\
     List.length (status_reads t) = 1000%nat /\
     exists atts : list failed_attempt,
       List.length atts = 10%nat /\ Forall full_miss atts /\
       t = t0 ++ flat_map (failed_attempt_trace hd) atts
              ++ [EvLog KERN_ERR msg_giving_up]) /\
  (forall (k : Z) (misses : list Z) (v : Z) (later : list Z),
     status_reads t = misses ++ v :: later ->
     Forall not_booted misses ->
     booted v ->
     100 * (k - 1) <= Z.of_nat (List.length misses) < 100 * k ->
     1 <= k <= 10 /\
     r = 0 /\
     vcpu_retries t = Z.to_nat (k - 1) /\
     exists (atts : list failed_attempt) (polls : list Z) (w1 : world P),
       List.length atts = Z.to_nat (k - 1) /\ Forall full_miss atts /\
       (List.length polls < 100)%nat /\
       misses = flat_map fa_polls atts ++ polls /\
       t = t0 ++ flat_map (failed_attempt_trace hd) atts
              ++ flat_map poll_miss polls
              ++ [EvRReg mmUVD_STATUS v]
              ++ run_trace (start_ring_setup hd) w1).
Proof.
  intros r t t0.
  destruct (start_decompose hd w) as [Hr Ht]. fold r t t0 in Hr, Ht.
  set (w0 := run_world (start_reset_sequence hd) w) in *.
  assert (Hs0 : status_reads t0 = [] /\ vcpu_retries t0 = 0%nat).
  { destruct (start_reset_sequence_run hd w) as (a0 & a1 & a2 & a3 & a4 & h & E).
    unfold t0, run_trace. rewrite E. split; reflexivity. }
  destruct Hs0 as [Hs0 Hv0].
  destruct (boot_poll_spec hd 10 0 w0)
    as [(atts & Hrb & Hl & Hf & Htb)
       |(atts & polls & v' & Hrb & Hl & Hf & Hlp & Hnb & Hv & Htb)];
    rewrite Hrb in Hr, Ht; cbn [nonzero Z.eqb negb] in Hr, Ht;
    rewrite Htb in Ht; destruct (full_miss_polls atts Hf) as [Hlen Hall].
  - (* ten failed attempts *)
    assert (Hsr : status_reads t = flat_map fa_polls atts).
    { rewrite Ht, !status_reads_app, Hs0, status_reads_failed_attempts.
      cbn. now rewrite app_nil_r. }
    split.
    + intros _. split; [exact Hr|]. split.
      { rewrite Ht, !vcpu_retries_app, Hv0, vcpu_retries_failed_attempts, Hl.
        reflexivity. }
      split; [rewrite Hsr, Hlen, Hl; reflexivity|].
      exists atts. now repeat split.
    + intros k misses v later E _ Hb _. exfalso.
      rewrite Hsr in E. rewrite E in Hall.
      apply Forall_app in Hall as [_ Hall]. inversion Hall; subst.
      now apply Hb.
  - (* booted after [length atts] failed attempts *)
    destruct (start_ring_setup_run hd (run_world (boot_poll hd 10 0) w0))
      as (b0 & b1 & b2 & b3 & h & Ering).
    assert (Hsr : status_reads t =
                  (flat_map fa_polls atts ++ polls) ++ v' :: [u32 b1]).
    { rewrite Ht, !status_reads_app, Hs0, status_reads_failed_attempts,
        status_reads_poll_misses.
      unfold run_trace at 1. rewrite Ering. cbn. now rewrite <- !app_assoc. }
    assert (Hvr : vcpu_retries t = List.length atts).
    { rewrite Ht, !vcpu_retries_app, Hv0, vcpu_retries_failed_attempts,
        vcpu_retries_poll_misses.
      unfold run_trace at 1. rewrite Ering. cbn. lia. }
    split.
    + intro Hnone. exfalso. rewrite Hsr in Hnone.
      apply Forall_app in Hnone as [_ Hnone]. inversion Hnone; subst.
      now apply Hv.
    + intros k misses v later E Hm Hb Hk.
      rewrite Hsr in E. symmetry in E.
      destruct (first_booted_unique _ _ _ _ _ _ E Hm Hb) as (-> & -> & _);
        [apply Forall_app; now split | exact Hv |].
      rewrite length_app, Hlen in Hk.
      assert (Hka : k - 1 = Z.of_nat (List.length atts)) by lia.
      assert (Hkn : Z.to_nat (k - 1) = List.length atts) by lia.
      split; [lia|]. split; [exact Hr|]. split; [now rewrite Hkn|].
      exists atts, polls, (run_world (boot_poll hd 10 0) w0).
      rewrite Hkn. repeat split; try assumption.
      rewrite Ht, <- !app_assoc. reflexivity.
Qed.

Lemma forallb_not_booted (l : list Z) :
  forallb (fun v => Z.land v 2 =? 0) l = true -> Forall not_booted l.
Proof.
  intro H. apply Forall_forall. intros v Hin.
  rewrite forallb_forall in H. apply Z.eqb_eq. now apply H.
Qed.

Lemma uvd_v6_0_start_boot_poll_witness :
  run_val (uvd_v6_0_start sample_headers)
          (mock_world mock_init sample_adev) = -1 /\
  (run_val (uvd_v6_0_start sample_headers)
           (mock_world (mock_with_script mmUVD_STATUS (repeat 0 250 ++ [2])
                          mock_init) sample_adev) = 0 /\
   vcpu_retries
     (run_trace (uvd_v6_0_start sample_headers)
        (mock_world (mock_with_script mmUVD_STATUS (repeat 0 250 ++ [2])
                       mock_init) sample_adev)) = 2%nat).
Proof.
  split.
  - apply (proj1 (uvd_v6_0_start_boot_poll mock_platform sample_headers
                    (mock_world mock_init sample_adev))).
    apply forallb_not_booted. vm_compute. reflexivity.
  - destruct (proj2 (uvd_v6_0_start_boot_poll mock_platform sample_headers
                (mock_world (mock_with_script mmUVD_STATUS
                               (repeat 0 250 ++ [2]) mock_init) sample_adev))
              3 (repeat 0 250) 2 [0]) as (_ & Hr & Hn & _).
    + vm_compute. reflexivity.
    + apply forallb_not_booted. vm_compute. reflexivity.
    + unfold booted. vm_compute. discriminate.
    + vm_compute. split; [discriminate | reflexivity].
    + split; [exact Hr | exact Hn].
Defined.

(** ** soft_reset *)

(** C6. For every device state, soft_reset runs stop, then asserts the UVD
    bit of the system soft-reset register (a read-modify-write that sets
    the bits of the mask, followed by 5 ms), then runs start from the state
    so reached, and answers what start answers: its trace is the three
    traces in sequence and its final state is start's.  The bit is pulsed:
    the first write start makes to the system soft-reset register clears
    the bits of the mask. *)
Theorem uvd_v6_0_soft_reset_composition
  (P : platform) (hd : headers) (w : world P) :
  let mask := SRBM_SOFT_RESET__SOFT_RESET_UVD_MASK hd in
  let pulse : M P unit :=
    WREG32_P mmSRBM_SOFT_RESET mask (Z.lnot mask) ;; mdelay 5 in
  let w1 := run_world (uvd_v6_0_stop hd) w in
  let w2 := run_world pulse w1 in
  run_trace (uvd_v6_0_soft_reset hd) w =
    run_trace (uvd_v6_0_stop hd) w
    ++ run_trace pulse w1
    ++ run_trace (uvd_v6_0_start hd) w2 /\
  run_val (uvd_v6_0_soft_reset hd) w = run_val (uvd_v6_0_start hd) w2 /\
  run_world (uvd_v6_0_soft_reset hd) w = run_world (uvd_v6_0_start hd) w2 /\
  (exists a : Z,
     0 <= a < 2 ^ 32 /\
     run_trace pulse w1 =
       [EvRReg mmSRBM_SOFT_RESET a;
        EvWReg mmSRBM_SOFT_RESET (u32 (Z.lor a mask));
        EvMdelay 5]) /\
  (exists (pre : list event) (b : Z) (post : list event),
     0 <= b < 2 ^ 32 /\
     ~ In mmSRBM_SOFT_RESET (map fst (reg_writes pre)) /\
     run_trace (uvd_v6_0_start hd) w2 =
       pre ++ [EvRReg mmSRBM_SOFT_RESET b;
               EvWReg mmSRBM_SOFT_RESET (Z.ldiff b mask);
               EvMdelay 5] ++ post).
Proof.
  intros mask pulse w1 w2.
  assert (Hw2 : w2 = run_world (mdelay 5)
                       (run_world (WREG32_P mmSRBM_SOFT_RESET mask
                                     (Z.lnot mask)) w1)).
  { unfold w2, pulse. now rewrite run_world_bind. }
  split; [|split; [|split; [|split]]].
  - unfold uvd_v6_0_soft_reset, pulse.
    rewrite !run_trace_bind. fold w1 mask. rewrite <- Hw2.
    now rewrite <- !app_assoc.
  - unfold uvd_v6_0_soft_reset.
    rewrite !run_val_bind. fold w1 mask. now rewrite <- Hw2.
  - unfold uvd_v6_0_soft_reset.
    rewrite !run_world_bind. fold w1 mask. now rewrite <- Hw2.
  - exists (run_val (RREG32 mmSRBM_SOFT_RESET) w1).
    split; [apply u32_range_read|].
    unfold pulse, WREG32_P. rewrite !run_trace_bind, RREG32_trace.
    cbn [run_trace WREG32 mdelay snd app].
    now rewrite u32_rmw, rmw_set_gen.
  - destruct (start_decompose hd w2) as [_ Ht]. rewrite Ht.
    destruct (start_reset_sequence_run hd w2)
      as (a0 & a1 & a2 & a3 & a4 & h & E).
    unfold run_trace at 1. rewrite E. cbn [snd].
    unfold start_reset_events.
    match goal with
    | |- context [?A ++ ?F ++ ?e1 :: ?e2 :: ?e3 :: ?e4 :: ?e5 :: ?e6 :: ?e7
                     :: ?e8 :: ?x :: ?y :: ?z :: ?rest] =>
        exists (A ++ F ++ [e1; e2; e3; e4; e5; e6; e7; e8]), (u32 a3)
    end.
    eexists. split; [apply u32_range|]. split.
    + unfold mc_regions. cbn. intuition discriminate.
    + rewrite (rmw_clear a3 (SRBM_SOFT_RESET__SOFT_RESET_UVD_MASK hd)).
      rewrite <- !app_assoc. cbn [app]. reflexivity.
Qed.

(** ** Memory controller layout *)

(** For a power-of-two page size the alignment macro rounds up to the next
    multiple of the page size. *)
Lemma AMDGPU_GPU_PAGE_ALIGN_round_up (hd : headers) (p a : Z) :
  0 <= p ->
  AMDGPU_GPU_PAGE_SIZE hd = 2 ^ p ->
  AMDGPU_GPU_PAGE_ALIGN hd a =
    (a + AMDGPU_GPU_PAGE_SIZE hd - 1) / AMDGPU_GPU_PAGE_SIZE hd
    * AMDGPU_GPU_PAGE_SIZE hd.
Proof.
  intros Hp Hpage. unfold AMDGPU_GPU_PAGE_ALIGN, AMDGPU_GPU_PAGE_MASK.
  rewrite Hpage.
  replace (2 ^ p - 1) with (Z.ones p) by (rewrite Z.ones_equiv; lia).
  rewrite <- Z.ldiff_land, Z.ldiff_ones_r by assumption.
  rewrite Z.shiftl_mul_pow2, Z.shiftr_div_pow2 by assumption.
  rewrite Z.ones_equiv.
  replace (a + Z.pred (2 ^ p)) with (a + 2 ^ p - 1) by lia.
  reflexivity.
Qed.

Lemma mc_resume_trace (P : platform) (hd : headers) (w : world P) :
  run_trace (uvd_v6_0_mc_resume hd) w =
    [EvWReg mmUVD_LMI_VCPU_CACHE_64BIT_BAR_LOW
            (lower_32_bits (uvd_gpu_addr (uvd (adev w))));
     EvWReg mmUVD_LMI_VCPU_CACHE_64BIT_BAR_HIGH
            (upper_32_bits (uvd_gpu_addr (uvd (adev w))))]
    ++ flat_map (fun p => [EvWReg (fst (fst p)) (u32 (Z.shiftr (fst (snd p)) 3));
                           EvWReg (snd (fst p)) (snd (snd p))])
         (combine [(mmUVD_VCPU_CACHE_OFFSET0, mmUVD_VCPU_CACHE_SIZE0);
                   (mmUVD_VCPU_CACHE_OFFSET1, mmUVD_VCPU_CACHE_SIZE1);
                   (mmUVD_VCPU_CACHE_OFFSET2, mmUVD_VCPU_CACHE_SIZE2)]
                  (mc_regions hd (fw_size (uvd (adev w))))).
Proof.
  unfold run_trace, uvd_v6_0_mc_resume, bind, WREG32, get_adev, mc_regions,
    lower_32_bits, upper_32_bits.
  cbn [fst snd app combine flat_map adev].
  now rewrite !u32_idem.
Qed.

(** C3, as the code has it. For a power-of-two page size, a firmware size
    whose rounded-up size fits 32 bits, and header sizes that fit 32 bits
    with a non-empty stack that is a multiple of the page size: mc_resume
    programs three contiguous regions, (offset >> 3, size) each; region 0
    starts at the firmware base offset and is the firmware size plus 4
    rounded up to the page size, region 1 starts where region 0 ends and has
    the stack size, region 2 starts where region 1 ends and has the heap
    size; the starts are strictly increasing, and each start lies a multiple
    of the page size above the firmware base offset, so that a start is a
    multiple of the page size exactly when the base offset is. *)
Theorem uvd_v6_0_mc_resume_regions
  (P : platform) (hd : headers) (w : world P) (p : Z) :
  let page := AMDGPU_GPU_PAGE_SIZE hd in
  let base := AMDGPU_UVD_FIRMWARE_OFFSET hd in
  let stack := AMDGPU_UVD_STACK_SIZE hd in
  let heap := AMDGPU_UVD_HEAP_SIZE hd in
  let fw := fw_size (uvd (adev w)) in
  let size0 := (fw + 4 + page - 1) / page * page in
  0 <= p -> page = 2 ^ p ->
  0 <= fw -> size0 < 2 ^ 32 ->
  0 <= base < 2 ^ 32 ->
  0 < stack < 2 ^ 32 -> (page | stack) ->
  0 <= heap < 2 ^ 32 ->
  mc_regions hd fw =
    [(base, size0); (base + size0, stack); (base + size0 + stack, heap)] /\
  run_trace (uvd_v6_0_mc_resume hd) w =
    [EvWReg mmUVD_LMI_VCPU_CACHE_64BIT_BAR_LOW
            (lower_32_bits (uvd_gpu_addr (uvd (adev w))));
     EvWReg mmUVD_LMI_VCPU_CACHE_64BIT_BAR_HIGH
            (upper_32_bits (uvd_gpu_addr (uvd (adev w))));
     EvWReg mmUVD_VCPU_CACHE_OFFSET0 (u32 (Z.shiftr base 3));
     EvWReg mmUVD_VCPU_CACHE_SIZE0 size0;
     EvWReg mmUVD_VCPU_CACHE_OFFSET1 (u32 (Z.shiftr (base + size0) 3));
     EvWReg mmUVD_VCPU_CACHE_SIZE1 stack;
     EvWReg mmUVD_VCPU_CACHE_OFFSET2
            (u32 (Z.shiftr (base + size0 + stack) 3));
     EvWReg mmUVD_VCPU_CACHE_SIZE2 heap] /\
  base < base + size0 < base + size0 + stack /\
  fw + 4 <= size0 < fw + 4 + page /\
  (page | size0) /\
  Forall (fun r => (page | fst r - base)) (mc_regions hd fw) /\
  Forall (fun r => (page | fst r) <-> (page | base)) (mc_regions hd fw).
Proof.
  intros page base stack heap fw size0 Hp Hpage Hfw Hsz Hbase Hstack Hdiv
    Hheap.
  assert (Hpos : 0 < page) by (rewrite Hpage; apply Z.pow_pos_nonneg; lia).
  assert (Hs0 : page <= size0 /\ fw + 4 <= size0 < fw + 4 + page).
  { unfold size0.
    pose proof (Z.mul_div_le (fw + 4 + page - 1) page Hpos).
    pose proof (Z.mul_succ_div_gt (fw + 4 + page - 1) page Hpos).
    assert (page * 1 <= page * ((fw + 4 + page - 1) / page)).
    { apply Z.mul_le_mono_nonneg_l; [lia|].
      apply Z.div_le_lower_bound; lia. }
    lia. }
  assert (Hreg : mc_regions hd fw =
    [(base, size0); (base + size0, stack); (base + size0 + stack, heap)]).
  { unfold mc_regions.
    rewrite (AMDGPU_GPU_PAGE_ALIGN_round_up hd p) by assumption.
    fold page base stack heap.
    fold size0.
    rewrite (u32_small size0), (u32_small stack), (u32_small heap) by lia.
    unfold u64.
    rewrite (Z.mod_small base), (Z.mod_small (base + size0)),
      (Z.mod_small (base + size0 + stack)) by lia.
    reflexivity. }
  split; [exact Hreg|]. split.
  { rewrite mc_resume_trace. fold fw. rewrite Hreg. reflexivity. }
  split; [lia|]. split; [lia|].
  assert (Hd0 : (page | size0)) by (exists ((fw + 4 + page - 1) / page); reflexivity).
  split; [exact Hd0|].
  assert (Hrel : Forall (fun r => (page | fst r - base)) (mc_regions hd fw)).
  { rewrite Hreg. repeat constructor; cbn [fst].
    - exists 0. lia.
    - replace (base + size0 - base) with size0 by lia. exact Hd0.
    - replace (base + size0 + stack - base) with (size0 + stack) by lia.
      now apply Z.divide_add_r. }
  split; [exact Hrel|].
  revert Hrel. apply Forall_impl. intros r Hr. split; intro H.
  - replace base with (fst r - (fst r - base)) by lia.
    now apply Z.divide_sub_r.
  - replace (fst r) with (fst r - base + base) by lia.
    now apply Z.divide_add_r.
Qed.

Lemma uvd_v6_0_mc_resume_regions_witness :
  mc_regions sample_headers 100000 =
    [(256, 102400); (256 + 102400, 1048576);
     (256 + 102400 + 1048576, 1048576)].
Proof.
  refine (proj1 (uvd_v6_0_mc_resume_regions mock_platform sample_headers
                   (mock_world mock_init sample_adev) 12 _ _ _ _ _ _ _ _)).
  - discriminate.
  - reflexivity.
  - discriminate.
  - reflexivity.
  - split; [discriminate | reflexivity].
  - split; reflexivity.
  - exists 256. reflexivity.
  - split; [discriminate | reflexivity].
Defined.

(** C3, as stated, fails: with the header values (page size 4096, firmware
    base offset 256) and a 100000-byte firmware, the region starts are not
    all multiples of the page size; region 0 starts at 256. *)
Lemma uvd_v6_0_mc_resume_start_not_page_aligned :
  ~ Forall (fun r => fst r mod AMDGPU_GPU_PAGE_SIZE sample_headers = 0)
           (mc_regions sample_headers 100000).
Proof.
  intro H. inversion H as [|r l Hr _]. vm_compute in Hr. discriminate.
Qed.

(** ** hw_init *)

Lemma nonzero_true (r : Z) : nonzero r = true <-> r <> 0.
Proof.
  unfold nonzero. destruct (Z.eqb_spec r 0); cbn; split; congruence.
Qed.

Lemma nonzero_false (r : Z) : nonzero r = false <-> r = 0.
Proof.
  unfold nonzero. destruct (Z.eqb_spec r 0); cbn; split; congruence.
Qed.

Section FrameFacts.

Context {P : platform} (hd : headers).

Lemma keeps_ret {A} (a : A) : keeps_adev (P:=P) (ret a).
Proof. intro w. reflexivity. Qed.

Lemma keeps_bind {A B} (m : M P A) (f : A -> M P B) :
  keeps_adev m -> (forall a, keeps_adev (f a)) -> keeps_adev (bind m f).
Proof.
  intros Hm Hf w. rewrite run_world_bind. now rewrite Hf, Hm.
Qed.

Lemma keeps_RREG32 r : keeps_adev (P:=P) (RREG32 r).
Proof. intro w. apply RREG32_adev. Qed.

Lemma keeps_WREG32 r v : keeps_adev (P:=P) (WREG32 r v).
Proof. intro w. reflexivity. Qed.

Lemma keeps_mdelay ms : keeps_adev (P:=P) (mdelay ms).
Proof. intro w. reflexivity. Qed.

Lemma keeps_DRM_UDELAY us : keeps_adev (P:=P) (DRM_UDELAY us).
Proof. intro w. reflexivity. Qed.

Lemma keeps_DRM_ERROR fmt : keeps_adev (P:=P) (DRM_ERROR fmt).
Proof. intro w. reflexivity. Qed.

Lemma keeps_DRM_INFO fmt : keeps_adev (P:=P) (DRM_INFO fmt).
Proof. intro w. reflexivity. Qed.

Lemma keeps_get_adev : keeps_adev (P:=P) get_adev.
Proof. intro w. reflexivity. Qed.

Lemma keeps_amdgpu_ring_lock ndw : keeps_adev (P:=P) (amdgpu_ring_lock ndw).
Proof.
  intro w. unfold run_world, amdgpu_ring_lock.
  now destruct (ext_ring_lock P ndw (hw w)).
Qed.

Lemma keeps_amdgpu_ring_write v : keeps_adev (P:=P) (amdgpu_ring_write v).
Proof. intro w. reflexivity. Qed.

Lemma keeps_amdgpu_ring_unlock_commit :
  keeps_adev (P:=P) amdgpu_ring_unlock_commit.
Proof. intro w. reflexivity. Qed.

Create HintDb keeps.

Hint Resolve keeps_ret keeps_RREG32 keeps_WREG32 keeps_mdelay
  keeps_DRM_UDELAY keeps_DRM_ERROR keeps_DRM_INFO keeps_get_adev
  keeps_amdgpu_ring_lock keeps_amdgpu_ring_write
  keeps_amdgpu_ring_unlock_commit : keeps.

Ltac keeps :=
  repeat first
    [ solve [auto with keeps]
    | match goal with
      | |- keeps_adev (if ?c then _ else _) => destruct c
      | |- keeps_adev (let '(_, _) := ?p in _) => destruct p
      end
    | apply keeps_bind; [|intro] ].

Lemma keeps_test_ring_poll (n : nat) (i tmp : Z) :
  keeps_adev (P:=P) (test_ring_poll n i tmp).
Proof.
  revert i tmp. induction n as [|n IH]; intros i tmp; cbn [test_ring_poll].
  - keeps.
  - keeps.
Qed.

Lemma keeps_ring_test_ring : keeps_adev (P:=P) (uvd_v6_0_ring_test_ring hd).
Proof.
  unfold uvd_v6_0_ring_test_ring. keeps. apply keeps_test_ring_poll.
Qed.

Lemma keeps_hw_init_done (r : Z) : keeps_adev (P:=P) (hw_init_done r).
Proof. unfold hw_init_done. keeps. Qed.

Lemma keeps_WREG32_P r val mask : keeps_adev (P:=P) (WREG32_P r val mask).
Proof. unfold WREG32_P. keeps. Qed.

Lemma keeps_status_poll (j : nat) (st : Z) :
  keeps_adev (P:=P) (status_poll j st).
Proof.
  revert st. induction j as [|j IH]; intro st; cbn [status_poll]; keeps.
Qed.

Lemma keeps_vcpu_reset_retry : keeps_adev (P:=P) (vcpu_reset_retry hd).
Proof.
  intro w. destruct (vcpu_reset_retry_run hd w) as (a & b & h & E).
  unfold run_world. now rewrite E.
Qed.

Hint Resolve keeps_WREG32_P keeps_status_poll keeps_vcpu_reset_retry : keeps.

Lemma keeps_boot_poll (i : nat) (r : Z) :
  keeps_adev (P:=P) (boot_poll hd i r).
Proof.
  revert r. induction i as [|i IH]; intro r; cbn [boot_poll]; keeps.
Qed.

Lemma keeps_start_reset_sequence :
  keeps_adev (P:=P) (start_reset_sequence hd).
Proof.
  intro w.
  destruct (start_reset_sequence_run hd w) as (a0 & a1 & a2 & a3 & a4 & h & E).
  unfold run_world. now rewrite E.
Qed.

(** start never touches the ring's ready flag. *)
Lemma start_keeps_ready (w : world P) :
  ready (ring (uvd (adev (run_world (uvd_v6_0_start hd) w)))) =
    ready (ring (uvd (adev w))).
Proof.
  unfold uvd_v6_0_start. rewrite !run_world_bind.
  set (w0 := run_world (start_reset_sequence hd) w).
  set (wb := run_world (boot_poll hd 10 0) w0).
  assert (Hb : adev wb = adev w).
  { unfold wb, w0.
    now rewrite (keeps_boot_poll _ _ _), (keeps_start_reset_sequence _). }
  destruct (nonzero (run_val (boot_poll hd 10 0) w0)).
  - rewrite run_world_bind. cbn [run_world ret DRM_ERROR fst snd].
    now rewrite Hb.
  - destruct (start_ring_setup_run hd wb) as (b0 & b1 & b2 & b3 & h & E).
    unfold run_world at 1. rewrite E. cbn [fst snd adev]. now rewrite Hb.
Qed.

(** The ready flag on each failure path of hw_init: unchanged when start
    fails, false when the ring test fails, true when the lock of 10 slots
    fails. *)
Lemma hw_init_failure_paths (w : world P) :
  let w1 := run_world (uvd_v6_0_start hd) w in
  let w2 := run_world (set_ring_ready true) w1 in
  let w3 := run_world (amdgpu_ring_test_ring hd) w2 in
  let ready' :=
    ready (ring (uvd (adev (run_world (uvd_v6_0_hw_init hd) w)))) in
  run_val (uvd_v6_0_hw_init hd) w <> 0 ->
  (run_val (uvd_v6_0_start hd) w <> 0 /\
   ready' = ready (ring (uvd (adev w))))
  \/
  (run_val (uvd_v6_0_start hd) w = 0 /\
   run_val (amdgpu_ring_test_ring hd) w2 <> 0 /\ ready' = false)
  \/
  (run_val (uvd_v6_0_start hd) w = 0 /\
   run_val (amdgpu_ring_test_ring hd) w2 = 0 /\
   run_val (amdgpu_ring_lock 10) w3 <> 0 /\ ready' = true).
Proof.
  intros w1 w2 w3 ready'. unfold ready'. clear ready'.
  unfold uvd_v6_0_hw_init.
  rewrite run_val_bind, run_world_bind. fold w1.
  destruct (nonzero (run_val (uvd_v6_0_start hd) w)) eqn:Es.
  - intros _. left. split; [now apply nonzero_true|].
    rewrite (keeps_hw_init_done _ _). apply start_keeps_ready.
  - apply nonzero_false in Es.
    rewrite !run_val_bind, !run_world_bind. fold w2. fold w3.
    destruct (nonzero (run_val (amdgpu_ring_test_ring hd) w2)) eqn:Et.
    + intros _. right. left. split; [exact Es|].
      split; [now apply nonzero_true|].
      rewrite run_world_bind. rewrite (keeps_hw_init_done _ _).
      reflexivity.
    + apply nonzero_false in Et.
      rewrite !run_val_bind, !run_world_bind.
      destruct (nonzero (run_val (amdgpu_ring_lock 10) w3)) eqn:El.
      * intros _. right. right. split; [exact Es|]. split; [exact Et|].
        split; [now apply nonzero_true|].
        rewrite run_world_bind.
        rewrite (keeps_hw_init_done _ _), (keeps_DRM_ERROR _ _),
          (keeps_amdgpu_ring_lock _ _).
        unfold w3, amdgpu_ring_test_ring. rewrite (keeps_ring_test_ring _).
        reflexivity.
      * apply nonzero_false in El.
        intro Hfail. exfalso. apply Hfail.
        repeat (rewrite run_val_bind; cbn [run_val run_world
          amdgpu_ring_write amdgpu_ring_unlock_commit fst snd]).
        unfold hw_init_done. rewrite run_val_bind. exact El.
Qed.

End FrameFacts.

(** C2 fails on the ring-lock path: for every platform, when start and the
    ring test succeed and the lock of 10 slots for the semaphore-timeout
    programming answers a non-zero error, hw_init answers that error and
    the ring's ready flag, set before the ring test, is still true. *)
Theorem uvd_v6_0_hw_init_lock_failure_leaves_ready
  (P : platform) (hd : headers) (w : world P) :
  let w1 := run_world (uvd_v6_0_start hd) w in
  let w2 := run_world (set_ring_ready true) w1 in
  let w3 := run_world (amdgpu_ring_test_ring hd) w2 in
  run_val (uvd_v6_0_start hd) w = 0 ->
  run_val (amdgpu_ring_test_ring hd) w2 = 0 ->
  run_val (amdgpu_ring_lock 10) w3 <> 0 ->
  run_val (uvd_v6_0_hw_init hd) w = run_val (amdgpu_ring_lock 10) w3 /\
  run_val (uvd_v6_0_hw_init hd) w <> 0 /\
  ready (ring (uvd (adev (run_world (uvd_v6_0_hw_init hd) w)))) = true.
Proof.
  intros w1 w2 w3 Hstart Htest Hlock.
  assert (Hnz : nonzero (run_val (amdgpu_ring_lock 10) w3) = true).
  { unfold nonzero. now destruct (Z.eqb_spec (run_val (amdgpu_ring_lock 10) w3) 0). }
  assert (Hval : run_val (uvd_v6_0_hw_init hd) w
                 = run_val (amdgpu_ring_lock 10) w3).
  { unfold uvd_v6_0_hw_init.
    rewrite run_val_bind, Hstart. cbn [nonzero Z.eqb negb].
    rewrite !run_val_bind. fold w1 w2. rewrite Htest. cbn [nonzero Z.eqb negb].
    rewrite !run_val_bind. fold w3. rewrite Hnz.
    rewrite run_val_bind. unfold hw_init_done.
    rewrite run_val_bind. reflexivity. }
  split; [exact Hval|]. split; [now rewrite Hval|].
  unfold uvd_v6_0_hw_init.
  rewrite run_world_bind, Hstart. cbn [nonzero Z.eqb negb].
  rewrite !run_world_bind. fold w1 w2. rewrite Htest. cbn [nonzero Z.eqb negb].
  rewrite !run_world_bind. fold w3. rewrite Hnz.
  rewrite run_world_bind.
  rewrite (keeps_hw_init_done _ _), (keeps_DRM_ERROR _ _),
    (keeps_amdgpu_ring_lock _ _).
  unfold w3, amdgpu_ring_test_ring. rewrite (keeps_ring_test_ring hd _).
  reflexivity.
Qed.

Lemma uvd_v6_0_hw_init_lock_failure_leaves_ready_witness :
  run_val (uvd_v6_0_hw_init sample_headers)
    (mock_world
       (mock_with_locks [0; -12]
          (mock_with_script mmUVD_CONTEXT_ID [0xDEADBEEF]
             (mock_with_script mmUVD_STATUS [2] mock_init)))
       sample_adev) = -12 /\
  ready (ring (uvd (adev
    (run_world (uvd_v6_0_hw_init sample_headers)
       (mock_world
          (mock_with_locks [0; -12]
             (mock_with_script mmUVD_CONTEXT_ID [0xDEADBEEF]
                (mock_with_script mmUVD_STATUS [2] mock_init)))
          sample_adev))))) = true.
Proof.
  destruct (uvd_v6_0_hw_init_lock_failure_leaves_ready mock_platform
              sample_headers
              (mock_world
                 (mock_with_locks [0; -12]
                    (mock_with_script mmUVD_CONTEXT_ID [0xDEADBEEF]
                       (mock_with_script mmUVD_STATUS [2] mock_init)))
                 sample_adev)) as (Hv & _ & Hr).
  - vm_compute. reflexivity.
  - vm_compute. reflexivity.
  - vm_compute. discriminate.
  - split; [rewrite Hv; vm_compute; reflexivity | exact Hr].
Defined.

(** * Further facts *)

(** ** hw_init and hw_fini *)

Section LifecycleFacts.

Context {P : platform} (hd : headers).

Lemma start_failure_adev (w : world P) :
  run_val (uvd_v6_0_start hd) w <> 0 ->
  adev (run_world (uvd_v6_0_start hd) w) = adev w.
Proof.
  unfold uvd_v6_0_start. rewrite !run_val_bind, !run_world_bind.
  set (w0 := run_world (start_reset_sequence hd) w).
  set (wb := run_world (boot_poll hd 10 0) w0).
  assert (Hb : adev wb = adev w).
  { unfold wb, w0.
    now rewrite (keeps_boot_poll _ _ _), (keeps_start_reset_sequence _). }
  destruct (nonzero (run_val (boot_poll hd 10 0) w0)).
  - intros _. rewrite run_world_bind. exact Hb.
  - intro H. exfalso. apply H.
    destruct (start_ring_setup_run hd wb) as (b0 & b1 & b2 & b3 & h & E).
    unfold run_val. now rewrite E.
Qed.

Lemma stop_keeps_adev : keeps_adev (P:=P) (uvd_v6_0_stop hd).
Proof.
  intro w. destruct (stop_run hd w) as (a & b & h & E).
  unfold run_world. now rewrite E.
Qed.

Lemma hw_init_done_trace (r : Z) (w : world P) :
  run_trace (hw_init_done r) w =
    if nonzero r then []
    else [EvLog KERN_INFO "UVD initialized successfully."%string].
Proof. unfold hw_init_done, run_trace, bind. now destruct (nonzero r). Qed.

End LifecycleFacts.

(** X1. hw_init answers the error of the first step that fails, in the
    order start, ring test, lock of ten ring slots, and 0 when none does.
    When start fails the ready flag is as on entry and the trace is start's
    alone, so neither the transport nor any further register is touched;
    when the ring test fails the flag is false; when both succeed the flag
    is true, whatever the lock answers. *)
Theorem uvd_v6_0_hw_init_result
  (P : platform) (hd : headers) (w : world P) :
  let w1 := run_world (uvd_v6_0_start hd) w in
  let w2 := run_world (set_ring_ready true) w1 in
  let w3 := run_world (amdgpu_ring_test_ring hd) w2 in
  let rs := run_val (uvd_v6_0_start hd) w in
  let rt := run_val (amdgpu_ring_test_ring hd) w2 in
  let rl := run_val (amdgpu_ring_lock 10) w3 in
  let r := run_val (uvd_v6_0_hw_init hd) w in
  let ready' :=
    ready (ring (uvd (adev (run_world (uvd_v6_0_hw_init hd) w)))) in
  (rs <> 0 ->
     r = rs /\ ready' = ready (ring (uvd (adev w))) /\
     adev (run_world (uvd_v6_0_hw_init hd) w) = adev w /\
     run_trace (uvd_v6_0_hw_init hd) w = run_trace (uvd_v6_0_start hd) w) /\
  (rs = 0 -> rt <> 0 -> r = rt /\ ready' = false) /\
  (rs = 0 -> rt = 0 -> r = rl /\ ready' = true) /\
  (r = 0 <-> rs = 0 /\ rt = 0 /\ rl = 0).
Proof.
  intros w1 w2 w3 rs rt rl r ready'.
  assert (Hs : rs <> 0 ->
     r = rs /\ ready' = ready (ring (uvd (adev w))) /\
     adev (run_world (uvd_v6_0_hw_init hd) w) = adev w /\
     run_trace (uvd_v6_0_hw_init hd) w = run_trace (uvd_v6_0_start hd) w).
  { intro H. pose proof (proj2 (nonzero_true rs) H) as Hn.
    unfold r, ready', uvd_v6_0_hw_init.
    rewrite run_val_bind, run_world_bind, run_trace_bind. fold rs w1.
    rewrite Hn. unfold hw_init_done at 1.
    rewrite run_val_bind, (keeps_hw_init_done _ _), hw_init_done_trace, Hn.
    rewrite app_nil_r. unfold w1.
    rewrite (start_failure_adev hd w H). repeat split. }
  assert (Ht : rs = 0 -> rt <> 0 -> r = rt /\ ready' = false).
  { intros H0 H. pose proof (proj2 (nonzero_true rt) H) as Hn.
    unfold r, ready', uvd_v6_0_hw_init.
    rewrite run_val_bind, run_world_bind. fold rs w1. rewrite H0.
    cbn [nonzero Z.eqb negb].
    rewrite !run_val_bind, !run_world_bind. fold w2 rt w3. rewrite Hn.
    rewrite run_val_bind, run_world_bind. unfold hw_init_done at 1.
    rewrite run_val_bind, (keeps_hw_init_done _ _). split; reflexivity. }
  assert (Hl : rs = 0 -> rt = 0 -> r = rl /\ ready' = true).
  { intros H0 H1.
    unfold r, ready', uvd_v6_0_hw_init.
    rewrite run_val_bind, run_world_bind. fold rs w1. rewrite H0.
    cbn [nonzero Z.eqb negb].
    rewrite !run_val_bind, !run_world_bind. fold w2 rt w3. rewrite H1.
    cbn [nonzero Z.eqb negb].
    rewrite !run_val_bind, !run_world_bind. fold rl.
    set (w4 := run_world (amdgpu_ring_lock 10) w3).
    assert (Ha : adev w4 = adev w2).
    { unfold w4, w3, amdgpu_ring_test_ring.
      now rewrite (keeps_amdgpu_ring_lock _ _), (keeps_ring_test_ring _ _). }
    destruct (nonzero rl).
    - rewrite run_val_bind, run_world_bind. unfold hw_init_done at 1.
      rewrite run_val_bind, (keeps_hw_init_done _ _), (keeps_DRM_ERROR _ _).
      rewrite Ha. split; reflexivity.
    - unfold run_val, run_world, bind, amdgpu_ring_write,
        amdgpu_ring_unlock_commit, hw_init_done, DRM_INFO, ret, set_hw.
      destruct (nonzero rl); cbn [fst snd adev]; rewrite Ha;
        split; reflexivity. }
  split; [exact Hs|]. split; [exact Ht|]. split; [exact Hl|].
  split.
  - intro Hr. destruct (Z.eq_dec rs 0) as [H0|H0].
    + destruct (Z.eq_dec rt 0) as [H1|H1].
      * destruct (Hl H0 H1) as [E _]. repeat split; congruence.
      * destruct (Ht H0 H1) as [E _]. congruence.
    + destruct (Hs H0) as [E _]. congruence.
  - intros (H0 & H1 & H2). destruct (Hl H0 H1) as [E _]. congruence.
Qed.

(** X2. When start, the ring test and the lock of ten slots all succeed,
    hw_init answers 0 and, after the traces of start and of the ring test,
    does exactly this: the lock, ten ring words that set the three semaphore
    timeouts to 0xFFFFF, clear the timeout status with 8 and write 3 to the
    semaphore control, the commit, and the success message. *)
Theorem uvd_v6_0_hw_init_success
  (P : platform) (hd : headers) (w : world P) :
  let w1 := run_world (uvd_v6_0_start hd) w in
  let w2 := run_world (set_ring_ready true) w1 in
  let w3 := run_world (amdgpu_ring_test_ring hd) w2 in
  run_val (uvd_v6_0_start hd) w = 0 ->
  run_val (amdgpu_ring_test_ring hd) w2 = 0 ->
  run_val (amdgpu_ring_lock 10) w3 = 0 ->
  run_val (uvd_v6_0_hw_init hd) w = 0 /\
  run_trace (uvd_v6_0_hw_init hd) w =
    run_trace (uvd_v6_0_start hd) w
    ++ run_trace (amdgpu_ring_test_ring hd) w2
    ++ [EvRingLock 10 0]
    ++ map EvRingWrite (sema_timeout_words hd)
    ++ [EvRingUnlockCommit;
        EvLog KERN_INFO "UVD initialized successfully."].
Proof.
  intros w1 w2 w3 Hs Ht Hl.
  assert (Elock : run_trace (amdgpu_ring_lock 10) w3 = [EvRingLock 10 0]).
  { revert Hl. unfold run_val, run_trace, amdgpu_ring_lock.
    destruct (ext_ring_lock P 10 (hw w3)) as [r h]. cbn. now intros ->. }
  unfold uvd_v6_0_hw_init.
  rewrite run_val_bind, run_trace_bind. fold w1. rewrite Hs.
  cbn [nonzero Z.eqb negb].
  rewrite !run_val_bind, !run_trace_bind. fold w2. fold w3. rewrite Ht.
  cbn [nonzero Z.eqb negb].
  rewrite !run_val_bind, !run_trace_bind. rewrite Hl, Elock.
  cbn [nonzero Z.eqb negb].
  split.
  - unfold run_val, bind, amdgpu_ring_write, amdgpu_ring_unlock_commit,
      hw_init_done, DRM_INFO, ret. reflexivity.
  - cbn [run_trace set_ring_ready snd app].
    unfold run_trace, bind, amdgpu_ring_write, amdgpu_ring_unlock_commit,
      hw_init_done, DRM_INFO, ret. reflexivity.
Qed.

Lemma uvd_v6_0_hw_init_success_witness :
  run_val (uvd_v6_0_hw_init sample_headers)
          (mock_world mock_healthy sample_adev) = 0.
Proof.
  refine (proj1 (uvd_v6_0_hw_init_success mock_platform sample_headers
                   (mock_world mock_healthy sample_adev) _ _ _));
    vm_compute; reflexivity.
Defined.

Lemma hw_fini_run (P : platform) (hd : headers) (w : world P) :
  run_val (uvd_v6_0_hw_fini hd) w = 0 /\
  run_trace (uvd_v6_0_hw_fini hd) w = run_trace (uvd_v6_0_stop hd) w /\
  adev (run_world (uvd_v6_0_hw_fini hd) w) =
    adev_map_ring (ring_set_ready false) (adev w) /\
  hw (run_world (uvd_v6_0_hw_fini hd) w) = hw (run_world (uvd_v6_0_stop hd) w).
Proof.
  unfold uvd_v6_0_hw_fini.
  rewrite !run_val_bind, !run_trace_bind, !run_world_bind.
  cbn [run_val run_trace run_world set_ring_ready ret fst snd map_ring adev
       hw app].
  rewrite (stop_keeps_adev hd w), app_nil_r. repeat split.
Qed.

(** X3. hw_fini cannot fail: it always answers 0; its trace and its effect
    on the hardware are stop's, and of the device data it changes the ring's
    ready flag alone, to false. *)
Theorem uvd_v6_0_hw_fini_effect
  (P : platform) (hd : headers) (w : world P) :
  run_val (uvd_v6_0_hw_fini hd) w = 0 /\
  run_trace (uvd_v6_0_hw_fini hd) w = run_trace (uvd_v6_0_stop hd) w /\
  adev (run_world (uvd_v6_0_hw_fini hd) w) =
    adev_map_ring (ring_set_ready false) (adev w) /\
  hw (run_world (uvd_v6_0_hw_fini hd) w) = hw (run_world (uvd_v6_0_stop hd) w).
Proof. apply hw_fini_run. Qed.

(** ** suspend and resume *)

(** X4. A suspend that answers 0 has stopped the engine and left the ring
    not ready: its trace is the trace of stop, preceded by the successful
    release call unless the device is an APU, on which the release is
    skipped. *)
Theorem uvd_v6_0_suspend_success
  (P : platform) (hd : headers) (w : world P) :
  run_val (uvd_v6_0_suspend hd) w = 0 ->
  ready (ring (uvd (adev (run_world (uvd_v6_0_suspend hd) w)))) = false /\
  exists (pre : list event) (w' : world P),
    run_trace (uvd_v6_0_suspend hd) w = pre ++ run_trace (uvd_v6_0_stop hd) w' /\
    adev w' = adev w /\
    (if Z.land (flags (adev w)) (AMD_IS_APU hd) =? 0
     then pre = [EvUvdSuspend 0] else pre = [] /\ w' = w).
Proof.
  unfold uvd_v6_0_suspend.
  rewrite run_val_bind, run_world_bind, run_trace_bind.
  cbn [run_val run_world run_trace get_adev fst snd app].
  assert (Hfini : forall w0 : world P,
    run_val (r <- uvd_v6_0_hw_fini hd ;; (if nonzero r then ret r else ret r))
            w0 = 0 /\
    ready (ring (uvd (adev (run_world
      (r <- uvd_v6_0_hw_fini hd ;; (if nonzero r then ret r else ret r))
      w0)))) = false /\
    run_trace (r <- uvd_v6_0_hw_fini hd ;; (if nonzero r then ret r else ret r))
              w0 = run_trace (uvd_v6_0_stop hd) w0).
  { intro w0.
    destruct (hw_fini_run P hd w0) as (Ev & Et & Ea & _).
    rewrite run_val_bind, run_world_bind, run_trace_bind, Ev, Et.
    cbn [nonzero Z.eqb negb run_val run_world run_trace ret fst snd].
    rewrite Ea, app_nil_r. repeat split. }
  destruct (Z.land (flags (adev w)) (AMD_IS_APU hd) =? 0).
  - rewrite run_val_bind, run_world_bind, run_trace_bind.
    set (e := run_val amdgpu_uvd_suspend w).
    set (w1 := run_world amdgpu_uvd_suspend w).
    assert (Epre : run_trace amdgpu_uvd_suspend w = [EvUvdSuspend e]
                   /\ adev w1 = adev w).
    { unfold e, w1, run_trace, run_val, run_world, amdgpu_uvd_suspend.
      now destruct (ext_uvd_suspend P (hw w)). }
    destruct Epre as [Epre Ea].
    destruct (nonzero e) eqn:En.
    + cbn [run_val ret fst]. intro H. apply nonzero_true in En. contradiction.
    + apply nonzero_false in En. intros _.
      destruct (Hfini w1) as (_ & Hr & Ht).
      split; [exact Hr|]. exists [EvUvdSuspend 0], w1.
      rewrite Epre, En, Ht. repeat split. exact Ea.
  - intros _. destruct (Hfini w) as (_ & Hr & Ht).
    split; [exact Hr|]. exists [], w. rewrite Ht. repeat split.
Qed.

Lemma uvd_v6_0_suspend_success_witness :
  ready (ring (uvd (adev
    (run_world (uvd_v6_0_suspend sample_headers)
       (mock_world mock_init sample_apu_adev))))) = false.
Proof.
  refine (proj1 (uvd_v6_0_suspend_success mock_platform sample_headers
                   (mock_world mock_init sample_apu_adev) _)).
  vm_compute. reflexivity.
Defined.

(** X5. suspend answers either 0 or, on a device without the APU flag, the
    non-zero error of the release call; nothing else can make it fail. *)
Theorem uvd_v6_0_suspend_result
  (P : platform) (hd : headers) (w : world P) :
  run_val (uvd_v6_0_suspend hd) w = 0 \/
  (Z.land (flags (adev w)) (AMD_IS_APU hd) = 0 /\
   run_val (uvd_v6_0_suspend hd) w = fst (ext_uvd_suspend P (hw w)) /\
   fst (ext_uvd_suspend P (hw w)) <> 0).
Proof.
  unfold uvd_v6_0_suspend.
  rewrite run_val_bind.
  cbn [run_val run_world get_adev fst snd].
  assert (Hfini : forall w0 : world P,
    run_val (r <- uvd_v6_0_hw_fini hd ;; (if nonzero r then ret r else ret r))
            w0 = 0).
  { intro w0.
    destruct (hw_fini_run P hd w0) as (Ev & _).
    rewrite run_val_bind, Ev. reflexivity. }
  destruct (Z.eqb_spec (Z.land (flags (adev w)) (AMD_IS_APU hd)) 0) as [Ha|Ha].
  - rewrite run_val_bind.
    assert (Ee : run_val amdgpu_uvd_suspend w = fst (ext_uvd_suspend P (hw w))).
    { unfold run_val, amdgpu_uvd_suspend.
      now destruct (ext_uvd_suspend P (hw w)). }
    destruct (nonzero (run_val amdgpu_uvd_suspend w)) eqn:En.
    + right. apply nonzero_true in En. cbn [run_val ret fst].
      rewrite <- Ee. now repeat split.
    + left. apply Hfini.
  - left. apply Hfini.
Qed.

(** X6. On a device without the APU flag whose re-acquisition
    ([amdgpu_uvd_resume]) answers a non-zero error, resume answers that
    error at once: the only event is that call, so hw_init is not run, no
    register is touched, and the device data is unchanged. *)
Theorem uvd_v6_0_resume_acquire_failure
  (P : platform) (hd : headers) (w : world P) (e : Z) (h : hw_state P) :
  Z.land (flags (adev w)) (AMD_IS_APU hd) = 0 ->
  ext_uvd_resume P (hw w) = (e, h) ->
  e <> 0 ->
  uvd_v6_0_resume hd w = (e, Build_world h (adev w), [EvUvdResume e]).
Proof.
  intros Hapu Hres He.
  unfold uvd_v6_0_resume, bind, get_adev, amdgpu_uvd_resume.
  rewrite Hapu. cbn [Z.eqb]. rewrite Hres. unfold nonzero.
  destruct (Z.eqb_spec e 0) as [->|_]; [now destruct He|reflexivity].
Qed.

Lemma uvd_v6_0_resume_acquire_failure_witness :
  uvd_v6_0_resume sample_headers
    (mock_world (mock_with_resume (-12) mock_init) sample_adev) =
  (-12, mock_world (mock_with_resume (-12) mock_init) sample_adev,
   [EvUvdResume (-12)]).
Proof.
  apply (uvd_v6_0_resume_acquire_failure mock_platform sample_headers
           (mock_world (mock_with_resume (-12) mock_init) sample_adev)
           (-12) (mock_with_resume (-12) mock_init)).
  - reflexivity.
  - reflexivity.
  - discriminate.
Defined.

(** ** The ring test *)

Section RingTestFacts.

Context {P : platform} (hd : headers).

(** The poll loop of the ring test either misses [n] times, or reads the
    sentinel after fewer than [n] misses and stops there; [i] counts the
    misses. *)
Lemma test_ring_poll_spec (n : nat) (i tmp : Z) (w : world P) :
  exists misses : list Z,
    Forall (fun v => v <> 0xDEADBEEF) misses /\
    fst (run_val (test_ring_poll n i tmp) w)
      = i + Z.of_nat (List.length misses) /\
    ((List.length misses = n /\
      run_trace (test_ring_poll n i tmp) w = flat_map test_ring_miss misses)
     \/
     ((List.length misses < n)%nat /\
      run_trace (test_ring_poll n i tmp) w =
        flat_map test_ring_miss misses
        ++ [EvRReg mmUVD_CONTEXT_ID 0xDEADBEEF])).
Proof.
  revert i tmp w. induction n as [|n IH]; intros i tmp w.
  - exists []. split; [constructor|]. split; [cbn; lia|]. left. now split.
  - cbn [test_ring_poll].
    rewrite run_trace_bind, run_val_bind, RREG32_trace.
    set (v := run_val (RREG32 mmUVD_CONTEXT_ID) w).
    set (w1 := run_world (RREG32 mmUVD_CONTEXT_ID) w).
    destruct (Z.eqb_spec v 0xDEADBEEF) as [Hhit|Hmiss].
    + exists []. split; [constructor|]. split; [cbn; lia|]. right.
      split; [cbn; lia|]. rewrite Hhit. reflexivity.
    + rewrite run_trace_bind, run_val_bind.
      set (w2 := run_world (DRM_UDELAY 1) w1).
      destruct (IH (i + 1) v w2) as (misses & Hne & Hi & Hcase).
      exists (v :: misses). split; [now constructor|].
      split; [rewrite Hi; cbn [List.length]; lia|].
      destruct Hcase as [(Hlen & Ht)|(Hlen & Ht)].
      * left. split; [cbn; lia|]. rewrite Ht. reflexivity.
      * right. split; [cbn; lia|]. rewrite Ht. reflexivity.
Qed.

End RingTestFacts.

(** X7. When the lock of its three ring slots fails, the ring test answers
    the lock's error after having written the sentinel 0xCAFEDEAD to the
    context register directly; it writes no ring word, commits nothing and
    never polls. *)
Theorem uvd_v6_0_ring_test_ring_lock_failure
  (P : platform) (hd : headers) (w : world P) :
  let w1 := run_world (WREG32 mmUVD_CONTEXT_ID 0xCAFEDEAD) w in
  run_val (amdgpu_ring_lock 3) w1 <> 0 ->
  run_val (uvd_v6_0_ring_test_ring hd) w = run_val (amdgpu_ring_lock 3) w1 /\
  run_trace (uvd_v6_0_ring_test_ring hd) w =
    [EvWReg mmUVD_CONTEXT_ID 0xCAFEDEAD;
     EvRingLock 3 (run_val (amdgpu_ring_lock 3) w1);
     EvLog KERN_ERR "amdgpu: cp failed to lock ring %d (%d)."].
Proof.
  intros w1 Hl. apply nonzero_true in Hl.
  assert (Elock : run_trace (amdgpu_ring_lock 3) w1
                  = [EvRingLock 3 (run_val (amdgpu_ring_lock 3) w1)]).
  { unfold run_val, run_trace, amdgpu_ring_lock.
    now destruct (ext_ring_lock P 3 (hw w1)). }
  unfold uvd_v6_0_ring_test_ring.
  rewrite !run_val_bind, !run_trace_bind.
  cbn [run_val run_world run_trace get_adev fst snd app].
  fold w1. rewrite Hl, Elock.
  rewrite run_val_bind, run_trace_bind. split; reflexivity.
Qed.

Lemma uvd_v6_0_ring_test_ring_lock_failure_witness :
  run_val (uvd_v6_0_ring_test_ring sample_headers)
          (mock_world (mock_with_locks [-12] mock_init) sample_adev) = -12.
Proof.
  refine (proj1 (uvd_v6_0_ring_test_ring_lock_failure mock_platform
                   sample_headers
                   (mock_world (mock_with_locks [-12] mock_init) sample_adev)
                   _)).
  vm_compute. discriminate.
Defined.

(** X8. When the lock succeeds, the ring test writes the sentinel
    0xCAFEDEAD to the context register, puts exactly two words on the ring
    (the context-register tag and 0xDEADBEEF), commits, and then polls the
    context register, each miss followed by a 1 us delay.  It answers 0 at
    the first read of 0xDEADBEEF, provided fewer than [usec_timeout] misses
    came before, and [-EINVAL] after exactly [usec_timeout] misses; with a
    timeout of 0 it fails without reading the register at all. *)
Theorem uvd_v6_0_ring_test_ring_poll
  (P : platform) (hd : headers) (w : world P) :
  let w1 := run_world (WREG32 mmUVD_CONTEXT_ID 0xCAFEDEAD) w in
  let bound := Z.to_nat (u32 (usec_timeout (adev w))) in
  let r := run_val (uvd_v6_0_ring_test_ring hd) w in
  let head :=
    [EvWReg mmUVD_CONTEXT_ID 0xCAFEDEAD;
     EvRingLock 3 0;
     EvRingWrite (u32 (PACKET0 hd mmUVD_CONTEXT_ID 0));
     EvRingWrite 0xDEADBEEF;
     EvRingUnlockCommit] in
  run_val (amdgpu_ring_lock 3) w1 = 0 ->
  exists misses : list Z,
    Forall (fun v => v <> 0xDEADBEEF) misses /\
    ((r = 0 /\ (List.length misses < bound)%nat /\
      run_trace (uvd_v6_0_ring_test_ring hd) w =
        head ++ flat_map test_ring_miss misses
        ++ [EvRReg mmUVD_CONTEXT_ID 0xDEADBEEF;
            EvLog KERN_INFO "ring test on %d succeeded in %d usecs"])
     \/
     (r = - EINVAL hd /\ List.length misses = bound /\
      run_trace (uvd_v6_0_ring_test_ring hd) w =
        head ++ flat_map test_ring_miss misses
        ++ [EvLog KERN_ERR "amdgpu: ring %d test failed (0x%08X)"])).
Proof.
  intros w1 bound r head Hl.
  assert (Elock : run_trace (amdgpu_ring_lock 3) w1 = [EvRingLock 3 0]).
  { revert Hl. unfold run_val, run_trace, amdgpu_ring_lock.
    destruct (ext_ring_lock P 3 (hw w1)) as [e h]. cbn. now intros ->. }
  assert (Hb : Z.of_nat bound = u32 (usec_timeout (adev w))).
  { unfold bound. pose proof (u32_range (usec_timeout (adev w))). lia. }
  unfold r, uvd_v6_0_ring_test_ring.
  rewrite !run_val_bind, !run_trace_bind.
  cbn [run_val run_world run_trace get_adev fst snd app].
  fold w1. rewrite Hl, Elock. cbn [nonzero Z.eqb negb].
  rewrite !run_val_bind, !run_trace_bind.
  cbn [run_trace run_world amdgpu_ring_write amdgpu_ring_unlock_commit
       fst snd app].
  fold bound.
  match goal with
  | |- context [run_val (test_ring_poll bound 0 0) ?w'] =>
      destruct (test_ring_poll_spec bound 0 0 w') as (misses & Hne & Hi & Hc);
      set (wp := w') in *
  end.
  exists misses. split; [exact Hne|].
  destruct (run_val (test_ring_poll bound 0 0) wp) as [i tmp] eqn:Ep.
  cbn [fst] in Hi.
  destruct Hc as [(Hlen & Ht)|(Hlen & Ht)].
  - right.
    replace (i <? u32 (usec_timeout (adev w))) with false
      by (symmetry; apply Z.ltb_ge; lia).
    split; [reflexivity|]. split; [exact Hlen|].
    rewrite Ht. cbn [run_trace bind DRM_ERROR ret snd app].
    change (u32 3735928559) with 3735928559.
    unfold head. reflexivity.
  - left.
    replace (i <? u32 (usec_timeout (adev w))) with true
      by (symmetry; apply Z.ltb_lt; lia).
    split; [reflexivity|]. split; [exact Hlen|].
    rewrite Ht. cbn [run_trace bind DRM_INFO ret snd app].
    change (u32 3735928559) with 3735928559.
    unfold head. cbn [app]. rewrite <- !app_assoc. reflexivity.
Qed.

Lemma uvd_v6_0_ring_test_ring_poll_witness :
  run_val (uvd_v6_0_ring_test_ring sample_headers)
          (mock_world mock_healthy sample_adev) = 0.
Proof.
  destruct (uvd_v6_0_ring_test_ring_poll mock_platform sample_headers
              (mock_world mock_healthy sample_adev))
    as (misses & _ & [(Hr & _)|(Hr & _)]).
  - vm_compute. reflexivity.
  - exact Hr.
  - exfalso. vm_compute in Hr. discriminate.
Defined.

(** ** Address encodings on the ring *)

Lemma split_32_32 (n : Z) :
  lower_32_bits n + 2 ^ 32 * upper_32_bits n = n mod 2 ^ 64.
Proof.
  unfold lower_32_bits, upper_32_bits, u32.
  rewrite !Z.shiftr_div_pow2, Z.div_div by lia.
  change (2 ^ 16 * 2 ^ 16) with (2 ^ 32).
  change (2 ^ 64) with (2 ^ 32 * 2 ^ 32).
  rewrite Z.rem_mul_r by lia. reflexivity.
Qed.

(** X9. emit_ib writes exactly six ring words: the low-address tag and the
    low 32 bits of the indirect buffer's address, the high-address tag and
    its high 32 bits, the size tag and the length converted to 32 bits.  The
    two address words give the address back modulo 2^64, so a 64-bit address
    survives the encoding. *)
Theorem uvd_v6_0_ring_emit_ib_words
  (P : platform) (hd : headers) (ib_gpu_addr length_dw : Z) (w : world P) :
  exists lo hi : Z,
    run_trace (uvd_v6_0_ring_emit_ib hd ib_gpu_addr length_dw) w =
      map EvRingWrite
        [u32 (PACKET0 hd mmUVD_LMI_RBC_IB_64BIT_BAR_LOW 0); lo;
         u32 (PACKET0 hd mmUVD_LMI_RBC_IB_64BIT_BAR_HIGH 0); hi;
         u32 (PACKET0 hd mmUVD_RBC_IB_SIZE 0); length_dw mod 2 ^ 32] /\
    0 <= lo < 2 ^ 32 /\ 0 <= hi < 2 ^ 32 /\
    lo + 2 ^ 32 * hi = ib_gpu_addr mod 2 ^ 64.
Proof.
  exists (lower_32_bits ib_gpu_addr), (upper_32_bits ib_gpu_addr).
  split; [|split; [apply u32_range|split; [apply u32_range|apply split_32_32]]].
  unfold run_trace, uvd_v6_0_ring_emit_ib, bind, amdgpu_ring_write.
  cbn [fst snd map app].
  unfold lower_32_bits, upper_32_bits. now rewrite !u32_idem.
Qed.

(** X10. The two address words of a semaphore packet carry bits 3 to 42 of
    the address and nothing else: eight times (low + 2^20 high) is the
    address reduced modulo 2^43 with its three low bits cleared.  So an
    8-byte aligned address below 2^43 is encoded without loss, and two
    addresses that agree on bits 3 to 42 give the same packet. *)
Theorem uvd_v6_0_ring_emit_semaphore_address
  (P : platform) (hd : headers) (addr : Z) (emit_wait : bool) (w : world P) :
  exists lo hi cmd : Z,
    ring_words (run_trace (uvd_v6_0_ring_emit_semaphore hd addr emit_wait) w) =
      [u32 (PACKET0 hd mmUVD_SEMA_ADDR_LOW 0); lo;
       u32 (PACKET0 hd mmUVD_SEMA_ADDR_HIGH 0); hi;
       u32 (PACKET0 hd mmUVD_SEMA_CMD 0); cmd] /\
    8 * (lo + 2 ^ 20 * hi) = addr mod 2 ^ 43 - addr mod 8 /\
    (cmd = 0x81 <-> emit_wait = true) /\
    (cmd = 0x80 <-> emit_wait = false) /\
    forall addr' : Z,
      addr' mod 2 ^ 43 - addr' mod 8 = addr mod 2 ^ 43 - addr mod 8 ->
      run_trace (uvd_v6_0_ring_emit_semaphore hd addr' emit_wait) w =
      run_trace (uvd_v6_0_ring_emit_semaphore hd addr emit_wait) w.
Proof.
  assert (Hwin : forall a : Z,
            8 * (a / 2 ^ 3 mod 2 ^ 20 + 2 ^ 20 * (a / 2 ^ 23 mod 2 ^ 20))
            = a mod 2 ^ 43 - a mod 8).
  { intro a.
    replace (a / 2 ^ 23) with (a / 2 ^ 3 / 2 ^ 20)
      by (rewrite Z.div_div by lia; reflexivity).
    rewrite <- (Z.rem_mul_r (a / 2 ^ 3) (2 ^ 20) (2 ^ 20)) by lia.
    change (2 ^ 20 * 2 ^ 20) with (2 ^ 40).
    change (2 ^ 43) with (2 ^ 3 * 2 ^ 40).
    rewrite (Z.rem_mul_r a (2 ^ 3) (2 ^ 40)) by lia.
    change (2 ^ 3) with 8. lia. }
  assert (Hword : forall a s : Z, 0 <= s ->
            u32 (Z.land (Z.shiftr a s) 0xFFFFF) = a / 2 ^ s mod 2 ^ 20).
  { intros a s Hs. rewrite (u32_land_low _ 0xFFFFF 20) by (try lia; reflexivity).
    now rewrite Z.shiftr_div_pow2. }
  assert (Htr : forall a : Z,
    run_trace (uvd_v6_0_ring_emit_semaphore hd a emit_wait) w =
      map EvRingWrite
        [u32 (PACKET0 hd mmUVD_SEMA_ADDR_LOW 0); a / 2 ^ 3 mod 2 ^ 20;
         u32 (PACKET0 hd mmUVD_SEMA_ADDR_HIGH 0); a / 2 ^ 23 mod 2 ^ 20;
         u32 (PACKET0 hd mmUVD_SEMA_CMD 0);
         if emit_wait then 0x81 else 0x80]).
  { intro a.
    unfold run_trace, uvd_v6_0_ring_emit_semaphore, bind, amdgpu_ring_write,
      ret.
    cbn [fst snd app map]. rewrite !Hword by lia.
    destruct emit_wait; reflexivity. }
  exists (addr / 2 ^ 3 mod 2 ^ 20), (addr / 2 ^ 23 mod 2 ^ 20),
    (if emit_wait then 0x81 else 0x80).
  split; [rewrite Htr; reflexivity|].
  split; [apply Hwin|].
  split; [destruct emit_wait; split; congruence|].
  split; [destruct emit_wait; split; congruence|].
  intros addr' E. rewrite !Htr.
  pose proof (Hwin addr) as H1. pose proof (Hwin addr') as H2.
  assert (Hsum : addr' / 2 ^ 3 mod 2 ^ 20 + 2 ^ 20 * (addr' / 2 ^ 23 mod 2 ^ 20)
               = addr / 2 ^ 3 mod 2 ^ 20 + 2 ^ 20 * (addr / 2 ^ 23 mod 2 ^ 20))
    by lia.
  pose proof (Z.mod_pos_bound (addr / 2 ^ 3) (2 ^ 20) eq_refl).
  pose proof (Z.mod_pos_bound (addr' / 2 ^ 3) (2 ^ 20) eq_refl).
  pose proof (Z.mod_pos_bound (addr / 2 ^ 23) (2 ^ 20) eq_refl).
  pose proof (Z.mod_pos_bound (addr' / 2 ^ 23) (2 ^ 20) eq_refl).
  assert (addr' / 2 ^ 23 mod 2 ^ 20 = addr / 2 ^ 23 mod 2 ^ 20) by lia.
  assert (addr' / 2 ^ 3 mod 2 ^ 20 = addr / 2 ^ 3 mod 2 ^ 20) by lia.
  congruence.
Qed.

(** ** start: what success and failure leave behind *)




(** X11. A start that answers 0 ends with the ring set-up: among its last
    events it zeroes the hardware read pointer, reads it back, and writes
    the value read to the hardware write pointer; its very last step is the
    read-modify-write that clears the no-fetch bits of the ring control.  Of
    the device data it changes the software write pointer alone, to the
    value read back. *)
Theorem uvd_v6_0_start_success
  (P : platform) (hd : headers) (w : world P) :
  run_val (uvd_v6_0_start hd) w = 0 ->
  exists (pre : list event) (b c : Z),
    0 <= b < 2 ^ 32 /\ 0 <= c < 2 ^ 32 /\
    run_trace (uvd_v6_0_start hd) w =
      pre ++ [EvWReg mmUVD_RBC_RB_RPTR 0;
              EvRReg mmUVD_RBC_RB_RPTR b;
              EvWReg mmUVD_RBC_RB_WPTR b;
              EvRReg mmUVD_RBC_RB_CNTL c;
              EvWReg mmUVD_RBC_RB_CNTL
                     (Z.ldiff c (UVD_RBC_RB_CNTL__RB_NO_FETCH_MASK hd))] /\
    adev (run_world (uvd_v6_0_start hd) w) =
      adev_map_ring (ring_set_wptr b) (adev w).
Proof.
  intro Hr.
  destruct (start_decompose hd w) as [Hv Ht].
  set (w0 := run_world (start_reset_sequence hd) w) in *.
  set (wb := run_world (boot_poll hd 10 0) w0) in *.
  assert (Hb : adev wb = adev w).
  { unfold wb, w0.
    now rewrite (keeps_boot_poll _ _ _), (keeps_start_reset_sequence _). }
  destruct (nonzero (run_val (boot_poll hd 10 0) w0)) eqn:En.
  - apply nonzero_true in En. congruence.
  - destruct (start_ring_setup_run hd wb) as (b0 & b1 & b2 & b3 & h & E).
    assert (Hw : run_world (uvd_v6_0_start hd) w
                 = run_world (start_ring_setup hd) wb).
    { unfold uvd_v6_0_start. rewrite !run_world_bind. fold w0 wb.
      now rewrite En. }
    eexists. exists (u32 b2), (u32 b3).
    split; [apply u32_range|]. split; [apply u32_range|]. split.
    + rewrite Ht. unfold run_trace at 3. rewrite E. cbn [snd].
      unfold start_ring_events.
      rewrite (rmw_clear b3 (UVD_RBC_RB_CNTL__RB_NO_FETCH_MASK hd)).
      rewrite !app_assoc.
      match goal with
      | |- ?A ++ [?e1; ?e2; ?e3; ?e4; ?e5; ?e6; ?e7; ?e8; ?e9; ?x1; ?x2; ?x3;
                  ?x4; ?x5] = _ =>
          change (A ++ [e1; e2; e3; e4; e5; e6; e7; e8; e9; x1; x2; x3; x4; x5])
            with (A ++ ([e1; e2; e3; e4; e5; e6; e7; e8; e9]
                        ++ [x1; x2; x3; x4; x5]))
      end.
      rewrite app_assoc. reflexivity.
    + rewrite Hw. unfold run_world. rewrite E. cbn [fst snd adev].
      now rewrite Hb.
Qed.

Lemma uvd_v6_0_start_success_witness :
  exists (pre : list event) (b c : Z),
    0 <= b < 2 ^ 32 /\ 0 <= c < 2 ^ 32 /\
    run_trace (uvd_v6_0_start sample_headers)
              (mock_world mock_healthy sample_adev) =
      pre ++ [EvWReg mmUVD_RBC_RB_RPTR 0;
              EvRReg mmUVD_RBC_RB_RPTR b;
              EvWReg mmUVD_RBC_RB_WPTR b;
              EvRReg mmUVD_RBC_RB_CNTL c;
              EvWReg mmUVD_RBC_RB_CNTL
                (Z.ldiff c
                   (UVD_RBC_RB_CNTL__RB_NO_FETCH_MASK sample_headers))] /\
    adev (run_world (uvd_v6_0_start sample_headers)
                    (mock_world mock_healthy sample_adev)) =
      adev_map_ring (ring_set_wptr b) sample_adev.
Proof.
  apply (uvd_v6_0_start_success mock_platform sample_headers
           (mock_world mock_healthy sample_adev)).
  vm_compute. reflexivity.
Defined.



(** ** Hardware whose registers are storage *)

Section StorageStartFacts.

Context {P : platform} (peek : hw_state P -> reg -> Z).
Hypothesis storage : stores_registers P peek.
Context (hd : headers).

Ltac bits_cases :=
  repeat match goal with
  | |- context [Z.testbit ?x ?i] => destruct (Z.testbit x i)
  | |- context [?i <? 32] => destruct (i <? 32)
  end;
  reflexivity.

Ltac peek_step :=
  first
    [ rewrite run_world_bind
    | rewrite (peek_WREG32_P peek storage)
    | rewrite (peek_WREG32 peek storage)
    | rewrite (peek_RREG32 peek storage)
    | rewrite (peek_mdelay_run peek storage)
    | rewrite (val_RREG32 peek storage)
    | progress cbn [run_world run_val get_adev get_ring set_ring_wptr
                    DRM_ERROR ret fst snd hw map_ring reg_beq] ].

Lemma peek_status_poll (j : nat) (st : Z) (w : world P) (r : reg) :
  peek (hw (run_world (status_poll j st) w)) r = peek (hw w) r.
Proof.
  revert st w. induction j as [|j IH]; intros st w; cbn [status_poll].
  - reflexivity.
  - rewrite run_world_bind.
    destruct (nonzero _).
    + cbn [run_world ret fst snd]. apply (peek_RREG32 peek storage).
    + rewrite run_world_bind, IH, (peek_mdelay_run peek storage).
      apply (peek_RREG32 peek storage).
Qed.

Lemma val_status_poll (j : nat) (st : Z) (w : world P) :
  run_val (status_poll j st) w =
    match j with O => st | S _ => u32 (peek (hw w) mmUVD_STATUS) end.
Proof.
  revert st w. induction j as [|j IH]; intros st w; cbn [status_poll].
  - reflexivity.
  - rewrite run_val_bind, (val_RREG32 peek storage).
    destruct (nonzero _); [reflexivity|].
    rewrite run_val_bind, IH.
    destruct j; [reflexivity|].
    now rewrite (peek_mdelay_run peek storage), (peek_RREG32 peek storage).
Qed.

Lemma peek_vcpu_reset_retry (w : world P) (r : reg) :
  peek (hw (run_world (vcpu_reset_retry hd) w)) r =
    if reg_beq r mmUVD_SOFT_RESET
    then Z.ldiff (u32 (peek (hw w) mmUVD_SOFT_RESET))
                 (UVD_SOFT_RESET__VCPU_SOFT_RESET_MASK hd)
    else peek (hw w) r.
Proof.
  unfold vcpu_reset_retry. repeat peek_step.
  destruct (reg_beq r mmUVD_SOFT_RESET); [|reflexivity].
  unfold rmw. rewrite Z.lnot_involutive.
  bitwise n.
  destruct (n <? 32), (Z.testbit (peek (hw w) mmUVD_SOFT_RESET) n),
    (Z.testbit (UVD_SOFT_RESET__VCPU_SOFT_RESET_MASK hd) n); reflexivity.
Qed.

Lemma val_boot_poll (i : nat) (r0 : Z) (w : world P) :
  run_val (boot_poll hd i r0) w =
    match i with
    | O => r0
    | S _ => if status_booted (peek (hw w) mmUVD_STATUS) then 0 else -1
    end.
Proof.
  revert r0 w. induction i as [|i IH]; intros r0 w; cbn [boot_poll].
  - reflexivity.
  - rewrite run_val_bind, val_status_poll. cbv iota. unfold status_booted.
    destruct (nonzero (Z.land (u32 (peek (hw w) mmUVD_STATUS)) 2)) eqn:Eb;
      [reflexivity|].
    rewrite run_val_bind, IH. destruct i; [reflexivity|].
    rewrite peek_vcpu_reset_retry, !peek_status_poll. cbn [reg_beq].
    unfold status_booted. now rewrite Eb.
Qed.

Lemma peek_boot_poll (i : nat) (r0 : Z) (w : world P) (r : reg) :
  peek (hw (run_world (boot_poll hd i r0) w)) r =
    match i with
    | O => peek (hw w) r
    | S _ =>
        if status_booted (peek (hw w) mmUVD_STATUS) then peek (hw w) r
        else if reg_beq r mmUVD_SOFT_RESET
             then Z.ldiff (u32 (peek (hw w) mmUVD_SOFT_RESET))
                          (UVD_SOFT_RESET__VCPU_SOFT_RESET_MASK hd)
             else peek (hw w) r
    end.
Proof.
  revert r0 w. induction i as [|i IH]; intros r0 w; cbn [boot_poll].
  - reflexivity.
  - rewrite run_world_bind, val_status_poll. cbv iota. unfold status_booted.
    destruct (nonzero (Z.land (u32 (peek (hw w) mmUVD_STATUS)) 2)) eqn:Eb.
    + cbn [run_world ret fst snd]. apply peek_status_poll.
    + rewrite run_world_bind, IH. destruct i.
      * now rewrite peek_vcpu_reset_retry, !peek_status_poll.
      * rewrite !peek_vcpu_reset_retry, !peek_status_poll. cbn [reg_beq].
        unfold status_booted. rewrite Eb.
        destruct (reg_beq r mmUVD_SOFT_RESET); [|reflexivity].
        bitwise n.
        destruct (n <? 32), (Z.testbit (peek (hw w) mmUVD_SOFT_RESET) n),
          (Z.testbit (UVD_SOFT_RESET__VCPU_SOFT_RESET_MASK hd) n);
          reflexivity.
Qed.

Lemma peek_start_reset_sequence (w : world P) (r : reg) :
  peek (hw (run_world (start_reset_sequence hd) w)) r =
    reset_regs hd (adev w) (peek (hw w)) r.
Proof.
  unfold start_reset_sequence, uvd_v6_0_mc_resume. cbv zeta.
  repeat peek_step.
  unfold reset_regs, mc_regions, lower_32_bits, upper_32_bits, rmw.
  cbn [nth fst snd].
  change (Z.shiftl 1 2) with 4. change (Z.shiftl 1 1) with 2.
  change (Z.shiftl 1 8) with 256.
  rewrite ?(keeps_WREG32_P mmUVD_POWER_STATUS 0 (Z.lnot 4) w).
  destruct r; cbn [reg_beq]; rewrite ?u32_idem, ?Z.land_0_l;
    try reflexivity;
    try (destruct (BIG_ENDIAN hd); reflexivity);
    bitwise n; bits_cases.
Qed.

Lemma u32_rb_cntl_word (d : amdgpu_device) :
  u32 (rb_cntl_word hd d) = rb_cntl_word hd d.
Proof. unfold rb_cntl_word, REG_SET_FIELD at 1. apply u32_idem. Qed.

Lemma peek_start_ring_setup (w : world P) (r : reg) :
  peek (hw (run_world (start_ring_setup hd) w)) r =
    ring_regs hd (adev w) (peek (hw w)) r.
Proof.
  unfold start_ring_setup. cbv zeta.
  repeat peek_step.
  fold (rb_cntl_word hd (adev w)).
  unfold ring_regs, lower_32_bits, upper_32_bits.
  change (Z.shiftl 3 1) with (u32 6). change (Z.shiftl 2 1) with 4.
  rewrite ?u32_idem, ?rmw_set, ?rmw_clear, ?u32_rb_cntl_word.
  destruct r; cbn [reg_beq]; rewrite ?u32_idem, ?u32_rb_cntl_word;
    reflexivity.
Qed.

Lemma adev_start_ring_setup (w : world P) :
  adev (run_world (start_ring_setup hd) w) =
    adev_map_ring (ring_set_wptr 0) (adev w).
Proof.
  unfold start_ring_setup. cbv zeta.
  rewrite !run_world_bind. cbv beta.
  repeat first
    [ rewrite (keeps_ret _ _)
    | rewrite (keeps_WREG32_P _ _ _ _)
    | rewrite (keeps_WREG32 _ _ _)
    | rewrite (keeps_RREG32 _ _)
    | progress cbn [run_world run_val get_ring set_ring_wptr fst snd
                    map_ring adev] ].
  rewrite (val_RREG32 peek storage).
  repeat peek_step.
  reflexivity.
Qed.

Lemma val_start (w : world P) :
  run_val (uvd_v6_0_start hd) w =
    if status_booted (peek (hw w) mmUVD_STATUS) then 0 else -1.
Proof.
  unfold uvd_v6_0_start. rewrite !run_val_bind, val_boot_poll. cbv iota.
  rewrite peek_start_reset_sequence.
  change (reset_regs hd (adev w) (peek (hw w)) mmUVD_STATUS)
    with (peek (hw w) mmUVD_STATUS).
  destruct (status_booted (peek (hw w) mmUVD_STATUS)).
  - cbn [nonzero Z.eqb negb].
    match goal with
    | |- run_val (start_ring_setup hd) ?w' = _ =>
        destruct (start_ring_setup_run hd w') as (b0 & b1 & b2 & b3 & h & E);
        unfold run_val; now rewrite E
    end.
  - cbn [nonzero Z.eqb negb]. rewrite run_val_bind. reflexivity.
Qed.

Lemma peek_start (w : world P) (r : reg) :
  peek (hw (run_world (uvd_v6_0_start hd) w)) r =
    if status_booted (peek (hw w) mmUVD_STATUS)
    then ring_regs hd (adev w) (reset_regs hd (adev w) (peek (hw w))) r
    else reset_regs hd (adev w) (peek (hw w)) r.
Proof.
  unfold uvd_v6_0_start. rewrite !run_world_bind, val_boot_poll. cbv iota.
  rewrite peek_start_reset_sequence.
  change (reset_regs hd (adev w) (peek (hw w)) mmUVD_STATUS)
    with (peek (hw w) mmUVD_STATUS).
  set (w0 := run_world (start_reset_sequence hd) w).
  assert (Hb : forall r', peek (hw (run_world (boot_poll hd 10 0) w0)) r'
                          = reset_regs hd (adev w) (peek (hw w)) r').
  { intro r'. rewrite peek_boot_poll. cbv iota. unfold w0.
    rewrite !peek_start_reset_sequence.
    change (reset_regs hd (adev w) (peek (hw w)) mmUVD_STATUS)
      with (peek (hw w) mmUVD_STATUS).
    destruct (status_booted (peek (hw w) mmUVD_STATUS)); [reflexivity|].
    destruct (reg_beq r' mmUVD_SOFT_RESET) eqn:Er; [|reflexivity].
    apply internal_reg_dec_bl in Er. subst r'. reflexivity. }
  assert (Ha : adev (run_world (boot_poll hd 10 0) w0) = adev w).
  { unfold w0.
    now rewrite (keeps_boot_poll _ _ _), (keeps_start_reset_sequence _). }
  destruct (status_booted (peek (hw w) mmUVD_STATUS)).
  - cbn [nonzero Z.eqb negb]. rewrite peek_start_ring_setup, Ha.
    unfold ring_regs. destruct r; rewrite ?Hb; reflexivity.
  - cbn [nonzero Z.eqb negb]. rewrite run_world_bind.
    cbn [run_world ret DRM_ERROR fst snd]. apply Hb.
Qed.

Lemma adev_start (w : world P) :
  adev (run_world (uvd_v6_0_start hd) w) =
    if status_booted (peek (hw w) mmUVD_STATUS)
    then adev_map_ring (ring_set_wptr 0) (adev w)
    else adev w.
Proof.
  pose proof (val_start w) as Hv.
  destruct (status_booted (peek (hw w) mmUVD_STATUS)).
  - unfold uvd_v6_0_start in *.
    rewrite !run_val_bind in Hv. rewrite !run_world_bind.
    set (w0 := run_world (start_reset_sequence hd) w) in *.
    set (wb := run_world (boot_poll hd 10 0) w0) in *.
    assert (Ha : adev wb = adev w).
    { unfold wb, w0.
      now rewrite (keeps_boot_poll _ _ _), (keeps_start_reset_sequence _). }
    destruct (nonzero (run_val (boot_poll hd 10 0) w0)) eqn:En.
    + rewrite run_val_bind in Hv. cbn [run_val ret fst] in Hv.
      apply nonzero_true in En. congruence.
    + now rewrite adev_start_ring_setup, Ha.
  - apply start_failure_adev. rewrite Hv. discriminate.
Qed.

End StorageStartFacts.

(** X13. On hardware whose registers are storage, stop changes four
    registers and no other: the ring control holds the idle value, the VCPU
    soft-reset register holds the VCPU reset mask alone, the VCPU clock
    control holds 0, and UVD_LMI_CTRL2 keeps what it held except bit 8,
    which is clear.  On every platform stop leaves the device data alone. *)
Theorem uvd_v6_0_stop_registers
  (P : platform) (peek : hw_state P -> reg -> Z) (hd : headers)
  (w : world P) :
  stores_registers P peek ->
  (forall r : reg,
     peek (hw (run_world (uvd_v6_0_stop hd) w)) r =
       match r with
       | mmUVD_RBC_RB_CNTL => 0x11010101
       | mmUVD_LMI_CTRL2 => Z.ldiff (u32 (peek (hw w) mmUVD_LMI_CTRL2)) 0x100
       | mmUVD_SOFT_RESET => u32 (UVD_SOFT_RESET__VCPU_SOFT_RESET_MASK hd)
       | mmUVD_VCPU_CNTL => 0
       | _ => peek (hw w) r
       end) /\
  adev (run_world (uvd_v6_0_stop hd) w) = adev w.
Proof.
  intro Hst. split.
  - intro r. apply (stop_peek peek Hst).
  - apply stop_keeps_adev.
Qed.

Lemma uvd_v6_0_stop_registers_witness :
  hw (run_world (uvd_v6_0_stop sample_headers)
        (Build_world (P:=regfile_platform) booted_regfile sample_adev))
     mmUVD_LMI_CTRL2 = 0xFFFFFEFF.
Proof.
  exact (proj1 (uvd_v6_0_stop_registers regfile_platform (fun rf => rf)
                  sample_headers
                  (Build_world (P:=regfile_platform) booted_regfile
                               sample_adev)
                  regfile_stores_registers) mmUVD_LMI_CTRL2).
Defined.

(** ** Idle queries and ring pointers on storage hardware *)

Section StorageIdleFacts.

Context {P : platform} (peek : hw_state P -> reg -> Z).
Hypothesis storage : stores_registers P peek.
Context (hd : headers).

Lemma wait_for_idle_loop_storage (n : nat) (w : world P) :
  let idle :=
    Z.land (u32 (peek (hw w) mmSRBM_STATUS)) (SRBM_STATUS__UVD_BUSY_MASK hd)
    =? 0 in
  run_val (wait_for_idle_loop hd n) w =
    match n with O => - ETIMEDOUT hd
            | S _ => if idle then 0 else - ETIMEDOUT hd end /\
  List.length (run_trace (wait_for_idle_loop hd n) w) =
    match n with O => O | S _ => if idle then 1%nat else n end /\
  forall r, peek (hw (run_world (wait_for_idle_loop hd n) w)) r
            = peek (hw w) r.
Proof.
  revert w. induction n as [|n IH]; intros w idle.
  - repeat split.
  - cbn [wait_for_idle_loop].
    rewrite run_val_bind, run_trace_bind, run_world_bind, RREG32_trace.
    rewrite (val_RREG32 peek storage). fold idle.
    destruct idle eqn:Ei.
    + repeat split. intro r. cbn [run_world ret fst snd].
      apply (peek_RREG32 peek storage).
    + destruct (IH (run_world (RREG32 mmSRBM_STATUS) w)) as (Hv & Hl & Hp).
      rewrite (peek_RREG32 peek storage) in Hv, Hl.
      unfold idle in Ei. rewrite Ei in Hv, Hl.
      split; [rewrite Hv; now destruct n|].
      split; [cbn [List.length app]; rewrite Hl; now destruct n|].
      intro r. rewrite Hp. apply (peek_RREG32 peek storage).
Qed.

End StorageIdleFacts.

(** X14. On hardware whose registers are storage, is_idle answers whether
    the busy bit of the engine status is clear, and wait_for_idle answers 0
    exactly when it is clear and the timeout is not zero: it reads the
    register once when idle and [usec_timeout] times when busy; with a
    timeout of zero it answers [-ETIMEDOUT] without reading, even when the
    engine is idle.  It changes no register. *)
Theorem uvd_v6_0_wait_for_idle_storage
  (P : platform) (peek : hw_state P -> reg -> Z) (hd : headers)
  (w : world P) :
  stores_registers P peek ->
  let idle :=
    Z.land (u32 (peek (hw w) mmSRBM_STATUS)) (SRBM_STATUS__UVD_BUSY_MASK hd)
    =? 0 in
  let bound := Z.to_nat (u32 (usec_timeout (adev w))) in
  run_val (uvd_v6_0_is_idle hd) w = idle /\
  run_val (uvd_v6_0_wait_for_idle hd) w =
    (if idle && negb (Nat.eqb bound 0) then 0 else - ETIMEDOUT hd) /\
  List.length (run_trace (uvd_v6_0_wait_for_idle hd) w) =
    (if idle then Nat.min 1 bound else bound) /\
  (forall r : reg,
     peek (hw (run_world (uvd_v6_0_wait_for_idle hd) w)) r = peek (hw w) r).
Proof.
  intros Hst idle bound. split.
  - unfold uvd_v6_0_is_idle. rewrite run_val_bind.
    now rewrite (val_RREG32 peek Hst).
  - unfold uvd_v6_0_wait_for_idle.
    rewrite run_val_bind, run_trace_bind, run_world_bind.
    cbn [run_val run_world run_trace get_adev fst snd app]. fold bound.
    destruct (wait_for_idle_loop_storage peek Hst hd bound w) as (Hv & Hl & Hp).
    fold idle in Hv, Hl.
    split; [rewrite Hv; destruct bound, idle; reflexivity|].
    split; [rewrite Hl; destruct bound as [|[|b]], idle; reflexivity|].
    exact Hp.
Qed.

Lemma uvd_v6_0_wait_for_idle_storage_witness :
  run_val (uvd_v6_0_wait_for_idle sample_headers)
    (Build_world (P:=regfile_platform) dead_regfile
       {| flags := 0; usec_timeout := 0; uvd := uvd sample_adev |})
  = -110.
Proof.
  exact (proj1 (proj2 (uvd_v6_0_wait_for_idle_storage regfile_platform
                  (fun rf => rf) sample_headers
                  (Build_world (P:=regfile_platform) dead_regfile
                     {| flags := 0; usec_timeout := 0;
                        uvd := uvd sample_adev |})
                  regfile_stores_registers))).
Defined.

(** X15. On hardware whose registers are storage, the write pointer makes
    the round trip: after set_wptr, get_wptr answers the software write
    pointer converted to 32 bits, and set_wptr has changed no register but
    the hardware write pointer; get_rptr and get_wptr change none. *)
Theorem uvd_v6_0_ring_wptr_round_trip
  (P : platform) (peek : hw_state P -> reg -> Z) (w : world P) :
  stores_registers P peek ->
  run_val (uvd_v6_0_ring_set_wptr ;; uvd_v6_0_ring_get_wptr) w =
    u32 (wptr (ring (uvd (adev w)))) /\
  (forall r : reg,
     peek (hw (run_world uvd_v6_0_ring_set_wptr w)) r =
       if reg_beq r mmUVD_RBC_RB_WPTR then u32 (wptr (ring (uvd (adev w))))
       else peek (hw w) r) /\
  (forall r : reg,
     peek (hw (run_world uvd_v6_0_ring_get_wptr w)) r = peek (hw w) r /\
     peek (hw (run_world uvd_v6_0_ring_get_rptr w)) r = peek (hw w) r) /\
  run_val uvd_v6_0_ring_get_rptr w = u32 (peek (hw w) mmUVD_RBC_RB_RPTR).
Proof.
  intro Hst.
  assert (Hset : forall r : reg,
     peek (hw (run_world uvd_v6_0_ring_set_wptr w)) r =
       if reg_beq r mmUVD_RBC_RB_WPTR then u32 (wptr (ring (uvd (adev w))))
       else peek (hw w) r).
  { intro r. unfold uvd_v6_0_ring_set_wptr. rewrite run_world_bind.
    cbn [run_world run_val get_ring fst snd].
    apply (peek_WREG32 peek Hst). }
  split; [|split; [exact Hset|split]].
  - rewrite run_val_bind. unfold uvd_v6_0_ring_get_wptr.
    rewrite (val_RREG32 peek Hst), Hset. cbn [reg_beq]. apply u32_idem.
  - intro r. unfold uvd_v6_0_ring_get_wptr, uvd_v6_0_ring_get_rptr.
    now rewrite !(peek_RREG32 peek Hst).
  - apply (val_RREG32 peek Hst).
Qed.

Lemma uvd_v6_0_ring_wptr_round_trip_witness :
  run_val (uvd_v6_0_ring_set_wptr ;; uvd_v6_0_ring_get_wptr)
    (Build_world (P:=regfile_platform) booted_regfile
       (adev_map_ring (ring_set_wptr 0x1234) sample_adev))
  = 0x1234.
Proof.
  exact (proj1 (uvd_v6_0_ring_wptr_round_trip regfile_platform (fun rf => rf)
                  (Build_world (P:=regfile_platform) booted_regfile
                     (adev_map_ring (ring_set_wptr 0x1234) sample_adev))
                  regfile_stores_registers)).
Defined.

(** ** start on storage hardware *)

(** X16. On hardware whose registers are storage, what start answers is
    decided by bit 1 of UVD_STATUS on entry: 0 when it is set, -1 when it is
    clear, since nothing start writes before or during the poll changes that
    register. *)
Theorem uvd_v6_0_start_storage_result
  (P : platform) (peek : hw_state P -> reg -> Z) (hd : headers)
  (w : world P) :
  stores_registers P peek ->
  (Z.land (u32 (peek (hw w) mmUVD_STATUS)) 2 <> 0 ->
     run_val (uvd_v6_0_start hd) w = 0) /\
  (Z.land (u32 (peek (hw w) mmUVD_STATUS)) 2 = 0 ->
     run_val (uvd_v6_0_start hd) w = -1 /\
     adev (run_world (uvd_v6_0_start hd) w) = adev w /\
     forall r : reg,
       peek (hw (run_world (uvd_v6_0_start hd) w)) r =
         reset_regs hd (adev w) (peek (hw w)) r).
Proof.
  intro Hst.
  pose proof (val_start peek Hst hd w) as Hv.
  pose proof (adev_start peek Hst hd w) as Ha.
  pose proof (peek_start peek Hst hd w) as Hp.
  unfold status_booted in *. split; intro Hb.
  - apply nonzero_true in Hb. now rewrite Hb in Hv.
  - apply nonzero_false in Hb. rewrite Hb in Hv, Ha.
    split; [exact Hv|]. split; [exact Ha|].
    intro r. rewrite Hp, Hb. reflexivity.
Qed.

Lemma uvd_v6_0_start_storage_result_witness :
  run_val (uvd_v6_0_start sample_headers)
    (Build_world (P:=regfile_platform) booted_regfile sample_adev) = 0.
Proof.
  refine (proj1 (uvd_v6_0_start_storage_result regfile_platform
                   (fun rf => rf) sample_headers
                   (Build_world (P:=regfile_platform) booted_regfile
                                sample_adev)
                   regfile_stores_registers) _).
  vm_compute. discriminate.
Defined.

(** ** The ready state, and restarting *)

Lemma land_lor_same (a m : Z) : Z.land (Z.lor a m) m = m.
Proof.
  apply Z.bits_inj'; intros n _. rewrite Z.land_spec, Z.lor_spec.
  destruct (Z.testbit a n), (Z.testbit m n); reflexivity.
Qed.

Lemma ldiff_u32_ldiff (a m : Z) :
  Z.ldiff (u32 (Z.ldiff (u32 a) m)) m = Z.ldiff (u32 a) m.
Proof.
  bitwise n.
  destruct (n <? 32), (Z.testbit a n), (Z.testbit m n); reflexivity.
Qed.

Lemma ldiff_u32_lor (a m : Z) :
  Z.ldiff (u32 (u32 (Z.lor (u32 a) m))) m = Z.ldiff (u32 a) m.
Proof.
  bitwise n.
  destruct (n <? 32), (Z.testbit a n), (Z.testbit m n); reflexivity.
Qed.

(** The registers start overwrites, or reads only through a mask, make no
    difference to the state it leaves. *)
Lemma ready_regs_agree (hd : headers) (d : amdgpu_device)
  (old1 old2 : reg -> Z) :
  (forall r : reg,
     match r with
     | mmUVD_RBC_RB_CNTL | mmUVD_SOFT_RESET | mmUVD_VCPU_CNTL
     | mmUVD_LMI_CTRL2 | mmSRBM_SOFT_RESET => True
     | _ => old1 r = old2 r
     end) ->
  Z.ldiff (u32 (old1 mmUVD_LMI_CTRL2)) 0x100 =
  Z.ldiff (u32 (old2 mmUVD_LMI_CTRL2)) 0x100 ->
  Z.ldiff (u32 (old1 mmSRBM_SOFT_RESET))
          (SRBM_SOFT_RESET__SOFT_RESET_UVD_MASK hd) =
  Z.ldiff (u32 (old2 mmSRBM_SOFT_RESET))
          (SRBM_SOFT_RESET__SOFT_RESET_UVD_MASK hd) ->
  forall r : reg,
    ring_regs hd d (reset_regs hd d old1) r =
    ring_regs hd d (reset_regs hd d old2) r.
Proof.
  intros H H1 H2 r. pose proof (H r) as Hr.
  destruct r; unfold ring_regs, reset_regs; cbv beta iota;
    rewrite ?Hr, ?H1, ?H2; reflexivity.
Qed.

Section StorageRestartFacts.

Context {P : platform} (peek : hw_state P -> reg -> Z).
Hypothesis storage : stores_registers P peek.
Context (hd : headers).

(** start after a prefix that keeps the device data, leaves UVD_STATUS
    alone and differs from the entry state only on registers start
    rewrites. *)
Lemma start_after_prefix {A : Type} (c : M P A) (w : world P) :
  adev (run_world c w) = adev w ->
  (forall r : reg,
     match r with
     | mmUVD_RBC_RB_CNTL | mmUVD_SOFT_RESET | mmUVD_VCPU_CNTL
     | mmUVD_LMI_CTRL2 | mmSRBM_SOFT_RESET => True
     | _ => peek (hw (run_world c w)) r = peek (hw w) r
     end) ->
  Z.ldiff (u32 (peek (hw (run_world c w)) mmUVD_LMI_CTRL2)) 0x100 =
  Z.ldiff (u32 (peek (hw w) mmUVD_LMI_CTRL2)) 0x100 ->
  Z.ldiff (u32 (peek (hw (run_world c w)) mmSRBM_SOFT_RESET))
          (SRBM_SOFT_RESET__SOFT_RESET_UVD_MASK hd) =
  Z.ldiff (u32 (peek (hw w) mmSRBM_SOFT_RESET))
          (SRBM_SOFT_RESET__SOFT_RESET_UVD_MASK hd) ->
  status_booted (peek (hw w) mmUVD_STATUS) = true ->
  run_val (c ;; uvd_v6_0_start hd) w = run_val (uvd_v6_0_start hd) w /\
  adev (run_world (c ;; uvd_v6_0_start hd) w) =
    adev (run_world (uvd_v6_0_start hd) w) /\
  forall r : reg,
    peek (hw (run_world (c ;; uvd_v6_0_start hd) w)) r =
    peek (hw (run_world (uvd_v6_0_start hd) w)) r.
Proof.
  intros Ha Hr H1 H2 Hb.
  assert (Hb' : status_booted (peek (hw (run_world c w)) mmUVD_STATUS) = true)
    by (now rewrite (Hr mmUVD_STATUS)).
  rewrite run_val_bind, run_world_bind.
  rewrite !(val_start peek storage), !(adev_start peek storage), Hb, Hb', Ha.
  repeat split. intro r.
  rewrite !(peek_start peek storage), Hb, Hb', Ha.
  now apply ready_regs_agree.
Qed.

Lemma stop_then_start (w : world P) :
  status_booted (peek (hw w) mmUVD_STATUS) = true ->
  run_val (uvd_v6_0_stop hd ;; uvd_v6_0_start hd) w =
    run_val (uvd_v6_0_start hd) w /\
  adev (run_world (uvd_v6_0_stop hd ;; uvd_v6_0_start hd) w) =
    adev (run_world (uvd_v6_0_start hd) w) /\
  forall r : reg,
    peek (hw (run_world (uvd_v6_0_stop hd ;; uvd_v6_0_start hd) w)) r =
    peek (hw (run_world (uvd_v6_0_start hd) w)) r.
Proof.
  intro Hb. apply start_after_prefix; trivial.
  - apply stop_keeps_adev.
  - intro r. pose proof (stop_peek peek storage hd w r) as Hs.
    destruct r; trivial.
  - rewrite (stop_peek peek storage). apply ldiff_u32_ldiff.
  - now rewrite (stop_peek peek storage).
Qed.

Lemma soft_reset_prefix_peek (w : world P) (r : reg) :
  peek (hw (run_world
              (uvd_v6_0_stop hd ;;
               WREG32_P mmSRBM_SOFT_RESET
                 (SRBM_SOFT_RESET__SOFT_RESET_UVD_MASK hd)
                 (Z.lnot (SRBM_SOFT_RESET__SOFT_RESET_UVD_MASK hd)) ;;
               mdelay 5) w)) r =
    match r with
    | mmSRBM_SOFT_RESET =>
        u32 (Z.lor (u32 (peek (hw w) mmSRBM_SOFT_RESET))
                   (SRBM_SOFT_RESET__SOFT_RESET_UVD_MASK hd))
    | _ => peek (hw (run_world (uvd_v6_0_stop hd) w)) r
    end.
Proof.
  rewrite !run_world_bind, (peek_mdelay_run peek storage),
    (peek_WREG32_P peek storage), rmw_set_gen.
  rewrite (stop_peek peek storage hd w mmSRBM_SOFT_RESET).
  destruct r; reflexivity.
Qed.

End StorageRestartFacts.

(** X17. On hardware whose registers are storage and whose status reports
    the VCPU booted, start answers 0 and leaves the ring ready to be fed:
    hardware read and write pointers and the software write pointer are 0,
    the soft-reset register is 0 and the UVD bit of the SRBM reset is
    clear, the VCPU clock is on, the memory interface is no longer stalled
    (bit 8 of UVD_LMI_CTRL2 clear), both interrupt enable bits are set, bit
    2 of the status is clear while bit 1 still reports booted, and the ring
    control has its no-fetch bit clear.  Every register holds what the
    tables [reset_regs] and [ring_regs] give. *)
Theorem uvd_v6_0_start_ready_state
  (P : platform) (peek : hw_state P -> reg -> Z) (hd : headers)
  (w : world P) :
  stores_registers P peek ->
  Z.land (u32 (peek (hw w) mmUVD_STATUS)) 2 <> 0 ->
  let w' := run_world (uvd_v6_0_start hd) w in
  run_val (uvd_v6_0_start hd) w = 0 /\
  (peek (hw w') mmUVD_RBC_RB_RPTR = 0 /\
   peek (hw w') mmUVD_RBC_RB_WPTR = 0 /\
   wptr (ring (uvd (adev w'))) = 0) /\
  (peek (hw w') mmUVD_SOFT_RESET = 0 /\
   Z.land (peek (hw w') mmSRBM_SOFT_RESET)
          (SRBM_SOFT_RESET__SOFT_RESET_UVD_MASK hd) = 0 /\
   peek (hw w') mmUVD_VCPU_CNTL = 0x200 /\
   Z.land (peek (hw w') mmUVD_LMI_CTRL2) 0x100 = 0) /\
  (Z.land (peek (hw w') mmUVD_MASTINT_EN) 6 = 6 /\
   Z.land (peek (hw w') mmUVD_STATUS) 4 = 0 /\
   Z.land (u32 (peek (hw w') mmUVD_STATUS)) 2 <> 0 /\
   Z.land (peek (hw w') mmUVD_RBC_RB_CNTL)
          (UVD_RBC_RB_CNTL__RB_NO_FETCH_MASK hd) = 0) /\
  adev w' = adev_map_ring (ring_set_wptr 0) (adev w) /\
  forall r : reg,
    peek (hw w') r =
      ring_regs hd (adev w) (reset_regs hd (adev w) (peek (hw w))) r.
Proof.
  intros Hst Hb w'.
  assert (Hb' : status_booted (peek (hw w) mmUVD_STATUS) = true)
    by (now apply nonzero_true).
  assert (Hp : forall r, peek (hw w') r =
             ring_regs hd (adev w) (reset_regs hd (adev w) (peek (hw w))) r).
  { intro r. unfold w'. now rewrite (peek_start peek Hst), Hb'. }
  assert (Ha : adev w' = adev_map_ring (ring_set_wptr 0) (adev w)).
  { unfold w'. now rewrite (adev_start peek Hst), Hb'. }
  split; [now rewrite (val_start peek Hst), Hb'|].
  split; [|split; [|split; [|split; [exact Ha|exact Hp]]]].
  - rewrite !Hp, Ha. repeat split.
  - rewrite !Hp. unfold ring_regs, reset_regs. cbv beta iota.
    repeat split; apply Z.land_ldiff.
  - rewrite !Hp. unfold ring_regs, reset_regs. cbv beta iota.
    split; [apply land_lor_same|].
    split; [apply Z.land_ldiff|].
    split; [|apply Z.land_ldiff].
    intro H. apply Hb. rewrite <- H.
    bitwise n.
    destruct (n <? 32), (Z.testbit (peek (hw w) mmUVD_STATUS) n) eqn:E1,
      (Z.testbit 4 n) eqn:E4, (Z.testbit 2 n) eqn:E2; try reflexivity.
    exfalso. clear - E4 E2 H0.
    destruct n as [|[p|p|]|]; cbn in E4, E2; try discriminate;
      destruct p; discriminate.
Qed.

Lemma uvd_v6_0_start_ready_state_witness :
  hw (run_world (uvd_v6_0_start sample_headers)
        (Build_world (P:=regfile_platform) booted_regfile sample_adev))
     mmUVD_MASTINT_EN = 0xFFFFFFFF.
Proof.
  refine (proj2 (proj2 (proj2 (proj2 (proj2
            (uvd_v6_0_start_ready_state regfile_platform (fun rf => rf)
               sample_headers
               (Build_world (P:=regfile_platform) booted_regfile sample_adev)
               regfile_stores_registers _))))) mmUVD_MASTINT_EN).
  vm_compute. discriminate.
Defined.

(** X18. Gating and then ungating the block (set_powergating_state with
    GATE, then with UNGATE: stop followed by start) on hardware whose
    registers are storage and whose status reports the VCPU booted ends as
    a single start does: same answer, same device data, same content of
    every register.  When the status does not report it booted the two
    can differ: after the cycle the ring control holds the idle value stop
    wrote, while after a failed start alone it holds what it held on
    entry. *)
Theorem uvd_v6_0_powergating_cycle
  (P : platform) (peek : hw_state P -> reg -> Z) (hd : headers)
  (w : world P) :
  stores_registers P peek ->
  let cycle :=
    uvd_v6_0_set_powergating_state hd AMD_PG_STATE_GATE ;;
    uvd_v6_0_set_powergating_state hd AMD_PG_STATE_UNGATE in
  (Z.land (u32 (peek (hw w) mmUVD_STATUS)) 2 <> 0 ->
     run_val cycle w = run_val (uvd_v6_0_start hd) w /\
     adev (run_world cycle w) = adev (run_world (uvd_v6_0_start hd) w) /\
     forall r : reg,
       peek (hw (run_world cycle w)) r =
       peek (hw (run_world (uvd_v6_0_start hd) w)) r) /\
  (Z.land (u32 (peek (hw w) mmUVD_STATUS)) 2 = 0 ->
     peek (hw (run_world cycle w)) mmUVD_RBC_RB_CNTL = 0x11010101 /\
     peek (hw (run_world (uvd_v6_0_start hd) w)) mmUVD_RBC_RB_CNTL =
       peek (hw w) mmUVD_RBC_RB_CNTL).
Proof.
  intros Hst cycle.
  assert (Hc : forall w0, cycle w0 =
                 (uvd_v6_0_stop hd ;; uvd_v6_0_start hd) w0).
  { intro w0. unfold cycle. cbn [uvd_v6_0_set_powergating_state].
    unfold bind, ret.
    destruct (uvd_v6_0_stop hd w0) as [[a w1] t1].
    destruct (uvd_v6_0_start hd w1) as [[b w2] t2].
    now rewrite app_nil_r. }
  unfold run_val, run_world in *. split; intro Hb.
  - rewrite Hc.
    apply (stop_then_start peek Hst hd w). now apply nonzero_true.
  - apply nonzero_false in Hb. fold (status_booted (peek (hw w) mmUVD_STATUS)) in Hb.
    rewrite Hc. fold (run_world (uvd_v6_0_stop hd ;; uvd_v6_0_start hd) w).
    fold (run_world (uvd_v6_0_start hd) w).
    rewrite run_world_bind, !(peek_start peek Hst).
    rewrite (stop_peek peek Hst hd w mmUVD_STATUS), Hb.
    unfold reset_regs. cbv beta iota.
    now rewrite (stop_peek peek Hst hd w mmUVD_RBC_RB_CNTL).
Qed.

Lemma uvd_v6_0_powergating_cycle_witness :
  run_val (uvd_v6_0_set_powergating_state sample_headers AMD_PG_STATE_GATE ;;
           uvd_v6_0_set_powergating_state sample_headers AMD_PG_STATE_UNGATE)
    (Build_world (P:=regfile_platform) booted_regfile sample_adev)
  = run_val (uvd_v6_0_start sample_headers)
      (Build_world (P:=regfile_platform) booted_regfile sample_adev).
Proof.
  refine (proj1 (proj1 (uvd_v6_0_powergating_cycle regfile_platform
                   (fun rf => rf) sample_headers
                   (Build_world (P:=regfile_platform) booted_regfile
                                sample_adev)
                   regfile_stores_registers) _)).
  vm_compute. discriminate.
Defined.

(** X19. On hardware whose registers are storage and whose status reports
    the VCPU booted, soft_reset ends as a single start does: same answer
    (0), same device data, same content of every register; the stop and the
    SRBM reset pulse before the start leave nothing behind. *)
Theorem uvd_v6_0_soft_reset_storage
  (P : platform) (peek : hw_state P -> reg -> Z) (hd : headers)
  (w : world P) :
  stores_registers P peek ->
  Z.land (u32 (peek (hw w) mmUVD_STATUS)) 2 <> 0 ->
  run_val (uvd_v6_0_soft_reset hd) w = 0 /\
  adev (run_world (uvd_v6_0_soft_reset hd) w) =
    adev (run_world (uvd_v6_0_start hd) w) /\
  forall r : reg,
    peek (hw (run_world (uvd_v6_0_soft_reset hd) w)) r =
    peek (hw (run_world (uvd_v6_0_start hd) w)) r.
Proof.
  intros Hst Hb. apply nonzero_true in Hb.
  fold (status_booted (peek (hw w) mmUVD_STATUS)) in Hb.
  set (pre := uvd_v6_0_stop (P:=P) hd ;;
              WREG32_P mmSRBM_SOFT_RESET
                (SRBM_SOFT_RESET__SOFT_RESET_UVD_MASK hd)
                (Z.lnot (SRBM_SOFT_RESET__SOFT_RESET_UVD_MASK hd)) ;;
              mdelay 5).
  assert (Hc : forall w0, uvd_v6_0_soft_reset hd w0 =
                          (pre ;; uvd_v6_0_start hd) w0).
  { intro w0. unfold uvd_v6_0_soft_reset, pre, bind.
    destruct (uvd_v6_0_stop hd w0) as [[a w1] t1].
    destruct (WREG32_P _ _ _ w1) as [[b w2] t2].
    destruct (mdelay 5 w2) as [[c w3] t3].
    destruct (uvd_v6_0_start hd w3) as [[e w4] t4].
    now rewrite !app_assoc. }
  unfold run_val, run_world in *. rewrite Hc.
  destruct (start_after_prefix peek Hst hd pre w) as (Hv & Ha & Hp).
  - unfold pre. rewrite !run_world_bind.
    now rewrite (keeps_mdelay _ _), (keeps_WREG32_P _ _ _ _),
      (stop_keeps_adev hd w).
  - intro r. unfold pre.
    pose proof (soft_reset_prefix_peek peek Hst hd w r) as H1.
    pose proof (stop_peek peek Hst hd w r) as H2.
    destruct r; trivial; congruence.
  - unfold pre. rewrite (soft_reset_prefix_peek peek Hst hd w mmUVD_LMI_CTRL2).
    rewrite (stop_peek peek Hst). apply ldiff_u32_ldiff.
  - unfold pre.
    rewrite (soft_reset_prefix_peek peek Hst hd w mmSRBM_SOFT_RESET).
    apply ldiff_u32_lor.
  - exact Hb.
  - unfold run_val, run_world in *. rewrite Hv. split; [|split; assumption].
    fold (run_val (uvd_v6_0_start hd) w).
    now rewrite (val_start peek Hst), Hb.
Qed.

Lemma uvd_v6_0_soft_reset_storage_witness :
  run_val (uvd_v6_0_soft_reset sample_headers)
    (Build_world (P:=regfile_platform) booted_regfile sample_adev) = 0.
Proof.
  refine (proj1 (uvd_v6_0_soft_reset_storage regfile_platform
                   (fun rf => rf) sample_headers
                   (Build_world (P:=regfile_platform) booted_regfile
                                sample_adev)
                   regfile_stores_registers _)).
  vm_compute. discriminate.
Defined.
